(** * fin-agent-ui backend: tool dispatcher, script synthesizer, script
    executor and orchestration loop

    A shallow embedding of
      backend/ai_financial_agent/tools.py
      backend/ai_financial_agent/script_generator.py
      backend/ai_financial_agent/agent.py
      backend/api.py (query_agent)
    Python objects are modelled as they are used by the code: [str] as
    [string] (code points below 256), [dict] literals as association lists
    in insertion order, the file system as a finite map from path strings
    to nodes, and statements with side effects as computations in a
    state-and-exception monad over an explicit [world].

    Left out: [print] and [logger.info]/[logger.debug] output, the
    streamed mode of the model exchange (never used by [query_agent]), the
    persistent-environment executor (never called), and the HTTP routes
    other than [query_agent]. *)

From Stdlib Require Import Ascii String List Bool Arith Lia.
From stdpp Require Import base option list gmap strings pretty.

Local Open Scope string_scope.

(** ** Python [str] methods used by the backend *)

Module PyStr.

(** The line feed, written as an escape in the Python source. *)
Definition nl : string := String "010"%char EmptyString.

(** [str.isspace] on one code point of the Latin-1 range. *)
Definition is_space (c : ascii) : bool :=
  match c with
  | "009" | "010" | "011" | "012" | "013"
  | "028" | "029" | "030" | "031" | " " | "133" | "160" => true
  | _ => false
  end%char.

(** [s.startswith(p)] *)
Fixpoint startswith (p s : string) : bool :=
  match p, s with
  | EmptyString, _ => true
  | String _ _, EmptyString => false
  | String a p', String b s' => Ascii.eqb a b && startswith p' s'
  end.

(** [s.endswith(p)] *)
Fixpoint endswith (p s : string) : bool :=
  match s with
  | EmptyString => String.eqb p EmptyString
  | String _ s' => String.eqb p s || endswith p s'
  end.

(** [sub in s] *)
Fixpoint contains (sub s : string) : bool :=
  startswith sub s ||
  match s with
  | EmptyString => false
  | String _ s' => contains sub s'
  end.

(** [c in s] for one character. *)
Fixpoint has_char (c : ascii) (s : string) : bool :=
  match s with
  | EmptyString => false
  | String b s' => Ascii.eqb c b || has_char c s'
  end.

(** Left-to-right scan behind [str.split(sep)] for a non-empty [sep]:
    the first piece and the remaining pieces.  [skip] counts the
    characters of a separator occurrence still to be passed over. *)
Fixpoint split_go (sep : string) (skip : nat) (s : string)
  : string * list string :=
  match s with
  | EmptyString => (EmptyString, [])
  | String c s' =>
      match skip with
      | S k => split_go sep k s'
      | O =>
          if startswith sep s
          then (EmptyString,
                let '(p, ps) := split_go sep (String.length sep - 1) s' in
                p :: ps)
          else let '(p, ps) := split_go sep 0 s' in (String c p, ps)
      end
  end.

(** [s.split(sep)]; both separators used by the backend are literals
    and non-empty. *)
Definition split (sep s : string) : list string :=
  let '(p, ps) := split_go sep 0 s in p :: ps.

(** [s.replace(old, new)] for a non-empty [old]: non-overlapping
    occurrences, leftmost first. *)
Fixpoint replace_go (old new : string) (skip : nat) (s : string) : string :=
  match s with
  | EmptyString => EmptyString
  | String c s' =>
      match skip with
      | S k => replace_go old new k s'
      | O =>
          if startswith old s
          then new +:+ replace_go old new (String.length old - 1) s'
          else String c (replace_go old new 0 s')
      end
  end.

Definition replace (old new s : string) : string := replace_go old new 0 s.

(** [s.lstrip()], [s.rstrip()], [s.strip()] *)
Fixpoint lstrip (s : string) : string :=
  match s with
  | EmptyString => EmptyString
  | String c s' => if is_space c then lstrip s' else s
  end.

Fixpoint rstrip (s : string) : string :=
  match s with
  | EmptyString => EmptyString
  | String c s' =>
      match rstrip s' with
      | EmptyString => if is_space c then EmptyString else String c EmptyString
      | r => String c r
      end
  end.

Definition strip (s : string) : string := rstrip (lstrip s).

(** [os.path.join(a, b)] on POSIX for two components: an absolute
    second component discards the first. *)
Definition path_join (a b : string) : string :=
  if startswith "/" b then b
  else if String.eqb a EmptyString then b
  else if endswith "/" a then a +:+ b
  else a +:+ "/" +:+ b.

End PyStr.




(** ** Python values, dictionaries and exceptions *)

(** The values that occur in tool arguments and tool results. *)
#[local] Set Warnings "-register-all".
Inductive pyval : Type :=
| VNone
| VBool (b : bool)
| VInt (n : nat)
| VStr (s : string)
| VList (l : list pyval)
| VTuple (l : list pyval)
| VDict (d : list (string * pyval)).

(** A [dict] with string keys, in insertion order. *)
#[local] Set Warnings "register-all".
Abbreviation dict := (list (string * pyval)).

(** [d.get(k)] *)
Fixpoint dict_get (k : string) (d : dict) : option pyval :=
  match d with
  | [] => None
  | (k', v) :: d' => if String.eqb k k' then Some v else dict_get k d'
  end.

(** [k in d] *)
Definition dict_in (k : string) (d : dict) : bool :=
  match dict_get k d with Some _ => true | None => false end.

(** [d.get(k, default)] *)
Definition dict_get_default (k : string) (default : pyval) (d : dict) : pyval :=
  match dict_get k d with Some v => v | None => default end.

(** [v == "..."] for a value and a string literal. *)
Definition is_str (s : string) (v : option pyval) : bool :=
  match v with Some (VStr s') => String.eqb s' s | _ => false end.

(** Truthiness, as tested by [if x:] and [not x]. *)
Definition truthy (v : pyval) : bool :=
  match v with
  | VNone => false
  | VBool b => b
  | VInt n => negb (Nat.eqb n 0)
  | VStr s => negb (String.eqb s EmptyString)
  | VList l | VTuple l => match l with [] => false | _ => true end
  | VDict d => match d with [] => false | _ => true end
  end.

(** Exceptions, by the classes the handlers of the backend tell apart.
    [Exception_] stands for every other subclass of [Exception]
    (OSError, ValueError, JSONDecodeError, ...); [BaseException_] for what
    is not an [Exception] (KeyboardInterrupt, SystemExit).  [msg] is
    [str(e)]. *)
Inductive exn : Type :=
| TypeError (msg : string)
| CalledProcessError (msg stderr : string)
| Exception_ (msg : string)
| BaseException_ (msg : string).

Definition exn_str (e : exn) : string :=
  match e with
  | TypeError m | CalledProcessError m _ | Exception_ m | BaseException_ m => m
  end.

(** [isinstance(e, Exception)] *)
Definition is_Exception (e : exn) : bool :=
  match e with BaseException_ _ => false | _ => true end.

Inductive outcome (A : Type) : Type :=
| Ret (a : A)
| Raise (e : exn).
Arguments Ret {A} a.
Arguments Raise {A} e.

(** ** The dataset, the model exchange and the file system *)

(** A pandas DataFrame as far as the tools read it. *)
Record DataFrame : Type := {
  df_columns : list string;
  df_dtypes : list string;
  df_rows : list (list pyval)
}.

(** [data.shape] *)
Definition df_shape (df : DataFrame) : pyval :=
  VTuple [VInt (length (df_rows df)); VInt (length (df_columns df))].

(** [data.head(n).to_dict(orient="records")] *)
Definition df_head_records (n : nat) (df : DataFrame) : pyval :=
  VList (map (fun r => VDict (combine (df_columns df) r)) (firstn n (df_rows df))).

(** An output item of a model response; the loop reads [type], [call_id],
    [name] and [arguments]. *)
Record output_item : Type := {
  item_type : string;
  item_call_id : string;
  item_name : string;
  item_arguments : string
}.

(** An entry of [agent.messages]: a dict, or a function-call item
    appended as the object it is. *)
Inductive message : Type :=
| MsgDict (d : dict)
| MsgItem (it : output_item).

(** The keyword arguments of [client.responses.create]. *)
Record request : Type := {
  req_model : string;
  req_input : list message;
  req_instructions : option string;
  req_tools : bool;
  req_max_output_tokens : option nat
}.

(** A non-streamed response envelope. [resp_usage = None] is a response
    whose [usage] attribute is [None]. *)
Record response : Type := {
  resp_output_text : string;
  resp_output : list output_item;
  resp_usage : option dict
}.

(** [subprocess.CompletedProcess] with captured text output. *)
Record completed_process : Type := {
  returncode : nat;
  proc_stdout : string;
  proc_stderr : string
}.

Inductive node : Type :=
| Dir
| File (content : string).

(** What the backend does to its surroundings, in order. *)
Inductive event : Type :=
| EvModelRequest (req : request)
| EvVenvCreate (dir : string)
| EvSpawn (argv : list string)
| EvLogWarning (msg : string).

(** [p] is [d] itself or lies below it. *)
Definition under (d p : string) : bool :=
  String.eqb p d || PyStr.startswith (d +:+ "/") p.

(** The state the backend reads and writes: the disk, the names
    [tempfile] will try next, the agent object (Dataset Context and
    message list), the message store, and the trace of external
    interactions. *)
Record world : Type := {
  fs : gmap string node;
  tmp_names : list string;
  agent_data : option DataFrame;
  agent_data_file : option string;
  agent_messages : list message;
  db_conversations : list (string * string);
  db_messages : list (nat * dict);
  trace : list event
}.

Definition set_fs (f : gmap string node) (w : world) : world :=
  {| fs := f; tmp_names := tmp_names w; agent_data := agent_data w;
     agent_data_file := agent_data_file w; agent_messages := agent_messages w;
     db_conversations := db_conversations w; db_messages := db_messages w; trace := trace w |}.

Definition set_tmp_names (l : list string) (w : world) : world :=
  {| fs := fs w; tmp_names := l; agent_data := agent_data w;
     agent_data_file := agent_data_file w; agent_messages := agent_messages w;
     db_conversations := db_conversations w; db_messages := db_messages w; trace := trace w |}.

Definition set_agent_data (d : option DataFrame) (w : world) : world :=
  {| fs := fs w; tmp_names := tmp_names w; agent_data := d;
     agent_data_file := agent_data_file w; agent_messages := agent_messages w;
     db_conversations := db_conversations w; db_messages := db_messages w; trace := trace w |}.

Definition set_agent_data_file (f : option string) (w : world) : world :=
  {| fs := fs w; tmp_names := tmp_names w; agent_data := agent_data w;
     agent_data_file := f; agent_messages := agent_messages w;
     db_conversations := db_conversations w; db_messages := db_messages w; trace := trace w |}.

Definition set_agent_messages (l : list message) (w : world) : world :=
  {| fs := fs w; tmp_names := tmp_names w; agent_data := agent_data w;
     agent_data_file := agent_data_file w; agent_messages := l;
     db_conversations := db_conversations w; db_messages := db_messages w; trace := trace w |}.

Definition set_db_messages (l : list (nat * dict)) (w : world) : world :=
  {| fs := fs w; tmp_names := tmp_names w; agent_data := agent_data w;
     agent_data_file := agent_data_file w; agent_messages := agent_messages w;
     db_conversations := db_conversations w; db_messages := l;
     trace := trace w |}.

Definition set_db_conversations (l : list (string * string)) (w : world) : world :=
  {| fs := fs w; tmp_names := tmp_names w; agent_data := agent_data w;
     agent_data_file := agent_data_file w; agent_messages := agent_messages w;
     db_conversations := l; db_messages := db_messages w;
     trace := trace w |}.

Definition set_trace (t : list event) (w : world) : world :=
  {| fs := fs w; tmp_names := tmp_names w; agent_data := agent_data w;
     agent_data_file := agent_data_file w; agent_messages := agent_messages w;
     db_conversations := db_conversations w; db_messages := db_messages w; trace := t |}.

(** What lies outside the repository: pandas, the model service, the
    [venv] module, child processes, [json] and [str] on results, and the
    prompt template's [format]. Child processes and [venv.create] may
    change the disk in any way. *)
Record Env : Type := {
  read_csv : string -> gmap string node -> outcome DataFrame;
  describe_json : DataFrame -> pyval;
  responses_create : request -> outcome response;
  venv_create : string -> gmap string node -> outcome unit * gmap string node;
  subprocess_run :
    list string -> gmap string node ->
    outcome completed_process * gmap string node;
  json_loads : string -> outcome pyval;
  json_dumps : pyval -> string;
  py_str : pyval -> string;
  format_script_prompt :
    string -> string -> DataFrame -> pyval -> nat -> string;
  agent_model : string;
  agent_instructions : string;
  os_name : string
}.

(** ** Computations: state and exceptions *)

Definition M (A : Type) : Type := world -> outcome A * world.

Definition ret {A} (a : A) : M A := fun w => (Ret a, w).

Definition raise {A} (e : exn) : M A := fun w => (Raise e, w).

Definition bind {A B} (m : M A) (k : A -> M B) : M B :=
  fun w =>
    match m w with
    | (Ret a, w') => k a w'
    | (Raise e, w') => (Raise e, w')
    end.

Declare Scope py_scope.
Delimit Scope py_scope with py.
Notation "x <- m ;; k" := (bind m (fun x => k))
  (at level 100, m at next level, right associativity) : py_scope.
Notation "m ;; k" := (bind m (fun _ => k))
  (at level 100, right associativity) : py_scope.
Local Open Scope py_scope.

Definition get_world : M world := fun w => (Ret w, w).

Definition modify (f : world -> world) : M unit := fun w => (Ret tt, f w).

Definition lift_outcome {A} (o : outcome A) : M A := fun w => (o, w).

(** [try: body / except ...:] — [handler e] is the matching clause's body,
    or [None] when no clause matches [e]. *)
Definition try_except {A} (body : M A) (handler : exn -> option (M A)) : M A :=
  fun w =>
    match body w with
    | (Ret a, w') => (Ret a, w')
    | (Raise e, w') =>
        match handler e with
        | Some h => h w'
        | None => (Raise e, w')
        end
    end.

Definition log_event (e : event) : M unit :=
  modify (fun w => set_trace (trace w ++ [e]) w).

(** ** File-system primitives *)

(** [os.path.exists(p)] *)
Definition os_path_exists (p : string) : M bool :=
  fun w => (Ret (match fs w !! p with Some _ => true | None => false end), w).

(** The entry name of [p] when [p] is a direct child of directory [d]. *)
Definition child_name (d p : string) : option string :=
  if PyStr.startswith (d +:+ "/") p then
    let n := String.substring (String.length d + 1) (String.length p) p in
    if negb (String.eqb n EmptyString) && negb (PyStr.has_char "/" n)
    then Some n else None
  else None.

Definition listdir_names (d : string) (f : gmap string node) : list string :=
  omap (fun kv : string * node => child_name d kv.1) (map_to_list f).

(** [os.listdir(d)] *)
Definition os_listdir (d : string) : M (list string) :=
  fun w =>
    match fs w !! d with
    | Some Dir => (Ret (listdir_names d (fs w)), w)
    | Some (File _) => (Raise (Exception_ "NotADirectoryError"), w)
    | None => (Raise (Exception_ "FileNotFoundError"), w)
    end.

(** [os.makedirs(d, exist_ok=True)] for a one-component path. *)
Definition os_makedirs (d : string) : M unit :=
  fun w =>
    match fs w !! d with
    | Some Dir => (Ret tt, w)
    | Some (File _) => (Raise (Exception_ "FileExistsError"), w)
    | None => (Ret tt, set_fs (<[d := Dir]> (fs w)) w)
    end.

(** [with open(p, "w") as f: f.write(content)] *)
Definition write_file (p content : string) : M unit :=
  fun w =>
    match fs w !! p with
    | Some Dir => (Raise (Exception_ "IsADirectoryError"), w)
    | _ => (Ret tt, set_fs (<[p := File content]> (fs w)) w)
    end.

(** [shutil.rmtree(d)] as [TemporaryDirectory.cleanup] uses it: what
    is already gone is ignored. *)
Definition rmtree (d : string) (f : gmap string node) : gmap string node :=
  filter (fun kv : string * node => under d kv.1 = false) f.

(** The first candidate name that is not taken, and the names left. *)
Fixpoint pick_fresh (f : gmap string node) (names : list string)
  : option (string * list string) :=
  match names with
  | [] => None
  | n :: rest =>
      match f !! n with
      | None => Some (n, rest)
      | Some _ => pick_fresh f rest
      end
  end.

(** [tempfile.mkdtemp()] *)
Definition mkdtemp : M string :=
  fun w =>
    match pick_fresh (fs w) (tmp_names w) with
    | Some (d, rest) =>
        (Ret d, set_tmp_names rest (set_fs (<[d := Dir]> (fs w)) w))
    | None =>
        (Raise (Exception_ "No usable temporary directory name found"),
         set_tmp_names [] w)
    end.

(** [with tempfile.TemporaryDirectory() as d: body] — the directory is
    removed when the block is left, by return or by exception. *)
Definition with_TemporaryDirectory {A} (body : string -> M A) : M A :=
  d <- mkdtemp ;;
  fun w =>
    let '(r, w') := body d w in
    (r, set_fs (rmtree d (fs w')) w').

(** ** Keyword-argument calls *)

(** The values bound to [params] when a function whose parameters are all
    required is called with the unpacked mapping [kw] as its keyword
    arguments, or the [TypeError] the call raises. *)
Definition call_kwargs (params : list string) (kw : pyval)
  : outcome (list pyval) :=
  match kw with
  | VDict d =>
      if forallb (fun kv : string * pyval =>
                    existsb (String.eqb kv.1) params) d
      then
        match mapM (fun p => dict_get p d) params with
        | Some vs => Ret vs
        | None => Raise (TypeError "missing required positional argument")
        end
      else Raise (TypeError "got an unexpected keyword argument")
  | _ => Raise (TypeError "argument after ** must be a mapping")
  end.

(** [json.dumps]/[str] of a possibly absent value. *)
Definition opt_dict_val (o : option dict) : pyval :=
  match o with Some d => VDict d | None => VNone end.

Definition opt_str_val (o : option string) : pyval :=
  match o with Some s => VStr s | None => VNone end.

(** ** tools.py and script_generator.py *)

Section Backend.

Variable E : Env.

(** The dict literal of every error result. *)
Definition err (msg : string) : dict :=
  [("status", VStr "error"); ("message", VStr msg)].

(** Reading an attribute of [self.agent.data]. *)
Definition agent_data_attr : M DataFrame :=
  fun w =>
    match agent_data w with
    | Some df => (Ret df, w)
    | None =>
        (Raise (Exception_ "'NoneType' object has no attribute"), w)
    end.

(** [Tools.get_dataset_list] *)
Definition get_dataset_list : M dict :=
  let dataset_dir := "datasets" in
  ex <- os_path_exists dataset_dir ;;
  if negb ex then
    ret (err ("Directory '" +:+ dataset_dir +:+ "' not found!"))
  else
    names <- os_listdir dataset_dir ;;
    let files := List.filter (PyStr.endswith ".csv") names in
    match files with
    | [] =>
        ret [("status", VStr "empty");
             ("message",
              VStr "No CSV files found in the 'datasets' directory.")]
    | _ =>
        ret [("status", VStr "success");
             ("datasets", VList (map VStr files))]
    end.

(** [Tools.load_dataset]. [os.path.join] raises [TypeError] on a
    [filename] that is not a string. *)
Definition load_dataset (filename : pyval) : M dict :=
  match filename with
  | VStr name =>
      let file_path := PyStr.path_join "datasets" name in
      ex <- os_path_exists file_path ;;
      if negb ex then
        ret (err ("File '" +:+ file_path +:+ "' not found!"))
      else
        try_except
          (df <- (fun w => (read_csv E file_path (fs w), w)) ;;
           modify (set_agent_data (Some df)) ;;
           modify (set_agent_data_file (Some name)) ;;
           shape <- (d <- agent_data_attr ;; ret (df_shape d)) ;;
           columns <- (d <- agent_data_attr ;;
                       ret (VList (map VStr (df_columns d)))) ;;
           preview <- (d <- agent_data_attr ;; ret (df_head_records 10 d)) ;;
           ret [("status", VStr "success");
                ("filename", filename);
                ("shape", shape);
                ("columns", columns);
                ("preview", preview)])
          (fun e =>
             if is_Exception e
             then Some (ret (err ("Error loading dataset: " +:+ exn_str e)))
             else None)
  | _ =>
      raise (TypeError "expected str, bytes or os.PathLike object")
  end.

(** [Tools.get_data_preview] *)
Definition get_data_preview : M dict :=
  w <- get_world ;;
  match agent_data w with
  | None => ret (err "No dataset loaded yet.")
  | Some df =>
      ret [("status", VStr "success");
           ("filename", opt_str_val (agent_data_file w));
           ("preview", df_head_records 5 df)]
  end.

(** [Tools.get_data_info] *)
Definition get_data_info : M dict :=
  w <- get_world ;;
  match agent_data w with
  | None => ret (err "No dataset loaded yet.")
  | Some df =>
      ret [("status", VStr "success");
           ("filename", opt_str_val (agent_data_file w));
           ("shape", df_shape df);
           ("columns", VList (map VStr (df_columns df)));
           ("dtypes",
            VDict (combine (df_columns df) (map VStr (df_dtypes df))));
           ("summary", describe_json E df)]
  end.

(** script_generator.py: the parsing of [response.output_text] inside
    the [try] block of [generate_script]. Indexing the split at 1
    raises IndexError when there is no second piece. *)
Definition parse_output_text (output_text : string) : outcome dict :=
  if PyStr.contains "PACKAGES:" output_text then
    match nth_error (PyStr.split "PACKAGES:" output_text) 1 with
    | None => Raise (Exception_ "list index out of range")
    | Some after =>
        let packages_line :=
          PyStr.strip (hd EmptyString (PyStr.split PyStr.nl after)) in
        let packages := map PyStr.strip (PyStr.split "," packages_line) in
        let script :=
          PyStr.strip
            (PyStr.replace ("PACKAGES: " +:+ packages_line +:+ PyStr.nl)
                           EmptyString output_text) in
        Ret [("script", VStr script);
             ("packages", VList (map VStr packages))]
    end
  else
    Ret [("script", VStr output_text);
         ("packages", VList [VStr "numpy"; VStr "pandas"; VStr "matplotlib"])].

(** [client.responses.create(...)]: one request to the model service. *)
Definition client_responses_create (req : request) : M response :=
  log_event (EvModelRequest req) ;;
  lift_outcome (responses_create E req).

(** [generate_script]; the result is [None] or the script dict. *)
Definition generate_script (user_query : pyval) (dataset_path : string)
           (conversation_id : nat) : M (option dict) :=
  w <- get_world ;;
  df <- agent_data_attr ;;
  let prompt :=
    format_script_prompt E
      (match agent_data_file w with Some f => f | None => "None" end)
      dataset_path df user_query conversation_id in
  try_except
    (resp <- client_responses_create
               {| req_model := agent_model E;
                  req_input :=
                    [MsgDict [("role", VStr "user");
                              ("content", VStr prompt)]];
                  req_instructions := None;
                  req_tools := false;
                  req_max_output_tokens := Some 1000 |} ;;
     d <- lift_outcome (parse_output_text (resp_output_text resp)) ;;
     ret (Some d))
    (fun e => if is_Exception e then Some (ret None) else None).

(** [Tools._generate_standalone_script] only forwards its arguments. *)
Definition _generate_standalone_script := generate_script.

(** [Tools._clean_script] *)
Definition _clean_script (script : string) : string :=
  PyStr.strip
    (PyStr.replace "```" EmptyString
       (PyStr.replace "```python" EmptyString script)).

(** [subprocess.run(argv, capture_output=True, text=True)] *)
Definition subprocess_run_ (argv : list string) : M completed_process :=
  log_event (EvSpawn argv) ;;
  fun w =>
    let '(r, f) := subprocess_run E argv (fs w) in
    (r, set_fs f w).

(** The same with [check=True]. *)
Definition subprocess_run_check (argv : list string) : M completed_process :=
  r <- subprocess_run_ argv ;;
  if Nat.eqb (returncode r) 0 then ret r
  else raise (CalledProcessError "Command returned non-zero exit status"
                                 (proc_stderr r)).

(** [venv.create(d, with_pip=True)] *)
Definition venv_create_ (d : string) : M unit :=
  log_event (EvVenvCreate d) ;;
  fun w =>
    let '(r, f) := venv_create E d (fs w) in
    (r, set_fs f w).

(** The interpreter of the environment, by platform. *)
Definition venv_python (venv_dir : string) : string :=
  if String.eqb (os_name E) "nt"
  then PyStr.path_join (PyStr.path_join venv_dir "Scripts") "python.exe"
  else PyStr.path_join (PyStr.path_join venv_dir "bin") "python".

Definition pip_argv (python_path requirements_path : string) : list string :=
  [python_path; "-m"; "pip"; "install"; "-r"; requirements_path].

(** The two [except] clauses shared by both executors. *)
Definition execute_handlers (e : exn) : option (M dict) :=
  match e with
  | CalledProcessError _ stderr =>
      Some (ret (err ("Failed to install required packages: " +:+ stderr)))
  | _ =>
      if is_Exception e
      then Some (ret (err ("Failed to execute script: " +:+ exn_str e)))
      else None
  end.

(** The [try] block from the install step on. *)
Definition install_and_run (python_path script_path requirements_path : string)
  : M dict :=
  subprocess_run_check (pip_argv python_path requirements_path) ;;
  result <- subprocess_run_ [python_path; script_path] ;;
  if Nat.eqb (returncode result) 0 then
    ret [("status", VStr "success");
         ("output", VStr (proc_stdout result));
         ("message", VStr "Script executed successfully")]
  else
    ret [("status", VStr "error");
         ("output", VStr (proc_stderr result));
         ("message",
          VStr ("Script execution failed: " +:+ proc_stderr result))].

(** [Tools.execute_standalone_script] *)
Definition execute_standalone_script (script_path requirements_path : string)
  : M dict :=
  with_TemporaryDirectory (fun venv_dir =>
    try_except
      (venv_create_ venv_dir ;;
       install_and_run (venv_python venv_dir) script_path requirements_path)
      execute_handlers).

(** [Tools.run_script] *)
Definition run_script (analysis_request : pyval) (conversation_id : nat)
  : M dict :=
  w <- get_world ;;
  match agent_data w with
  | None => ret (err "No dataset loaded. Please load a dataset first.")
  | Some _ =>
      dataset_path <-
        match agent_data_file w with
        | Some f => ret (PyStr.path_join "datasets" f)
        | None => raise (TypeError "expected str, bytes or os.PathLike object")
        end ;;
      script_info <-
        _generate_standalone_script analysis_request dataset_path
                                    conversation_id ;;
      match script_info with
      | None => ret (err "Failed to generate analysis script.")
      | Some info =>
          match dict_get "script" info with
          | Some (VStr script0) =>
              if negb (truthy (VStr script0)) then
                ret (err "Failed to generate analysis script.")
              else
                let required_packages :=
                  dict_get_default "packages"
                    (VList [VStr "numpy"; VStr "pandas"; VStr "matplotlib"])
                    info in
                let script := _clean_script script0 in
                os_makedirs "generated_scripts" ;;
                let script_path :=
                  PyStr.path_join "generated_scripts" "analysis_script.py" in
                write_file script_path script ;;
                let requirements_path :=
                  PyStr.path_join "generated_scripts"
                                  "script_requirements.txt" in
                write_file requirements_path
                  (String.concat EmptyString
                     (map (fun p =>
                             match p with
                             | VStr s => s +:+ PyStr.nl
                             | _ => PyStr.nl
                             end)
                          (match required_packages with
                           | VList l => l
                           | _ => []
                           end))) ;;
                execution_result <-
                  execute_standalone_script script_path requirements_path ;;
                ret [("status",
                      VStr (if is_str "success"
                                 (dict_get "status" execution_result)
                            then "success" else "error"));
                     ("script", VStr script);
                     ("required_packages", required_packages);
                     ("script_path", VStr script_path);
                     ("requirements_path", VStr requirements_path);
                     ("execution_result", VDict execution_result);
                     ("message",
                      dict_get_default "message"
                        (VStr "Script execution complete.")
                        execution_result)]
          | _ => ret (err "Failed to generate analysis script.")
          end
      end
  end.

(** [Tools.call_function] *)
Definition call_function (tool_name : string) (tool_args : pyval)
           (conversation_id : nat) : M dict :=
  if String.eqb tool_name "get_dataset_list" then
    lift_outcome (call_kwargs [] tool_args) ;;
    get_dataset_list
  else if String.eqb tool_name "load_dataset" then
    vs <- lift_outcome (call_kwargs ["filename"] tool_args) ;;
    load_dataset (hd VNone vs)
  else if String.eqb tool_name "get_data_preview" then
    lift_outcome (call_kwargs [] tool_args) ;;
    get_data_preview
  else if String.eqb tool_name "get_data_info" then
    lift_outcome (call_kwargs [] tool_args) ;;
    get_data_info
  else if String.eqb tool_name "run_script" then
    vs <- lift_outcome
            (match tool_args with
             | VDict d =>
                 if dict_in "conversation_id" d
                 then Raise (TypeError
                               "got multiple values for keyword argument")
                 else call_kwargs ["analysis_request"; "conversation_id"]
                        (VDict (d ++ [("conversation_id",
                                       VInt conversation_id)]))
             | _ => Raise (TypeError "argument after ** must be a mapping")
             end) ;;
    tool_output <- run_script (hd VNone vs) conversation_id ;;
    if is_str "success" (dict_get "status" tool_output)
       && dict_in "output" tool_output
    then
      ret [("status", VStr "executed");
           ("message", dict_get_default "output" VNone tool_output)]
    else ret tool_output
  else
    ret (err ("Unknown tool: " +:+ tool_name)).

(** ** agent.py: one exchange with the model (non-streamed, the mode
    [query_agent] uses) *)

(** The dict returned by [process_user_input] and
    [handle_tool_response]; [final_tool_calls] is absent from the dict
    of the [except] branch. *)
Record agent_response : Type := {
  ar_final_tool_calls : option (list output_item);
  ar_needs_tool_call : bool;
  ar_output_text : string;
  ar_error : option string;
  ar_token_usage : option dict
}.

Definition is_function_call (it : output_item) : bool :=
  String.eqb (item_type it) "function_call".

Definition append_message (m : message) : M unit :=
  modify (fun w => set_agent_messages (agent_messages w ++ [m]) w).

(** The statements of the [try] block from [responses.create] on. *)
Definition exchange : M agent_response :=
  w <- get_world ;;
  resp <- client_responses_create
            {| req_model := agent_model E;
               req_input := agent_messages w;
               req_instructions := Some (agent_instructions E);
               req_tools := true;
               req_max_output_tokens := None |} ;;
  let output_text := resp_output_text resp in
  let final_tool_calls := List.filter is_function_call (resp_output resp) in
  token_usage <-
    match resp_usage resp with
    | Some u => ret u
    | None =>
        raise (Exception_ "'NoneType' object has no attribute 'model_dump'")
    end ;;
  (if negb (String.eqb output_text EmptyString)
   then append_message (MsgDict [("role", VStr "assistant");
                                 ("content", VStr output_text)])
   else ret tt) ;;
  ret {| ar_final_tool_calls := Some final_tool_calls;
         ar_needs_tool_call := existsb is_function_call final_tool_calls;
         ar_output_text := output_text;
         ar_error := None;
         ar_token_usage := Some token_usage |}.

(** The dict returned by the [except] branch. *)
Definition apology (text : string) (e : exn) : agent_response :=
  {| ar_final_tool_calls := None;
     ar_needs_tool_call := false;
     ar_output_text := text;
     ar_error := Some (exn_str e);
     ar_token_usage := None |}.

(** [AIFinancialAgent.process_user_input] *)
Definition process_user_input (user_input : string) : M agent_response :=
  try_except
    (append_message (MsgDict [("role", VStr "user");
                              ("content", VStr user_input)]) ;;
     exchange)
    (fun e =>
       if is_Exception e
       then Some (ret (apology
         "I'm having trouble processing your request. Please try again." e))
       else None).

(** [AIFinancialAgent.handle_tool_response] *)
Definition handle_tool_response : M agent_response :=
  try_except exchange
    (fun e =>
       if is_Exception e
       then Some (ret (apology
         "I'm having trouble processing the tool response. Please try again."
         e))
       else None).

(** ** api.py: [query_agent] *)

(** [db_manager.save_message] and [db_manager.create_conversation]: an
    append to the message log, and a new row whose id is returned. *)
Definition db_save_message (conversation_id : nat) (m : dict) : M unit :=
  modify (fun w => set_db_messages (db_messages w ++ [(conversation_id, m)]) w).

Definition db_create_conversation (name agent_id : string) : M nat :=
  fun w =>
    (Ret (S (length (db_conversations w))),
     set_db_conversations (db_conversations w ++ [(name, agent_id)]) w).

Definition max_tool_calls : nat := 5.

(** The body of the [for] loop over one batch, for one tool call. *)
Definition dispatch_tool_call (conversation_id : nat)
           (tool_results : list pyval) (tool_call : output_item)
  : M (list pyval) :=
  if negb (is_function_call tool_call) then ret tool_results
  else
    db_save_message conversation_id
      [("type", VStr "function_call");
       ("call_id", VStr (item_call_id tool_call));
       ("name", VStr (item_name tool_call));
       ("arguments", VStr (item_arguments tool_call))] ;;
    append_message (MsgItem tool_call) ;;
    let name := item_name tool_call in
    args <- lift_outcome (json_loads E (item_arguments tool_call)) ;;
    result <- call_function name args conversation_id ;;
    let tool_results :=
      (tool_results ++ [VDict [("tool", VStr name);
                               ("arguments", args);
                               ("result", VDict result)]])%list in
    db_save_message conversation_id
      [("type", VStr "function_call_output");
       ("call_id", VStr (item_call_id tool_call));
       ("output", VStr (json_dumps E (VDict result)))] ;;
    append_message
      (MsgDict [("type", VStr "function_call_output");
                ("call_id", VStr (item_call_id tool_call));
                ("output", VStr (py_str E (VDict result)))]) ;;
    ret tool_results.

(** The [for] loop over [final_tool_calls], in insertion order. *)
Fixpoint dispatch_batch (conversation_id : nat) (tool_results : list pyval)
         (calls : list output_item) : M (list pyval) :=
  match calls with
  | [] => ret tool_results
  | tool_call :: rest =>
      tool_results <-
        dispatch_tool_call conversation_id tool_results tool_call ;;
      dispatch_batch conversation_id tool_results rest
  end.

(** The [while] loop. [fuel] bounds the number of iterations the model
    is allowed to unfold; [None] is returned when it does not suffice. *)
Fixpoint tool_loop (fuel : nat) (conversation_id : nat)
         (agent_resp : agent_response) (tool_call_count : nat)
         (tool_results : list pyval)
  : M (option (agent_response * nat * list pyval)) :=
  match fuel with
  | O => ret None
  | S fuel' =>
      if ar_needs_tool_call agent_resp
         && (tool_call_count <? max_tool_calls)%nat
      then
        let tool_call_count := tool_call_count + 1 in
        tool_results <-
          match ar_final_tool_calls agent_resp with
          | Some ((_ :: _) as calls) =>
              dispatch_batch conversation_id tool_results calls
          | _ => ret tool_results
          end ;;
        agent_resp <- handle_tool_response ;;
        tool_loop fuel' conversation_id agent_resp tool_call_count
                  tool_results
      else ret (Some (agent_resp, tool_call_count, tool_results))
  end.

(** The text of the [logger.warning] issued when the limit is reached. *)
Definition limit_warning (conversation_id : nat) : string :=
  "Maximum tool call limit (" +:+ pretty max_tool_calls
    +:+ ") reached in conversation " +:+ pretty conversation_id +:+ "!".

(** [query_agent], from its first statement to the returned dict.
    [agent_response] always has the key "output_text", so the branch that
    warns of a missing text is never taken and is left out. *)
Definition query_agent (fuel : nat) (agent_id query : string)
           (conversation_id : option nat) : M (option dict) :=
  conversation_id <-
    match conversation_id with
    | None =>
        let conversation_name :=
          if (30 <? String.length query)%nat
          then String.substring 0 30 query +:+ "..." else query in
        cid <- db_create_conversation conversation_name agent_id ;;
        modify (set_agent_messages []) ;;
        ret cid
    | Some cid => ret cid
    end ;;
  db_save_message conversation_id
    [("type", VStr "message"); ("role", VStr "user");
     ("content", VStr query)] ;;
  agent_resp <- process_user_input query ;;
  looped <- tool_loop fuel conversation_id agent_resp 0 [] ;;
  match looped with
  | None => ret None
  | Some (agent_resp, tool_call_count, tool_results) =>
      (if (max_tool_calls <=? tool_call_count)%nat
       then log_event (EvLogWarning (limit_warning conversation_id))
       else ret tt) ;;
      db_save_message conversation_id
        [("type", VStr "message"); ("role", VStr "assistant");
         ("content", VStr (ar_output_text agent_resp));
         ("extra_data",
          match ar_token_usage agent_resp with
          | Some ((_ :: _) as u) => VStr (json_dumps E (VDict u))
          | _ => VNone
          end)] ;;
      ret (Some
        [("response", VStr (ar_output_text agent_resp));
         ("tool_results",
          match tool_results with
          | [] => VNone
          | _ => VList tool_results
          end);
         ("conversation_id", VInt conversation_id);
         ("extra_data",
          VStr (json_dumps E (opt_dict_val (ar_token_usage agent_resp))))])
  end.

End Backend.

(** ** The tool catalogue *)

(** An entry of the list returned by [Tools.get_tools]: every schema is
    strict and closed ("additionalProperties": False). *)
Record tool_schema : Type := {
  tool_name : string;
  tool_properties : list (string * string);
  tool_required : list string
}.

Definition get_tools : list tool_schema :=
  [ {| tool_name := "get_dataset_list"; tool_properties := [];
       tool_required := [] |};
    {| tool_name := "load_dataset";
       tool_properties := [("filename", "string")];
       tool_required := ["filename"] |};
    {| tool_name := "get_data_preview"; tool_properties := [];
       tool_required := [] |};
    {| tool_name := "get_data_info"; tool_properties := [];
       tool_required := [] |};
    {| tool_name := "run_script";
       tool_properties := [("analysis_request", "string")];
       tool_required := ["analysis_request"] |} ].

Definition find_tool (name : string) : option tool_schema :=
  List.find (fun t => String.eqb (tool_name t) name) get_tools.

(** The keys of [d] are declared properties and every required key is
    there. *)
Definition keys_conform (t : tool_schema) (d : dict) : bool :=
  forallb (fun kv : string * pyval =>
             existsb (String.eqb kv.1) (map fst (tool_properties t))) d
  && forallb (fun k => dict_in k d) (tool_required t).

(** ** Vocabulary of the statements *)

(** The marker the synthesizer looks for. *)
Definition marker : string := "PACKAGES:".

(** The world in which the dispatcher is entered for [tool_call]: the
    call has been saved and appended to the messages. *)
Definition at_dispatch (conversation_id : nat) (tool_call : output_item)
           (w : world) : world :=
  snd (bind
         (db_save_message conversation_id
            [("type", VStr "function_call");
             ("call_id", VStr (item_call_id tool_call));
             ("name", VStr (item_name tool_call));
             ("arguments", VStr (item_arguments tool_call))])
         (fun _ => append_message (MsgItem tool_call)) w).




(** [n] names a CSV file directly inside the storage location. *)
Definition is_dataset_file (w : world) (n : string) : Prop :=
  PyStr.endswith ".csv" n = true
  /\ PyStr.has_char "/" n = false
  /\ is_Some (fs w !! ("datasets/" +:+ n)).

(** The conversation a query runs in: the one given, or the one created. *)
Definition conversation_of (conversation_id : option nat) (w : world) : nat :=
  match conversation_id with
  | Some c => c
  | None => S (length (db_conversations w))
  end.

(** The exchange raised an [Exception], or its text yields an empty
    script. *)
Definition no_script (o : outcome response) : Prop :=
  match o with
  | Raise e => is_Exception e = true
  | Ret resp =>
      exists d, parse_output_text (resp_output_text resp) = Ret d
                /\ dict_get "script" d = Some (VStr EmptyString)
  end.

Section Vocabulary.

Variable E : Env.

(** The single request [generate_script] sends. *)
Definition generation_request (data_file dataset_path : string)
           (df : DataFrame) (analysis_request : pyval)
           (conversation_id : nat) : request :=
  {| req_model := agent_model E;
     req_input :=
       [MsgDict
          [("role", VStr "user");
           ("content",
            VStr (format_script_prompt E data_file dataset_path df
                    analysis_request conversation_id))]];
     req_instructions := None;
     req_tools := false;
     req_max_output_tokens := Some 1000 |}.




End Vocabulary.

(** ** A concrete environment and world, for examples *)

Module Scenario.

Definition dq : string := String "034"%char EmptyString.

(** The text of a JSON object with one string member. *)
Definition json_obj1 (k v : string) : string :=
  "{" +:+ dq +:+ k +:+ dq +:+ ": " +:+ dq +:+ v +:+ dq +:+ "}".

Definition prices : DataFrame :=
  {| df_columns := ["date"; "price"];
     df_dtypes := ["object"; "float64"];
     df_rows := [[VStr "2024-01-01"; VInt 101]; [VStr "2024-01-02"; VInt 102]] |}.

Definition usage : dict := [("total_tokens", VInt 42)].

Definition call (name arguments : string) : output_item :=
  {| item_type := "function_call"; item_call_id := "call_1";
     item_name := name; item_arguments := arguments |}.

(** A model whose every agent response is [agent_reply], and whose
    script-generation response is [script_text]. *)
Definition scripted (agent_reply : request -> outcome response)
           (script_text : outcome string)
           (pip run : completed_process) : Env :=
  {| read_csv := fun _ _ => Ret prices;
     describe_json := fun _ => VDict [];
     responses_create := fun req =>
       if req_tools req then agent_reply req
       else match script_text with
            | Ret t => Ret {| resp_output_text := t; resp_output := [];
                              resp_usage := Some usage |}
            | Raise e => Raise e
            end;
     venv_create := fun d f =>
       (Ret tt, <[PyStr.path_join (PyStr.path_join d "bin") "python"
                  := File EmptyString]> f);
     subprocess_run := fun argv f =>
       match argv with
       | [_; _] => (Ret run, f)
       | _ => (Ret pip, f)
       end;
     json_loads := fun s =>
       if String.eqb s "{}" then Ret (VDict [])
       else if String.eqb s (json_obj1 "filename" "prices.csv")
       then Ret (VDict [("filename", VStr "prices.csv")])
       else if String.eqb s (json_obj1 "analysis_request" "average price")
       then Ret (VDict [("analysis_request", VStr "average price")])
       else if String.eqb s (json_obj1 "file" "prices.csv")
       then Ret (VDict [("file", VStr "prices.csv")])
       else Raise (Exception_ "JSONDecodeError");
     json_dumps := fun v =>
       match v with VNone => "null" | VDict [] => "{}" | _ => "{...}" end;
     py_str := fun v =>
       match v with VNone => "None" | VDict [] => "{}" | _ => "{...}" end;
     format_script_prompt := fun data_file dataset_path _ _ _ =>
       "Generate a script for " +:+ data_file +:+ " at " +:+ dataset_path;
     agent_model := "gpt-4.1-mini";
     agent_instructions := "You are a financial data analyst.";
     os_name := "posix" |}.

Definition ok_process (out : string) : completed_process :=
  {| returncode := 0; proc_stdout := out; proc_stderr := EmptyString |}.

Definition failed_process (errtext : string) : completed_process :=
  {| returncode := 1; proc_stdout := EmptyString; proc_stderr := errtext |}.

Definition final_answer (text : string) : request -> outcome response :=
  fun _ => Ret {| resp_output_text := text; resp_output := [];
                  resp_usage := Some usage |}.

(** The end-to-end environment: the synthesizer answers with a
    declaration line and a one-line script, installation succeeds and
    the script prints 101.5. *)
Definition E0 : Env :=
  scripted (final_answer "The average price is 101.5.")
           (Ret ("PACKAGES: pandas" +:+ PyStr.nl +:+ "print(result)"))
           (ok_process EmptyString) (ok_process "101.5").

Definition disk : gmap string node :=
  <["datasets" := Dir]>
    (<["datasets/prices.csv" := File "date,price"]> ∅).

(** No dataset loaded yet. *)
Definition w_start : world :=
  {| fs := disk; tmp_names := ["/tmp/tmpa1"; "/tmp/tmpb2"];
     agent_data := None; agent_data_file := None; agent_messages := [];
     db_conversations := [("first", "finance")]; db_messages := [];
     trace := [] |}.

(** [prices.csv] loaded. *)
Definition w_loaded : world :=
  set_agent_data_file (Some "prices.csv")
    (set_agent_data (Some prices) w_start).

Definition tool_reply (text : string) (calls : list output_item)
  : response :=
  {| resp_output_text := text; resp_output := calls;
     resp_usage := Some usage |}.



(** A model that calls [load_dataset] with the key "file" in place of
    "filename". *)
Definition E_wrong_key : Env :=
  scripted
    (fun _ => Ret (tool_reply EmptyString
                     [call "load_dataset" (json_obj1 "file" "prices.csv")]))
    (Ret "print(1)") (ok_process EmptyString) (ok_process EmptyString).

(** The synthesizer's text ends with a line feed. *)
Definition E_trailing_newline : Env :=
  scripted (final_answer "Done.")
           (Ret ("PACKAGES: pandas" +:+ PyStr.nl +:+ "print(1)"
                 +:+ PyStr.nl))
           (ok_process EmptyString) (ok_process "1").

(** The installer exits with status 1. *)
Definition E_install_fails : Env :=
  scripted (final_answer "Done.")
           (Ret ("PACKAGES: nosuchpkg" +:+ PyStr.nl +:+ "print(1)"))
           (failed_process "ERROR: No matching distribution found")
           (ok_process "1").

(** The model service cannot be reached for script generation. *)
Definition E_model_down : Env :=
  scripted (final_answer "Done.") (Raise (Exception_ "Connection error."))
           (ok_process EmptyString) (ok_process "1").

Definition script_path : string := "generated_scripts/analysis_script.py".

Definition requirements_path : string :=
  "generated_scripts/script_requirements.txt".

(** No storage location; and one without CSV files. *)
Definition w_no_dir : world := set_fs ∅ w_start.

Definition w_empty_dir : world :=
  set_fs (<["datasets" := Dir]>
            (<["datasets/notes.txt" := File "todo"]> ∅)) w_start.

End Scenario.

(** ** More of the backend *)

(** A computation that leaves a component of the world as it was. *)
Definition preserves {X A} (proj : world -> X) (m : M A) : Prop :=
  forall w, proj (snd (m w)) = proj w.

(** The processes of the environment never change what is at path [p]. *)
Definition leaves_alone (E : Env) (p : string) : Prop :=
  (forall d f, (venv_create E d f).2 !! p = f !! p)
  /\ (forall argv f, (subprocess_run E argv f).2 !! p = f !! p).

(** The text written to the requirements file. *)
Definition requirements_text (packages : list string) : string :=
  String.concat EmptyString (map (fun p => p +:+ PyStr.nl) packages).

(** [agent.messages] when the first request of a query is sent: the
    history (emptied for a new conversation) and the user message. *)
Definition messages_at_first_request (conversation_id : option nat)
           (query : string) (w : world) : list message :=
  (match conversation_id with
   | Some _ => agent_messages w
   | None => []
   end ++ [MsgDict [("role", VStr "user"); ("content", VStr query)]])%list.

(** The first request of a query. *)
Definition first_request (E : Env) (conversation_id : option nat)
           (query : string) (w : world) : request :=
  {| req_model := agent_model E;
     req_input := messages_at_first_request conversation_id query w;
     req_instructions := Some (agent_instructions E);
     req_tools := true;
     req_max_output_tokens := None |}.

(** The user turn [query_agent] saves first. *)
Definition user_turn (query : string) : dict :=
  [("type", VStr "message"); ("role", VStr "user"); ("content", VStr query)].

(** The assistant turn [query_agent] saves last. *)
Definition assistant_turn (text : string) (extra_data : pyval) : dict :=
  [("type", VStr "message"); ("role", VStr "assistant");
   ("content", VStr text); ("extra_data", extra_data)].

(** The two turns saved for one dispatched tool call. *)
Definition call_turn (tool_call : output_item) : dict :=
  [("type", VStr "function_call");
   ("call_id", VStr (item_call_id tool_call));
   ("name", VStr (item_name tool_call));
   ("arguments", VStr (item_arguments tool_call))].

Definition output_turn (tool_call : output_item) (output : string) : dict :=
  [("type", VStr "function_call_output");
   ("call_id", VStr (item_call_id tool_call));
   ("output", VStr output)].

(** The "tool" entry of an element of [tool_results]. *)
Definition tool_of (v : pyval) : string :=
  match v with
  | VDict d =>
      match dict_get "tool" d with
      | Some (VStr s) => s
      | _ => EmptyString
      end
  | _ => EmptyString
  end.

(** [str(v)]: a string is its own text, any other value is rendered by
    the environment. *)
Definition str_ (E : Env) (v : pyval) : string :=
  match v with
  | VStr s => s
  | _ => py_str E v
  end.

Section MoreBackend.

Variable E : Env.

(** [os.path.join(os.path.dirname(os.path.abspath(script_path)),
    "script_venv")], which depends on the working directory. *)
Variable default_venv_dir : string -> string.

(** [Tools.execute_script_in_persistent_venv] *)
Definition execute_script_in_persistent_venv
           (script_path requirements_path : string) (venv_dir : option string)
  : M dict :=
  let venv_dir :=
    match venv_dir with
    | None => default_venv_dir script_path
    | Some d => d
    end in
  try_except
    (ex <- os_path_exists venv_dir ;;
     (if negb ex then venv_create_ E venv_dir else ret tt) ;;
     install_and_run E (venv_python E venv_dir) script_path requirements_path)
    (execute_handlers).

(** api.py, route [/analyze]: [run_script] is called with the keyword
    [analysis_request] alone. *)
Definition run_analysis_script (analysis_request : pyval) : M dict :=
  vs <- lift_outcome
          (call_kwargs ["analysis_request"; "conversation_id"]
                       (VDict [("analysis_request", analysis_request)])) ;;
  result <- run_script E (hd VNone vs)
                       (match nth 1 vs VNone with VInt n => n | _ => 0 end) ;;
  let response :=
    [("status", dict_get_default "status" (VStr "error") result);
     ("script", dict_get_default "script" VNone result);
     ("required_packages", dict_get_default "required_packages" VNone result);
     ("message", dict_get_default "message" VNone result)] in
  match dict_get "execution_result" result with
  | Some (VDict execution_result) =>
      match dict_get "output" execution_result with
      | Some out => ret (response ++ [("output", out)])%list
      | None => ret response
      end
  | _ => ret response
  end.

(** *** db/sqlite.py: the messages table

    The world keeps the arguments of every [save_message] call, in
    order; a row is what [save_message] extracts from them. Row ids count
    the insertions. Timestamps are not modelled. *)
Record row : Type := {
  row_id : nat;
  row_conversation_id : nat;
  row_message_type : pyval;
  row_content : pyval;
  row_role : pyval;
  row_call_id : pyval;
  row_function_name : pyval;
  row_extra_data : pyval
}.

(** The column values [DatabaseManager.save_message] inserts; they read
    back unchanged when each is text or NULL (see [storable]). *)
Definition message_row (id conversation_id : nat) (message : dict) : row :=
  let message_type := dict_get_default "type" (VStr "message") message in
  let extra_data := dict_get_default "extra_data" VNone message in
  if is_str "message" (Some message_type) then
    {| row_id := id; row_conversation_id := conversation_id;
       row_message_type := message_type;
       row_content := dict_get_default "content" (VStr EmptyString) message;
       row_role := dict_get_default "role" VNone message;
       row_call_id := VNone; row_function_name := VNone;
       row_extra_data := extra_data |}
  else if is_str "function_call" (Some message_type) then
    {| row_id := id; row_conversation_id := conversation_id;
       row_message_type := message_type;
       row_content := dict_get_default "arguments" (VDict []) message;
       row_role := VNone;
       row_call_id := dict_get_default "call_id" VNone message;
       row_function_name := dict_get_default "name" VNone message;
       row_extra_data := extra_data |}
  else if is_str "function_call_output" (Some message_type) then
    {| row_id := id; row_conversation_id := conversation_id;
       row_message_type := message_type;
       row_content :=
         VStr (str_ E (dict_get_default "output" (VStr EmptyString) message));
       row_role := VNone;
       row_call_id := dict_get_default "call_id" VNone message;
       row_function_name := VNone;
       row_extra_data := extra_data |}
  else
    {| row_id := id; row_conversation_id := conversation_id;
       row_message_type := message_type;
       row_content := VStr (json_dumps E (VDict message));
       row_role := VNone; row_call_id := VNone; row_function_name := VNone;
       row_extra_data := extra_data |}.

(** The table, in id order. *)
Definition db_rows (log : list (nat * dict)) : list row :=
  imap (fun i (cm : nat * dict) => message_row (S i) cm.1 cm.2) log.

(** The dict [DatabaseManager.get_messages] builds from one row (without
    its "timestamp" entry). The content of a row of another type is the
    dump of a dict; what parses to anything else is kept as "content". *)
Definition row_message (r : row) : dict :=
  let message :=
    [("id", VInt (row_id r)); ("type", row_message_type r);
     ("extra_data", row_extra_data r)] in
  if is_str "message" (Some (row_message_type r)) then
    (message ++ [("role", row_role r); ("content", row_content r)])%list
  else if is_str "function_call" (Some (row_message_type r)) then
    (message ++ [("call_id", row_call_id r); ("name", row_function_name r);
                 ("arguments",
                  match row_content r with
                  | VStr s =>
                      match json_loads E s with
                      | Ret v => v
                      | Raise _ => row_content r
                      end
                  | _ => row_content r
                  end)])%list
  else if is_str "function_call_output" (Some (row_message_type r)) then
    (message ++ [("call_id", row_call_id r); ("output", row_content r)])%list
  else
    match row_content r with
    | VStr s =>
        match json_loads E s with
        | Ret (VDict other_fields) =>
            fold_left (fun m (kv : string * pyval) =>
                         if dict_in kv.1 m
                         then map (fun kv' : string * pyval =>
                                     if String.eqb kv'.1 kv.1 then kv else kv')
                                  m
                         else (m ++ [kv])%list)
                      other_fields message
        | _ => (message ++ [("content", row_content r)])%list
        end
    | _ => (message ++ [("content", row_content r)])%list
    end.

(** [DatabaseManager.get_messages] *)
Definition get_messages (conversation_id : nat) (log : list (nat * dict))
  : list dict :=
  map row_message
      (List.filter (fun r => Nat.eqb (row_conversation_id r) conversation_id)
                   (db_rows log)).

(** [DatabaseManager.get_messages_for_openai]; subscripting a dict
    without the key raises KeyError. *)
Fixpoint openai_messages (messages : list dict) : outcome (list dict) :=
  match messages with
  | [] => Ret []
  | message :: rest =>
      match dict_get "type" message with
      | None => Raise (Exception_ "KeyError: 'type'")
      | Some t =>
          if is_str "message" (Some t) then
            match dict_get "role" message, dict_get "content" message with
            | Some r, Some c =>
                match openai_messages rest with
                | Ret l => Ret ([("role", r); ("content", c)] :: l)
                | Raise e => Raise e
                end
            | _, _ => Raise (Exception_ "KeyError")
            end
          else openai_messages rest
      end
  end.

Definition get_messages_for_openai (conversation_id : nat)
           (log : list (nat * dict)) : outcome (list dict) :=
  openai_messages (get_messages conversation_id log).

(** What a TEXT column gives back as it was stored: a string, and NULL
    where the column allows it. (sqlite3 refuses to bind a list or a dict
    and turns a number into text.) *)
Definition is_text (v : pyval) : bool :=
  match v with VStr _ => true | _ => false end.

Definition is_text_or_null (v : pyval) : bool :=
  match v with VStr _ | VNone => true | _ => false end.

(** The messages whose row reads back as [message_row] has it: one of the
    three types [save_message] tells apart, with text in every column. *)
Definition storable (message : dict) : bool :=
  let r := message_row 0 0 message in
  existsb (fun t => is_str t (Some (row_message_type r)))
          ["message"; "function_call"; "function_call_output"]
  && is_text (row_content r)
  && is_text_or_null (row_role r)
  && is_text_or_null (row_call_id r)
  && is_text_or_null (row_function_name r)
  && is_text_or_null (row_extra_data r).

(** The role and content of a logged message, when it is a message turn
    of [conversation_id]. *)
Definition role_turn (conversation_id : nat) (cm : nat * dict)
  : option dict :=
  if Nat.eqb cm.1 conversation_id
     && is_str "message"
               (Some (dict_get_default "type" (VStr "message") cm.2))
  then Some [("role", dict_get_default "role" VNone cm.2);
             ("content", dict_get_default "content" (VStr EmptyString) cm.2)]
  else None.

End MoreBackend.

(** *** api.py: the upload route *)

(** [os.path.basename] on POSIX: what follows the last "/". *)
Fixpoint basename (p : string) : string :=
  match p with
  | EmptyString => EmptyString
  | String c rest =>
      if PyStr.has_char "/" rest then basename rest
      else if Ascii.eqb c "/" then rest
      else p
  end.

(** The [except Exception] clauses of the route, which answer with
    status 500 and the given detail. *)
Definition http_500 {A} (detail : string) (e : exn) : option (M A) :=
  if is_Exception e
  then Some (raise (Exception_ ("500: " +:+ detail +:+ exn_str e)))
  else None.

(** [upload_dataset], for a file sent under [filename] with [content].
    The disk is keyed by paths relative to the working directory, so
    [os.path.join(os.getcwd(), "datasets")] is the entry "datasets". *)
Definition upload_dataset (filename content : string) : M dict :=
  if negb (PyStr.endswith ".csv" filename) then
    raise (Exception_ "400: Only CSV files are allowed")
  else
    let datasets_dir := "datasets" in
    try_except (os_makedirs datasets_dir)
               (http_500 "Failed to create datasets directory: ") ;;
    let safe_filename := basename filename in
    let file_path := PyStr.path_join datasets_dir safe_filename in
    try_except
      (write_file file_path content ;;
       ret [("status", VStr "success");
            ("filename", VStr safe_filename);
            ("message",
             VStr ("File '" +:+ safe_filename
                   +:+ "' uploaded successfully to datasets directory"))])
      (http_500 "Error uploading file: ").

(** *** agent.py: the streamed mode of an exchange *)

(** The events the loop over a streamed response tells apart, by their
    [type]; [SevOther] is any other type. *)
Inductive stream_event : Type :=
| SevCreated
| SevTextDelta (delta : string)
| SevTextDone (text : string)
| SevItemAdded (output_index : nat) (item : output_item)
| SevArgumentsDelta (output_index : nat) (delta : string)
| SevOther (type : string).

(** [final_tool_calls[index]] *)
Fixpoint calls_get (index : nat) (calls : list (nat * output_item))
  : option output_item :=
  match calls with
  | [] => None
  | (i, it) :: rest => if Nat.eqb i index then Some it else calls_get index rest
  end.

(** [final_tool_calls[index] = item]: an existing key keeps its place. *)
Fixpoint calls_set (index : nat) (item : output_item)
         (calls : list (nat * output_item)) : list (nat * output_item) :=
  match calls with
  | [] => [(index, item)]
  | (i, it) :: rest =>
      if Nat.eqb i index then (i, item) :: rest
      else (i, it) :: calls_set index item rest
  end.

Definition add_arguments (delta : string) (it : output_item) : output_item :=
  {| item_type := item_type it; item_call_id := item_call_id it;
     item_name := item_name it;
     item_arguments := item_arguments it +:+ delta |}.

(** One turn of [for event in response:]; printing aside, the state is
    [final_tool_calls] and [output_text]. *)
Definition stream_step (st : list (nat * output_item) * string)
           (event : stream_event) : list (nat * output_item) * string :=
  let '(final_tool_calls, output_text) := st in
  match event with
  | SevTextDone text => (final_tool_calls, text)
  | SevItemAdded index item => (calls_set index item final_tool_calls, output_text)
  | SevArgumentsDelta index delta =>
      match calls_get index final_tool_calls with
      | Some it =>
          (calls_set index (add_arguments delta it) final_tool_calls,
           output_text)
      | None => st
      end
  | _ => st
  end.

(** The whole loop, from [final_tool_calls = {}] and [output_text = ""]. *)
Definition accumulate_stream (events : list stream_event)
  : list (nat * output_item) * string :=
  fold_left stream_step events ([], EmptyString).

(** The argument fragments addressed to [index]. *)
Fixpoint deltas_for (index : nat) (events : list stream_event) : string :=
  match events with
  | [] => EmptyString
  | SevArgumentsDelta i delta :: rest =>
      if Nat.eqb i index then delta +:+ deltas_for index rest
      else deltas_for index rest
  | _ :: rest => deltas_for index rest
  end.

(** No item is added at [index] in [events]. *)
Fixpoint no_item_added (index : nat) (events : list stream_event) : bool :=
  match events with
  | [] => true
  | SevItemAdded i _ :: rest => negb (Nat.eqb i index) && no_item_added index rest
  | _ :: rest => no_item_added index rest
  end.

(** Every item added in [events] is a function call, the kind of item
    that has [arguments]. *)
Definition items_are_calls (events : list stream_event) : bool :=
  forallb (fun e => match e with
                    | SevItemAdded _ it => is_function_call it
                    | _ => true
                    end) events.


(** ** More worlds and environments for examples *)

Module Scenario2.

Import Scenario.

(** The model service is down for the agent itself. *)
Definition E_agent_down : Env :=
  scripted (fun _ => Raise (Exception_ "Connection error."))
           (Ret "print(1)") (ok_process EmptyString) (ok_process EmptyString).


(** A disk with a file outside the storage location. *)
Definition w_outside : world :=
  set_fs (<["/etc/secrets.csv" := File "k,v"]> disk) w_start.

(** A persistent environment already in place. *)
Definition w_venv : world :=
  set_fs (<["envs/analysis" := Dir]> disk) w_loaded.

(** [E0] with a [venv.create] that writes nothing. *)
Definition E_inert : Env :=
  {| read_csv := read_csv E0;
     describe_json := describe_json E0;
     responses_create := responses_create E0;
     venv_create := fun _ f => (Ret tt, f);
     subprocess_run := subprocess_run E0;
     json_loads := json_loads E0;
     json_dumps := json_dumps E0;
     py_str := py_str E0;
     format_script_prompt := format_script_prompt E0;
     agent_model := agent_model E0;
     agent_instructions := agent_instructions E0;
     os_name := os_name E0 |}.

(** [E0] on a machine where environments cannot be created. *)
Definition E_no_venv : Env :=
  {| read_csv := read_csv E0;
     describe_json := describe_json E0;
     responses_create := responses_create E0;
     venv_create := fun _ f =>
       (Raise (Exception_ "ensurepip is not available"), f);
     subprocess_run := subprocess_run E0;
     json_loads := json_loads E0;
     json_dumps := json_dumps E0;
     py_str := py_str E0;
     format_script_prompt := format_script_prompt E0;
     agent_model := agent_model E0;
     agent_instructions := agent_instructions E0;
     os_name := os_name E0 |}.

(** The environment directory next to the script. *)
Definition next_to_script (script_path : string) : string :=
  "generated_scripts/script_venv".

(** A log of two conversations, one with a tool call. *)
Definition log2 : list (nat * dict) :=
  [(1, user_turn "Which datasets are there?");
   (1, call_turn (call "get_dataset_list" "{}"));
   (2, user_turn "Hello");
   (1, output_turn (call "get_dataset_list" "{}") "{...}");
   (1, assistant_turn "There is prices.csv." VNone)].


(** A streamed response with one tool call whose arguments arrive in
    two fragments, and a fragment for an index that holds no item. *)
Definition stream1 : list stream_event :=
  [SevArgumentsDelta 1 "{"; SevArgumentsDelta 1 "}"].

End Scenario2.

(** * Properties *)

(** ** Sanity checks of the model *)

Example split_example :
  PyStr.split "," "numpy, pandas,matplotlib" = ["numpy"; " pandas"; "matplotlib"].
Proof. reflexivity. Qed.

Example replace_example :
  PyStr.replace "ab" "" "xabyabab" = "xy".
Proof. reflexivity. Qed.

Example strip_example :
  PyStr.strip ("  a b " +:+ PyStr.nl) = "a b".
Proof. reflexivity. Qed.

Example load_then_preview :
  fst (bind (load_dataset Scenario.E0 (VStr "prices.csv"))
            (fun _ => get_data_preview) Scenario.w_start)
  = Ret [("status", VStr "success"); ("filename", VStr "prices.csv");
         ("preview", df_head_records 5 Scenario.prices)].
Proof. vm_compute. reflexivity. Qed.

Example end_to_end_run_script :
  dict_get "message"
    (match fst (run_script Scenario.E0 (VStr "average price") 1
                           Scenario.w_loaded) with
     | Ret d => d | Raise _ => []
     end)
  = Some (VStr "Script executed successfully").
Proof. vm_compute. reflexivity. Qed.

Example split_keeps_empty_pieces :
  PyStr.split "," ",a,,b," = [""; "a"; ""; "b"; ""].
Proof. reflexivity. Qed.

Example split_long_separator :
  PyStr.split "ab" "xabyabab" = ["x"; "y"; ""; ""].
Proof. reflexivity. Qed.

Example replace_does_not_overlap :
  PyStr.replace "aa" "b" "aaa" = "ba".
Proof. reflexivity. Qed.

Example strip_keeps_inner_space :
  PyStr.strip (PyStr.nl +:+ " a  b") = "a  b" /\ PyStr.strip "   " = "".
Proof. split; reflexivity. Qed.

Example path_join_examples :
  PyStr.path_join "datasets" "prices.csv" = "datasets/prices.csv"
  /\ PyStr.path_join "datasets" "/etc/passwd" = "/etc/passwd".
Proof. split; reflexivity. Qed.

Example parse_without_space_keeps_line :
  parse_output_text ("PACKAGES:numpy" +:+ PyStr.nl +:+ "print(1)")
  = Ret [("script", VStr ("PACKAGES:numpy" +:+ PyStr.nl +:+ "print(1)"));
         ("packages", VList [VStr "numpy"])].
Proof. reflexivity. Qed.

Example listdir_example :
  listdir_names "datasets" Scenario.disk = ["prices.csv"].
Proof. vm_compute. reflexivity. Qed.

(** ** Inversion of computations *)

Lemma bind_Ret_inv {A B} (m : M A) (k : A -> M B) (w w' : world) (b : B) :
  bind m k w = (Ret b, w') ->
  exists a w1, m w = (Ret a, w1) /\ k a w1 = (Ret b, w').
Proof.
  unfold bind. destruct (m w) as [[a | e] w1]; [eauto | discriminate].
Qed.

Lemma bind_Ret_eq {A B} (m : M A) (k : A -> M B) (w w1 : world) (a : A) :
  m w = (Ret a, w1) -> bind m k w = k a w1.
Proof. intros H. unfold bind. rewrite H. reflexivity. Qed.

Lemma bind_Raise_eq {A B} (m : M A) (k : A -> M B) (w w1 : world) (e : exn) :
  m w = (Raise e, w1) -> bind m k w = (Raise e, w1).
Proof. intros H. unfold bind. rewrite H. reflexivity. Qed.


Ltac bind_inv H :=
  let a := fresh "a" in
  let w1 := fresh "w" in
  let H1 := fresh "Hstep" in
  apply bind_Ret_inv in H; destruct H as (a & w1 & H1 & H).


(** ** Facts about the string scans *)

Module PyStrFacts.
Import PyStr.

#[local] Arguments String.append !_ _ / : simpl nomatch.

Lemma append_assoc (a b c : string) : (a +:+ b) +:+ c = a +:+ (b +:+ c).
Proof. induction a as [| x a IH]; cbn; [reflexivity | f_equal; exact IH]. Qed.

Lemma startswith_nil (s : string) : startswith EmptyString s = true.
Proof. destruct s; reflexivity. Qed.

Lemma startswith_app (p r : string) : startswith p (p +:+ r) = true.
Proof.
  induction p as [| a p IH]; cbn; [reflexivity |].
  rewrite Ascii.eqb_refl. exact IH.
Qed.

(** A match that starts in [l] either lies within [l] or runs over its
    end into [r]. *)
Lemma startswith_app_split (p : string) :
  forall l r, startswith p (l +:+ r) = true ->
    startswith p l = true
    \/ exists p2, p = l +:+ p2 /\ p2 <> EmptyString
                  /\ startswith p2 r = true.
Proof.
  induction p as [| a p IH]; intros l r H.
  - left. apply startswith_nil.
  - destruct l as [| b l].
    + right. exists (String a p). cbn in *. split; [reflexivity |].
      split; [discriminate | exact H].
    + cbn in H. apply andb_true_iff in H as [Hab H].
      destruct (IH l r H) as [Hl | (p2 & -> & Hne & Hr)].
      * left. cbn. rewrite Hab. exact Hl.
      * right. exists p2. apply Ascii.eqb_eq in Hab as ->. cbn. auto.
Qed.

Lemma startswith_prefix (a b : string) :
  forall s, startswith (a +:+ b) s = true -> startswith a s = true.
Proof.
  induction a as [| x a IH]; intros s H; [apply startswith_nil |].
  destruct s as [| y s]; cbn in *; [discriminate |].
  apply andb_true_iff in H as [Hxy H]. rewrite Hxy. cbn. auto.
Qed.

Lemma contains_cons_false (sub : string) (c : ascii) (s : string) :
  contains sub (String c s) = false ->
  startswith sub (String c s) = false /\ contains sub s = false.
Proof. cbn [contains]. intros H. apply orb_false_iff in H. exact H. Qed.

Lemma contains_app_r (sub : string) (rest : string) :
  forall pre, contains sub (pre +:+ sub +:+ rest) = true.
Proof.
  induction pre as [| c pre IH].
  - cbn [String.append]. destruct (sub +:+ rest) eqn:Hs; cbn [contains];
      rewrite <- Hs, startswith_app; reflexivity.
  - cbn [String.append contains]. rewrite IH. apply orb_true_r.
Qed.

Lemma contains_prefix (a b : string) :
  forall s, contains a s = false -> contains (a +:+ b) s = false.
Proof.
  induction s as [| c s IH]; cbn [contains]; intros H;
    apply orb_false_iff in H as [Hs Hc]; apply orb_false_iff; split; auto;
    apply not_true_is_false; intros Hab;
    apply startswith_prefix in Hab; congruence.
Qed.

Lemma length_append (a b : string) :
  String.length (a +:+ b) = String.length a + String.length b.
Proof. induction a as [| x a IH]; cbn; [reflexivity | now rewrite IH]. Qed.

Lemma substring_skip (m : nat) (r : string) :
  forall q, String.substring (String.length q) m (q +:+ r)
            = String.substring 0 m r.
Proof. induction q as [| x q IH]; cbn; [reflexivity | exact IH]. Qed.

Lemma substring_all (r : string) :
  forall m, String.length r <= m -> String.substring 0 m r = r.
Proof.
  induction r as [| x r IH]; intros m Hm.
  - destruct m; reflexivity.
  - destruct m as [| m]; cbn in *; [lia |]. rewrite IH; [reflexivity | lia].
Qed.

Lemma startswith_exists (q : string) :
  forall p, startswith q p = true -> exists r, p = q +:+ r.
Proof.
  induction q as [| x q IH]; intros p H; [exists p; reflexivity |].
  destruct p as [| y p]; cbn in H; [discriminate |].
  apply andb_true_iff in H as [Hxy H]. apply Ascii.eqb_eq in Hxy as ->.
  destruct (IH p H) as [r ->]. exists r. reflexivity.
Qed.

(** What follows a prefix is the rest of the string. *)
Lemma startswith_rest (q p : string) :
  startswith q p = true ->
  p = q +:+ String.substring (String.length q) (String.length p) p.
Proof.
  intros H. destruct (startswith_exists q p H) as [r ->].
  rewrite substring_skip, substring_all; [reflexivity |].
  rewrite length_append. lia.
Qed.

Lemma endswith_nonempty (suffix s : string) :
  suffix <> EmptyString -> endswith suffix s = true -> s <> EmptyString.
Proof.
  intros Hne H ->. cbn in H. apply String.eqb_eq in H. contradiction.
Qed.

Lemma split_go_skip (sep : string) :
  forall l r, split_go sep (String.length l) (l +:+ r) = split_go sep 0 r.
Proof. induction l as [| c l IH]; intros r; cbn; auto. Qed.

Lemma replace_go_skip (old new : string) :
  forall l r,
    replace_go old new (String.length l) (l +:+ r) = replace_go old new 0 r.
Proof. induction l as [| c l IH]; intros r; cbn; auto. Qed.

Lemma replace_none (old new : string) :
  forall s, contains old s = false -> replace_go old new 0 s = s.
Proof.
  induction s as [| c s IH]; intros H; [reflexivity |].
  apply contains_cons_false in H as [Hs Hc].
  cbn [replace_go]. rewrite Hs, (IH Hc). reflexivity.
Qed.

Ltac peel l Heq :=
  repeat (destruct l as [| ? l];
          [cbn in Heq; subst
          | cbn in Heq; try discriminate; injection Heq as <- Heq]).

(** The marker has no proper suffix that is also one of its prefixes:
    an occurrence cannot begin before another and run into it. *)
Lemma marker_no_overlap (l rest : string) :
  l <> EmptyString ->
  startswith marker l = false ->
  startswith marker (l +:+ marker +:+ rest) = false.
Proof.
  intros Hne Hl. apply not_true_is_false. intros H.
  apply startswith_app_split in H as [H | (p2 & Heq & Hp2 & H)];
    [congruence |].
  unfold marker in Heq. destruct l as [| c l]; [contradiction |].
  cbn in Heq. injection Heq as <- Heq.
  peel l Heq; try contradiction; cbn in H; discriminate.
Qed.

(** Nor can an occurrence run across a line feed. *)
Lemma marker_not_across_nl (l rest : string) :
  startswith marker l = false ->
  startswith marker (l +:+ nl +:+ rest) = false.
Proof.
  intros Hl. apply not_true_is_false. intros H.
  apply startswith_app_split in H as [H | (p2 & Heq & Hp2 & H)];
    [congruence |].
  unfold marker in Heq.
  peel l Heq; try contradiction; cbn in H; discriminate.
Qed.

Lemma split_go_before_marker (rest : string) :
  forall pre,
    contains marker pre = false ->
    split_go marker 0 (pre +:+ marker +:+ rest)
    = (pre, let '(p, ps) := split_go marker 0 rest in p :: ps).
Proof.
  induction pre as [| c pre IH]; intros H.
  - change (EmptyString +:+ marker +:+ rest)
      with (String "P" ("ACKAGES:" +:+ rest)).
    cbn [split_go]. change (String "P" ("ACKAGES:" +:+ rest))
      with (marker +:+ rest).
    rewrite startswith_app.
    change (String.length marker - 1) with (String.length "ACKAGES:").
    rewrite split_go_skip. reflexivity.
  - apply contains_cons_false in H as [Hs Hc].
    cbn [String.append split_go].
    change (String c (pre +:+ marker +:+ rest))
      with (String c pre +:+ marker +:+ rest).
    rewrite marker_no_overlap; [| discriminate | exact Hs].
    rewrite (IH Hc). reflexivity.
Qed.

Lemma first_piece_to_nl (body : string) :
  forall l,
    contains marker l = false ->
    fst (split_go marker 0 (l +:+ nl +:+ body))
    = l +:+ nl +:+ fst (split_go marker 0 body).
Proof.
  induction l as [| c l IH]; intros H.
  - cbn. destruct (split_go marker 0 body). reflexivity.
  - apply contains_cons_false in H as [Hs Hc].
    cbn [String.append split_go].
    change (String c (l +:+ nl +:+ body))
      with (String c l +:+ nl +:+ body).
    rewrite marker_not_across_nl; [| exact Hs].
    cbn [String.append]. specialize (IH Hc).
    destruct (split_go marker 0 (l +:+ nl +:+ body)). cbn in *.
    rewrite IH. reflexivity.
Qed.

Lemma line_before_nl (rest : string) :
  forall l,
    has_char "010" l = false ->
    fst (split_go nl 0 (l +:+ nl +:+ rest)) = l.
Proof.
  induction l as [| c l IH]; intros H; [reflexivity |].
  cbn [has_char] in H. apply orb_false_iff in H as [Hc Hl].
  cbn [String.append split_go]. unfold nl at 1. cbn [startswith].
  rewrite Hc. cbn [andb]. specialize (IH Hl).
  destruct (split_go nl 0 (l +:+ nl +:+ rest)). cbn in *.
  rewrite IH. reflexivity.
Qed.

Lemma replace_before_marker (q body : string) :
  forall pre,
    contains marker pre = false ->
    replace_go (marker +:+ q) EmptyString 0
               (pre +:+ (marker +:+ q) +:+ body)
    = pre +:+ replace_go (marker +:+ q) EmptyString 0 body.
Proof.
  induction pre as [| c pre IH]; intros H.
  - change (EmptyString +:+ (marker +:+ q) +:+ body)
      with (String "P" (("ACKAGES:" +:+ q) +:+ body)).
    cbn [replace_go].
    change (String "P" (("ACKAGES:" +:+ q) +:+ body))
      with ((marker +:+ q) +:+ body).
    rewrite startswith_app.
    change (String.length (marker +:+ q) - 1)
      with (String.length ("ACKAGES:" +:+ q) - 0).
    rewrite Nat.sub_0_r, replace_go_skip. reflexivity.
  - apply contains_cons_false in H as [Hs Hc].
    cbn [String.append replace_go].
    assert (Hno : startswith (marker +:+ q)
                    (String c (pre +:+ (marker +:+ q) +:+ body)) = false).
    { apply not_true_is_false. intros Hm.
      apply startswith_prefix in Hm.
      rewrite append_assoc in Hm.
      change (String c (pre +:+ marker +:+ q +:+ body))
        with (String c pre +:+ marker +:+ (q +:+ body)) in Hm.
      rewrite marker_no_overlap in Hm; [discriminate | discriminate | exact Hs]. }
    rewrite Hno, (IH Hc). reflexivity.
Qed.

End PyStrFacts.


(** ** Dataset tools *)

Section DatasetTools.

Variable E : Env.

Lemma agent_data_attr_set (df : DataFrame) (w : world) :
  agent_data w = Some df -> agent_data_attr w = (Ret df, w).
Proof. intros H. unfold agent_data_attr. rewrite H. reflexivity. Qed.

Lemma load_dataset_missing_file (name : string) (w : world) :
  fs w !! PyStr.path_join "datasets" name = None ->
  load_dataset E (VStr name) w
  = (Ret (err ("File '" +:+ PyStr.path_join "datasets" name
               +:+ "' not found!")), w).
Proof.
  intros H. unfold load_dataset, bind, os_path_exists. rewrite H.
  reflexivity.
Qed.

(** C8. Whenever [load_dataset] returns a result whose status is
    "error" the world is unchanged, so the Dataset Context (data and
    source filename) is what it was; a file absent from the storage
    location gives such a result. *)
Theorem load_dataset_error_keeps_context (filename : pyval) (w : world) :
  (forall r w',
      load_dataset E filename w = (Ret r, w') ->
      dict_get "status" r = Some (VStr "error") ->
      w' = w /\ agent_data w' = agent_data w
      /\ agent_data_file w' = agent_data_file w)
  /\ (forall name,
         filename = VStr name ->
         fs w !! PyStr.path_join "datasets" name = None ->
         exists msg,
           load_dataset E filename w = (Ret (err msg), w)).
Proof.
  split.
  2: { intros name -> Hnone. eexists.
       apply load_dataset_missing_file. exact Hnone. }
  intros r w' Hrun Hstatus.
  assert (Hw : w' = w); [| subst; auto].
  destruct filename as [| b | n | name | l | l | d];
    try (unfold load_dataset, raise in Hrun; discriminate).
  unfold load_dataset, bind, os_path_exists in Hrun.
  destruct (fs w !! PyStr.path_join "datasets" name) as [nd|] eqn:Hex;
    cbn in Hrun.
  - unfold try_except, bind in Hrun.
    destruct (read_csv E (PyStr.path_join "datasets" name) (fs w))
      as [df | e] eqn:Hcsv.
    + cbn in Hrun. injection Hrun as Hr Hw. subst r. discriminate.
    + destruct (is_Exception e); cbn in Hrun.
      * injection Hrun as _ Hw. auto.
      * discriminate.
  - injection Hrun as _ Hw. auto.
Qed.

(** The entries [os.listdir] reports are the direct children. *)
Lemma child_name_Some (d p n : string) :
  child_name d p = Some n
  <-> p = d +:+ "/" +:+ n /\ n <> EmptyString
      /\ PyStr.has_char "/" n = false.
Proof.
  unfold child_name. split.
  - destruct (PyStr.startswith (d +:+ "/") p) eqn:Hsw; [| discriminate].
    apply PyStrFacts.startswith_rest in Hsw.
    rewrite PyStrFacts.length_append in Hsw. cbn [String.length] in Hsw.
    set (rest := String.substring (String.length d + 1) (String.length p) p)
      in *.
    destruct (String.eqb rest EmptyString) eqn:He; [discriminate |].
    destruct (PyStr.has_char "/" rest) eqn:Hc; [discriminate |].
    intros H. injection H as <-. apply String.eqb_neq in He.
    rewrite PyStrFacts.append_assoc in Hsw. auto.
  - intros (-> & Hne & Hc).
    rewrite <- PyStrFacts.append_assoc, PyStrFacts.startswith_app.
    replace (String.length d + 1) with (String.length (d +:+ "/"))
      by (rewrite PyStrFacts.length_append; reflexivity).
    rewrite PyStrFacts.substring_skip, PyStrFacts.substring_all.
    2: { rewrite !PyStrFacts.length_append. lia. }
    apply String.eqb_neq in Hne. rewrite Hne, Hc. reflexivity.
Qed.

Lemma listdir_names_spec (d n : string) (f : gmap string node) :
  In n (listdir_names d f)
  <-> is_Some (f !! (d +:+ "/" +:+ n)) /\ n <> EmptyString
      /\ PyStr.has_char "/" n = false.
Proof.
  unfold listdir_names. rewrite <- list_elem_of_In, list_elem_of_omap.
  split.
  - intros ([p nd] & Hin & Hchild). apply elem_of_map_to_list in Hin.
    apply child_name_Some in Hchild as (Hp & Hne & Hc). cbn in Hp.
    subst p. eauto.
  - intros ([nd Hnd] & Hne & Hc). exists (d +:+ "/" +:+ n, nd). split.
    + apply elem_of_map_to_list. exact Hnd.
    + apply child_name_Some. auto.
Qed.

Lemma dataset_files_spec (w : world) (n : string) :
  In n (List.filter (PyStr.endswith ".csv")
                    (listdir_names "datasets" (fs w)))
  <-> is_dataset_file w n.
Proof.
  rewrite List.filter_In, listdir_names_spec. unfold is_dataset_file.
  split.
  - intros ((Hsome & _ & Hc) & Hend). auto.
  - intros (Hend & Hc & Hsome). repeat split; auto.
    apply (PyStrFacts.endswith_nonempty ".csv"); [discriminate | exact Hend].
Qed.

(** C9. [get_dataset_list] tells an absent storage location (error
    result) from a present one that holds no CSV file (status "empty",
    not an error), and when the location holds CSV files returns a
    success result that enumerates exactly those. *)
Theorem get_dataset_list_empty_vs_absent (w : world) :
  (fs w !! "datasets" = None ->
   get_dataset_list w
   = (Ret (err "Directory 'datasets' not found!"), w))
  /\ (fs w !! "datasets" = Some Dir ->
      (forall n, ~ is_dataset_file w n) ->
      get_dataset_list w
      = (Ret [("status", VStr "empty");
              ("message",
               VStr "No CSV files found in the 'datasets' directory.")], w))
  /\ (fs w !! "datasets" = Some Dir ->
      (exists n, is_dataset_file w n) ->
      exists files,
        get_dataset_list w
        = (Ret [("status", VStr "success");
                ("datasets", VList (map VStr files))], w)
        /\ forall n, In n files <-> is_dataset_file w n).
Proof.
  unfold get_dataset_list, bind, os_path_exists, os_listdir.
  split; [| split].
  - intros H. rewrite H. reflexivity.
  - intros H Hnone. rewrite H. cbn. rewrite H.
    destruct (List.filter _ _) as [| x l] eqn:Hf; [reflexivity |].
    exfalso. apply (Hnone x). apply dataset_files_spec.
    rewrite Hf. left. reflexivity.
  - intros H [n Hn]. rewrite H. cbn. rewrite H.
    apply dataset_files_spec in Hn.
    exists (List.filter (PyStr.endswith ".csv")
                        (listdir_names "datasets" (fs w))).
    split; [| intros m; apply dataset_files_spec].
    destruct (List.filter _ _); [destruct Hn | reflexivity].
Qed.

End DatasetTools.

(** ** Script execution in a temporary environment *)

Section Executor.

Variable E : Env.


(** The directory the block runs in does exist while it runs. *)
Lemma mkdtemp_creates (w : world) (d : string) (rest : list string) :
  pick_fresh (fs w) (tmp_names w) = Some (d, rest) ->
  exists w1, mkdtemp w = (Ret d, w1) /\ fs w1 !! d = Some Dir
             /\ fs w !! d = None.
Proof.
  intros Hpick. unfold mkdtemp. rewrite Hpick.
  eexists. split; [reflexivity |]. split.
  - cbn. apply lookup_insert_eq.
  - clear -Hpick. induction (tmp_names w) as [| n names IH]; [discriminate |].
    cbn in Hpick. destruct (fs w !! n) eqn:Hn; [auto |].
    injection Hpick as -> _. exact Hn.
Qed.

(** C7. When the install step exits non-zero the result is the
    install-failed error carrying the installer's stderr, and the only
    process spawned during the call is the installer: the trace gains the
    environment creation and the pip command, nothing else. *)
Theorem install_failure_short_circuits
        (script_path requirements_path : string) (w : world)
        (d : string) (rest : list string) (f1 f2 : gmap string node)
        (pip : completed_process) :
  pick_fresh (fs w) (tmp_names w) = Some (d, rest) ->
  venv_create E d (<[d := Dir]> (fs w)) = (Ret tt, f1) ->
  subprocess_run E (pip_argv (venv_python E d) requirements_path) f1
  = (Ret pip, f2) ->
  returncode pip <> 0 ->
  let '(r, w') := execute_standalone_script E script_path requirements_path w in
  r = Ret (err ("Failed to install required packages: " +:+ proc_stderr pip))
  /\ trace w'
     = (trace w ++ [EvVenvCreate d;
                    EvSpawn (pip_argv (venv_python E d) requirements_path)])%list
  /\ ~ In (EvSpawn [venv_python E d; script_path])
          [EvVenvCreate d;
           EvSpawn (pip_argv (venv_python E d) requirements_path)].
Proof.
  intros Hpick Hvenv Hpip Hrc.
  unfold execute_standalone_script, with_TemporaryDirectory, bind, mkdtemp.
  rewrite Hpick.
  unfold try_except, bind, venv_create_, install_and_run,
    subprocess_run_check, subprocess_run_, log_event, modify, bind.
  cbn. rewrite Hvenv. cbn. rewrite Hpip. cbn.
  destruct (returncode pip) as [| k] eqn:Hk; [contradiction |].
  cbn. split; [reflexivity |]. split.
  - rewrite <- app_assoc. reflexivity.
  - intros [H | [H | []]]; discriminate.
Qed.

(** C10. When synthesis fails [run_script] returns the error result
    "Failed to generate analysis script." and the only effect is the
    model request in the trace: the disk (hence the two artifact files)
    and the temporary-name supply are untouched, nothing is provisioned
    or spawned. *)
Theorem run_script_synthesis_failure (analysis_request : pyval)
        (conversation_id : nat) (w : world) (df : DataFrame) (f : string) :
  agent_data w = Some df ->
  agent_data_file w = Some f ->
  no_script (responses_create E
               (generation_request E f (PyStr.path_join "datasets" f) df
                  analysis_request conversation_id)) ->
  run_script E analysis_request conversation_id w
  = (Ret (err "Failed to generate analysis script."),
     set_trace
       (trace w ++ [EvModelRequest
                      (generation_request E f
                         (PyStr.path_join "datasets" f) df
                         analysis_request conversation_id)])%list w).
Proof.
  intros Hdata Hfile Hfail.
  unfold run_script, bind, get_world. rewrite Hdata, Hfile. cbn.
  unfold _generate_standalone_script, generate_script, bind, get_world,
    agent_data_attr.
  rewrite Hdata, Hfile.
  unfold try_except, bind, client_responses_create, log_event, modify, bind,
    lift_outcome.
  cbn. unfold generation_request in Hfail.
  destruct (responses_create E _) as [resp | e]; cbn in Hfail |- *.
  - destruct Hfail as (d & Hparse & Hscript).
    rewrite Hparse. cbn. rewrite Hscript. reflexivity.
  - rewrite Hfail. reflexivity.
Qed.

End Executor.

(** ** Tool dispatcher *)

Section Dispatcher.

Variable E : Env.

(** No dict returned by [run_script] has an "output" key: the captured
    output sits one level down, under "execution_result". *)
Lemma run_script_no_output_key (analysis_request : pyval)
      (conversation_id : nat) (w w' : world) (r : dict) :
  run_script E analysis_request conversation_id w = (Ret r, w') ->
  dict_in "output" r = false.
Proof.
  unfold run_script. intros H.
  bind_inv H. unfold get_world in Hstep. injection Hstep as <- <-.
  destruct (agent_data w) as [df |].
  2: { injection H as <- _. reflexivity. }
  bind_inv H. bind_inv H.
  destruct a0 as [info |].
  2: { injection H as <- _. reflexivity. }
  destruct (dict_get "script" info) as [[| | | script0 | | |] |];
    try (injection H as <- _; reflexivity).
  destruct (negb (truthy (VStr script0))).
  { injection H as <- _. reflexivity. }
  bind_inv H. bind_inv H. bind_inv H. bind_inv H.
  injection H as <- _. reflexivity.
Qed.

(** The branch of [call_function] that would shorten a successful
    [run_script] result is never taken: the dispatcher hands the model
    exactly what [run_script] returned. *)
Lemma call_function_run_script_passthrough (analysis_request : pyval)
      (conversation_id : nat) (w : world) :
  call_function E "run_script"
                (VDict [("analysis_request", analysis_request)])
                conversation_id w
  = run_script E analysis_request conversation_id w.
Proof.
  unfold call_function. cbn -[run_script bind].
  unfold bind at 1. cbn -[run_script bind].
  unfold bind.
  destruct (run_script E analysis_request conversation_id w)
    as [[r | e] w'] eqn:Hrun; [| reflexivity].
  rewrite (run_script_no_output_key _ _ _ _ _ Hrun).
  rewrite andb_false_r. reflexivity.
Qed.

(** C5. [run_script] with no dataset loaded returns its error result
    at once, called directly or through the dispatcher: the world is
    left exactly as it was, so the trace gains no model request, no
    environment creation and no process spawn. *)
Theorem run_script_requires_dataset (analysis_request : pyval)
        (conversation_id : nat) (w : world) :
  agent_data w = None ->
  run_script E analysis_request conversation_id w
  = (Ret (err "No dataset loaded. Please load a dataset first."), w)
  /\ call_function E "run_script"
                   (VDict [("analysis_request", analysis_request)])
                   conversation_id w
     = (Ret (err "No dataset loaded. Please load a dataset first."), w).
Proof.
  intros Hnone.
  assert (Hrun : run_script E analysis_request conversation_id w
                 = (Ret (err "No dataset loaded. Please load a dataset first."),
                    w)).
  { unfold run_script, bind, get_world. rewrite Hnone. reflexivity. }
  split; [exact Hrun |].
  rewrite call_function_run_script_passthrough. exact Hrun.
Qed.

End Dispatcher.

(** C1 (the code does otherwise). A successful [run_script] call
    dispatched through [call_function] comes back with status "success"
    rather than "executed", together with the script text and, under
    "execution_result", the whole captured stdout. *)
Theorem call_function_run_script_returns_full_output :
  exists d w',
    call_function Scenario.E0 "run_script"
                  (VDict [("analysis_request", VStr "average price")]) 1
                  Scenario.w_loaded
    = (Ret d, w')
    /\ dict_get "status" d = Some (VStr "success")
    /\ dict_get "script" d = Some (VStr "print(result)")
    /\ dict_get "execution_result" d
       = Some (VDict [("status", VStr "success");
                      ("output", VStr "101.5");
                      ("message", VStr "Script executed successfully")]).
Proof.
  eexists. eexists. split; [vm_compute; reflexivity |].
  repeat split.
Qed.

(** ** Arguments that do not fit the declared schema *)

Section SchemaViolations.

Variable E : Env.

Lemma mapM_dict_get_Some (d : dict) (params : list string) (vs : list pyval) :
  mapM (fun p => dict_get p d) params = Some vs ->
  forallb (fun k => dict_in k d) params = true.
Proof.
  revert vs. induction params as [| p ps IH]; intros vs H; [reflexivity |].
  cbn in H. unfold dict_in. cbn.
  destruct (dict_get p d); [| discriminate]. cbn in H |- *.
  destruct (mapM _ ps) eqn:Hps; [| discriminate]. eauto.
Qed.

Lemma call_kwargs_violation (params : list string) (d : dict) :
  forallb (fun kv : string * pyval => existsb (String.eqb kv.1) params) d
  && forallb (fun k => dict_in k d) params = false ->
  exists msg, call_kwargs params (VDict d) = Raise (TypeError msg).
Proof.
  intros H. unfold call_kwargs.
  destruct (forallb _ d); [| eauto]. cbn in H.
  destruct (mapM _ params) eqn:Hm; [| eauto].
  apply mapM_dict_get_Some in Hm. congruence.
Qed.

Lemma dict_get_app_other (k k' : string) (v : pyval) (d : dict) :
  dict_get k d = None -> k <> k' -> dict_get k (d ++ [(k', v)]) = None.
Proof.
  intros Hd Hne. induction d as [| [k0 v0] d IH]; cbn -[String.eqb] in *.
  - apply String.eqb_neq in Hne. rewrite Hne. reflexivity.
  - destruct (String.eqb k k0); [discriminate | auto].
Qed.

Lemma only_request_key (d : dict) :
  dict_in "conversation_id" d = false ->
  forallb (fun kv : string * pyval =>
             existsb (String.eqb kv.1)
                     ["analysis_request"; "conversation_id"]) d = true ->
  forallb (fun kv : string * pyval =>
             existsb (String.eqb kv.1) ["analysis_request"]) d = true.
Proof.
  induction d as [| [k v] d IH]; [reflexivity |].
  unfold dict_in in *. cbn -[String.eqb]. intros Hcid Hall.
  rewrite String.eqb_sym in Hcid.
  destruct (String.eqb k "conversation_id") eqn:Hk; [discriminate |].
  rewrite !orb_false_r in Hall |- *.
  apply andb_true_iff in Hall as [Hk1 Hrest].
  rewrite Hk1. cbn -[String.eqb]. apply IH; [exact Hcid | exact Hrest].
Qed.

Lemma forallb_app_l {A} (f : A -> bool) (l1 l2 : list A) :
  forallb f (l1 ++ l2) = true -> forallb f l1 = true.
Proof. rewrite forallb_app. intros H. apply andb_true_iff in H. tauto. Qed.

Lemma run_script_kwargs_violation (d : dict) (conversation_id : nat) :
  forallb (fun kv : string * pyval =>
             existsb (String.eqb kv.1) ["analysis_request"]) d
  && forallb (fun k => dict_in k d) ["analysis_request"] = false ->
  exists msg,
    (if dict_in "conversation_id" d
     then Raise (TypeError "got multiple values for keyword argument")
     else call_kwargs ["analysis_request"; "conversation_id"]
            (VDict (d ++ [("conversation_id", VInt conversation_id)])))
    = Raise (TypeError msg).
Proof.
  intros H. destruct (dict_in "conversation_id" d) eqn:Hcid; [eauto |].
  apply call_kwargs_violation. apply andb_false_iff.
  apply andb_false_iff in H as [H | H].
  - left. apply not_true_is_false. intros Hall.
    apply forallb_app_l in Hall.
    rewrite (only_request_key d Hcid Hall) in H. discriminate.
  - right. cbn -[String.eqb dict_get] in H |- *. rewrite andb_true_r in H.
    unfold dict_in in H |- *.
    destruct (dict_get "analysis_request" d) eqn:Hd; [discriminate |].
    rewrite dict_get_app_other; [reflexivity | exact Hd | discriminate].
Qed.

(** The dispatcher raises on an argument map whose keys do not fit the
    tool's schema, and leaves the world as it found it. *)
Lemma call_function_keys_violation (name : string) (t : tool_schema)
      (d : dict) (conversation_id : nat) (w : world) :
  find_tool name = Some t ->
  keys_conform t d = false ->
  exists msg,
    call_function E name (VDict d) conversation_id w
    = (Raise (TypeError msg), w).
Proof.
  unfold find_tool, get_tools, keys_conform. cbn [List.find tool_name].
  intros Hfind Hbad. unfold call_function.
  repeat match type of Hfind with
  | (if String.eqb ?a name then _ else _) = _ =>
      rewrite (String.eqb_sym a name) in Hfind;
      destruct (String.eqb name a) eqn:?;
      [injection Hfind as <-; cbn in Hbad |]
  end; try discriminate.
  1, 3, 4:
    destruct (call_kwargs_violation [] d Hbad) as [msg Hmsg];
    exists msg; unfold bind, lift_outcome; rewrite Hmsg; reflexivity.
  - destruct (call_kwargs_violation ["filename"] d Hbad) as [msg Hmsg].
    exists msg. unfold bind, lift_outcome. rewrite Hmsg. reflexivity.
  - destruct (run_script_kwargs_violation d conversation_id Hbad)
      as [msg Hmsg].
    exists msg. unfold bind, lift_outcome. rewrite Hmsg. reflexivity.
Qed.

End SchemaViolations.

Section SchemaViolationsInLoop.

Variable E : Env.

Lemma dispatch_tool_call_raises (conversation_id : nat)
      (tool_results : list pyval) (tool_call : output_item) (args : pyval)
      (e : exn) (w : world) :
  is_function_call tool_call = true ->
  json_loads E (item_arguments tool_call) = Ret args ->
  call_function E (item_name tool_call) args conversation_id
                (at_dispatch conversation_id tool_call w)
  = (Raise e, at_dispatch conversation_id tool_call w) ->
  dispatch_tool_call E conversation_id tool_results tool_call w
  = (Raise e, at_dispatch conversation_id tool_call w).
Proof.
  intros Hfc Hjson Hcall. unfold dispatch_tool_call. rewrite Hfc.
  cbn [negb]. unfold at_dispatch in *.
  unfold bind, db_save_message, append_message, modify, lift_outcome in *.
  cbn [snd] in *. rewrite Hjson, Hcall. reflexivity.
Qed.

(** C2 (as the code has it). [call_function] does not check arguments
    against the declared schema and has no error result for a
    violation. An argument map with an undeclared key or without a
    required key makes the call raise [TypeError], and the exception
    leaves the loop of [query_agent] uncaught; a [filename] that is
    not a string raises likewise; an [analysis_request] of any type is
    handed to [run_script] as it is. *)
Theorem schema_violation_raises (name : string) (t : tool_schema) (d : dict)
        (conversation_id : nat) (w : world) :
  find_tool name = Some t ->
  keys_conform t d = false ->
  (exists msg,
      call_function E name (VDict d) conversation_id w
      = (Raise (TypeError msg), w))
  /\ (forall fuel agent_resp tool_call rest n tool_results,
         ar_needs_tool_call agent_resp = true ->
         n < max_tool_calls ->
         ar_final_tool_calls agent_resp = Some (tool_call :: rest) ->
         is_function_call tool_call = true ->
         item_name tool_call = name ->
         json_loads E (item_arguments tool_call) = Ret (VDict d) ->
         exists msg w',
           tool_loop E (S fuel) conversation_id agent_resp n tool_results w
           = (Raise (TypeError msg), w'))
  /\ (forall v, (forall s, v <> VStr s) ->
         exists msg,
           call_function E "load_dataset" (VDict [("filename", v)])
                         conversation_id w
           = (Raise (TypeError msg), w))
  /\ (forall v,
         call_function E "run_script" (VDict [("analysis_request", v)])
                       conversation_id w
         = run_script E v conversation_id w).
Proof.
  intros Hfind Hbad. split; [| split; [| split]].
  - exact (call_function_keys_violation E name t d conversation_id w
             Hfind Hbad).
  - intros fuel agent_resp tool_call rest n tool_results
           Hneeds Hn Hcalls Hfc Hname Hjson.
    destruct (call_function_keys_violation E name t d conversation_id
                (at_dispatch conversation_id tool_call w) Hfind Hbad)
      as [msg Hmsg].
    exists msg, (at_dispatch conversation_id tool_call w).
    cbn [tool_loop]. rewrite Hneeds.
    apply Nat.ltb_lt in Hn. rewrite Hn. cbn [andb]. rewrite Hcalls.
    apply bind_Raise_eq. cbn [dispatch_batch]. apply bind_Raise_eq.
    apply dispatch_tool_call_raises with (args := VDict d);
      [exact Hfc | exact Hjson | rewrite Hname; exact Hmsg].
  - intros v Hv. eexists. unfold call_function. cbn -[load_dataset].
    unfold bind, lift_outcome. cbn -[load_dataset].
    destruct v; try reflexivity. exfalso. eapply Hv. reflexivity.
  - intros v. apply call_function_run_script_passthrough.
Qed.

End SchemaViolationsInLoop.

(** ** Round trips of the orchestration loop *)

Section Quiet.

Variable E : Env.


































End Quiet.

Section RoundTrips.

Variable E : Env.











End RoundTrips.

Section QueryAgent.

Variable E : Env.



End QueryAgent.

(** ** Script synthesizer *)

Section Synthesizer.
Import PyStr PyStrFacts.

#[local] Arguments String.append !_ _ / : simpl nomatch.

Lemma parse_output_text_absent (text : string) :
  contains marker text = false ->
  parse_output_text text
  = Ret [("script", VStr text);
         ("packages",
          VList [VStr "numpy"; VStr "pandas"; VStr "matplotlib"])].
Proof.
  intros H. unfold parse_output_text. fold marker. rewrite H. reflexivity.
Qed.

Lemma strip_leading_space (line : string) :
  strip (" " +:+ line) = strip line.
Proof. reflexivity. Qed.

Lemma hd_split_nl (l rest : string) :
  has_char "010" l = false ->
  hd EmptyString (split nl (l +:+ nl +:+ rest)) = l.
Proof.
  intros H. unfold split. pose proof (line_before_nl rest l H) as Hl.
  destruct (split_go nl 0 (l +:+ nl +:+ rest)). exact Hl.
Qed.

Lemma parse_output_text_declared (pre line body : string) :
  contains marker pre = false ->
  contains marker line = false ->
  has_char "010" line = false ->
  strip line = line ->
  contains marker body = false ->
  parse_output_text (pre +:+ "PACKAGES: " +:+ line +:+ nl +:+ body)
  = Ret [("script", VStr (strip (pre +:+ body)));
         ("packages", VList (map VStr (map strip (split "," line))))].
Proof.
  intros Hpre Hline Hnl Hstrip Hbody.
  change (pre +:+ "PACKAGES: " +:+ line +:+ nl +:+ body)
    with (pre +:+ marker +:+ (" " +:+ line) +:+ nl +:+ body).
  unfold parse_output_text. fold marker.
  rewrite contains_app_r.
  unfold split at 1. rewrite (split_go_before_marker _ pre Hpre).
  assert (Hsp : contains marker (" " +:+ line) = false).
  { cbn [String.append contains]. rewrite Hline.
    destruct line; reflexivity. }
  pose proof (first_piece_to_nl body (" " +:+ line) Hsp) as Hfirst.
  destruct (split_go marker 0 ((" " +:+ line) +:+ nl +:+ body))
    as [after pieces] eqn:Hafter.
  cbn [fst] in Hfirst. subst after. cbn [nth_error].
  assert (Hnl' : has_char "010" (" " +:+ line) = false)
    by (cbn [String.append has_char]; rewrite Hnl; reflexivity).
  rewrite (hd_split_nl _ _ Hnl'), strip_leading_space, Hstrip.
  unfold replace.
  change ("PACKAGES: " +:+ line +:+ nl)
    with (marker +:+ (" " +:+ line +:+ nl)).
  replace (pre +:+ marker +:+ (" " +:+ line) +:+ nl +:+ body)
    with (pre +:+ (marker +:+ (" " +:+ line +:+ nl)) +:+ body).
  2: { f_equal. rewrite !append_assoc. reflexivity. }
  rewrite (replace_before_marker _ body pre Hpre).
  rewrite replace_none; [reflexivity |].
  apply contains_prefix. exact Hbody.
Qed.

Variable E : Env.

Lemma generate_script_parsed (q : pyval) (dataset_path : string)
      (conversation_id : nat) (w : world) (df : DataFrame) (f : string)
      (resp : response) (d : dict) :
  agent_data w = Some df ->
  agent_data_file w = Some f ->
  responses_create E
    (generation_request E f dataset_path df q conversation_id) = Ret resp ->
  parse_output_text (resp_output_text resp) = Ret d ->
  generate_script E q dataset_path conversation_id w
  = (Ret (Some d),
     set_trace
       (trace w ++ [EvModelRequest
                      (generation_request E f dataset_path df q
                                          conversation_id)])%list w).
Proof.
  intros Hdata Hfile Hresp Hparse.
  unfold generate_script, bind, get_world, agent_data_attr.
  rewrite Hdata, Hfile.
  unfold try_except, bind, client_responses_create, log_event, modify, bind,
    lift_outcome.
  cbn. unfold generation_request in Hresp. rewrite Hresp. cbn.
  rewrite Hparse. reflexivity.
Qed.

(** C4 (as the code has it). When the response text has no
    "PACKAGES:" the synthesizer returns the text unmodified with the
    default packages. When it has a declaration line
    [PACKAGES: <names>] (names trimmed, the marker occurring nowhere
    else) the packages are the comma-separated, trimmed names, and the
    source is the text without that line, stripped of leading and
    trailing whitespace. *)
Theorem generate_script_packages (q : pyval) (dataset_path : string)
        (conversation_id : nat) (w : world) (df : DataFrame) (f : string)
        (resp : response) :
  agent_data w = Some df ->
  agent_data_file w = Some f ->
  responses_create E
    (generation_request E f dataset_path df q conversation_id) = Ret resp ->
  let w' :=
    set_trace
      (trace w ++ [EvModelRequest
                     (generation_request E f dataset_path df q
                                         conversation_id)])%list w in
  (contains marker (resp_output_text resp) = false ->
   generate_script E q dataset_path conversation_id w
   = (Ret (Some [("script", VStr (resp_output_text resp));
                 ("packages",
                  VList [VStr "numpy"; VStr "pandas"; VStr "matplotlib"])]),
      w'))
  /\ (forall pre line body,
        resp_output_text resp
        = pre +:+ "PACKAGES: " +:+ line +:+ nl +:+ body ->
        contains marker pre = false ->
        contains marker line = false ->
        has_char "010" line = false ->
        strip line = line ->
        contains marker body = false ->
        generate_script E q dataset_path conversation_id w
        = (Ret (Some [("script", VStr (strip (pre +:+ body)));
                      ("packages",
                       VList (map VStr (map strip (split "," line))))]),
           w')).
Proof.
  intros Hdata Hfile Hresp. cbn zeta. split.
  - intros Habsent.
    apply (generate_script_parsed _ _ _ _ _ _ _ _ Hdata Hfile Hresp).
    apply parse_output_text_absent. exact Habsent.
  - intros pre line body Htext Hpre Hline Hnl Hstrip Hbody.
    apply (generate_script_parsed _ _ _ _ _ _ _ _ Hdata Hfile Hresp).
    rewrite Htext. apply parse_output_text_declared; assumption.
Qed.

End Synthesizer.

(** ** The statements at work on the example scenario *)

Section Instances.
Import Scenario.

Lemma run_script_requires_dataset_witness :
  run_script E0 (VStr "average price") 1 w_start
  = (Ret (err "No dataset loaded. Please load a dataset first."), w_start).
Proof.
  apply (proj1 (run_script_requires_dataset E0 (VStr "average price") 1
                  w_start eq_refl)).
Defined.

Lemma load_dataset_error_keeps_context_witness :
  agent_data w_loaded = Some prices
  /\ agent_data_file w_loaded = Some "prices.csv".
Proof.
  destruct (proj1 (load_dataset_error_keeps_context E0 (VStr "missing.csv")
                     w_loaded)
              (err "File 'datasets/missing.csv' not found!") w_loaded)
    as (_ & Hdata & Hfile).
  - vm_compute. reflexivity.
  - reflexivity.
  - split; reflexivity.
Defined.

Lemma prices_is_dataset_file : is_dataset_file w_start "prices.csv".
Proof.
  split; [reflexivity |]. split; [reflexivity |].
  exists (File "date,price"). vm_compute. reflexivity.
Defined.

Lemma empty_dir_has_no_dataset_file (n : string) :
  ~ is_dataset_file w_empty_dir n.
Proof.
  intros Hn. apply dataset_files_spec in Hn.
  vm_compute in Hn. exact Hn.
Defined.

Lemma get_dataset_list_empty_vs_absent_witness :
  get_dataset_list w_no_dir
  = (Ret (err "Directory 'datasets' not found!"), w_no_dir)
  /\ get_dataset_list w_empty_dir
     = (Ret [("status", VStr "empty");
             ("message",
              VStr "No CSV files found in the 'datasets' directory.")],
        w_empty_dir)
  /\ exists files,
       get_dataset_list w_start
       = (Ret [("status", VStr "success");
               ("datasets", VList (map VStr files))], w_start)
       /\ In "prices.csv" files.
Proof.
  split; [| split].
  - apply (proj1 (get_dataset_list_empty_vs_absent w_no_dir)).
    vm_compute. reflexivity.
  - apply (proj1 (proj2 (get_dataset_list_empty_vs_absent w_empty_dir))).
    + vm_compute. reflexivity.
    + exact empty_dir_has_no_dataset_file.
  - destruct (proj2 (proj2 (get_dataset_list_empty_vs_absent w_start))
                ltac:(vm_compute; reflexivity)
                (ex_intro _ "prices.csv" prices_is_dataset_file))
      as (files & Hrun & Hfiles).
    exists files. split; [exact Hrun |].
    apply Hfiles. exact prices_is_dataset_file.
Defined.


Lemma install_failure_short_circuits_witness :
  fst (execute_standalone_script E_install_fails script_path
                                 requirements_path w_loaded)
  = Ret (err ("Failed to install required packages: "
              +:+ "ERROR: No matching distribution found")).
Proof.
  pose proof
    (install_failure_short_circuits E_install_fails script_path
       requirements_path w_loaded "/tmp/tmpa1" ["/tmp/tmpb2"]
       (snd (venv_create E_install_fails "/tmp/tmpa1"
               (<["/tmp/tmpa1" := Dir]> (fs w_loaded))))
       (snd (venv_create E_install_fails "/tmp/tmpa1"
               (<["/tmp/tmpa1" := Dir]> (fs w_loaded))))
       (failed_process "ERROR: No matching distribution found")
       ltac:(vm_compute; reflexivity) ltac:(reflexivity)
       ltac:(reflexivity) ltac:(vm_compute; lia)) as H.
  destruct (execute_standalone_script E_install_fails script_path
              requirements_path w_loaded) as [r w'].
  exact (proj1 H).
Defined.

Lemma run_script_synthesis_failure_witness :
  fst (run_script E_model_down (VStr "average price") 1 w_loaded)
  = Ret (err "Failed to generate analysis script.")
  /\ fs (snd (run_script E_model_down (VStr "average price") 1 w_loaded))
     = fs w_loaded.
Proof.
  rewrite (run_script_synthesis_failure E_model_down (VStr "average price")
             1 w_loaded prices "prices.csv" eq_refl eq_refl eq_refl).
  split; reflexivity.
Defined.

Lemma generate_script_packages_witness :
  fst (generate_script E0 (VStr "average price") "datasets/prices.csv" 1
                       w_loaded)
  = Ret (Some [("script", VStr "print(result)");
               ("packages", VList [VStr "pandas"])]).
Proof.
  pose proof
    (proj2 (generate_script_packages E0 (VStr "average price")
              "datasets/prices.csv" 1 w_loaded prices "prices.csv"
              {| resp_output_text :=
                   "PACKAGES: pandas" +:+ PyStr.nl +:+ "print(result)";
                 resp_output := []; resp_usage := Some usage |}
              eq_refl eq_refl eq_refl)
           EmptyString "pandas" "print(result)"
           eq_refl eq_refl eq_refl eq_refl eq_refl eq_refl) as H.
  rewrite H. reflexivity.
Defined.

Lemma schema_violation_raises_witness :
  exists msg,
    call_function E_wrong_key "load_dataset"
                  (VDict [("file", VStr "prices.csv")]) 1 w_start
    = (Raise (TypeError msg), w_start).
Proof.
  refine (proj1 (schema_violation_raises E_wrong_key "load_dataset"
                   {| tool_name := "load_dataset";
                      tool_properties := [("filename", "string")];
                      tool_required := ["filename"] |}
                   [("file", VStr "prices.csv")] 1 w_start _ _));
    reflexivity.
Defined.



(** *** Where the code departs from the specification *)

(** C2, refuted as stated: a call whose argument map has the key
    "file" where the schema declares "filename" does not come back as an
    error result. The dispatcher raises [TypeError], and so does
    [query_agent] when the model asks for that call. *)
Lemma schema_violation_crosses_dispatcher :
  fst (call_function E_wrong_key "load_dataset"
                     (VDict [("file", VStr "prices.csv")]) 1 w_start)
  = Raise (TypeError "got an unexpected keyword argument")
  /\ fst (query_agent E_wrong_key 6 "finance" "load the prices" (Some 1)
                      w_start)
     = Raise (TypeError "got an unexpected keyword argument").
Proof. split; vm_compute; reflexivity. Qed.


(** C4, refuted as stated: for a response that ends with a line feed
    the returned source is not the response without its declaration
    line; the final line feed is gone as well. *)
Lemma declaration_line_removal_not_exact :
  let declaration := "PACKAGES: pandas" +:+ PyStr.nl in
  let remainder := "print(1)" +:+ PyStr.nl in
  resp_output_text
    (match responses_create E_trailing_newline
             (generation_request E_trailing_newline "prices.csv"
                "datasets/prices.csv" prices (VStr "count rows") 1) with
     | Ret resp => resp
     | Raise _ => tool_reply EmptyString []
     end)
  = declaration +:+ remainder
  /\ fst (generate_script E_trailing_newline (VStr "count rows")
                          "datasets/prices.csv" 1 w_loaded)
     = Ret (Some [("script", VStr "print(1)");
                  ("packages", VList [VStr "pandas"])])
  /\ "print(1)" <> remainder.
Proof.
  cbn zeta. split; [vm_compute; reflexivity |].
  split; [vm_compute; reflexivity | vm_compute; discriminate].
Qed.

End Instances.

(** * Further properties of the backend *)

(** ** What the tools leave alone *)

Section Frame.

Variable E : Env.
Context {X : Type} (proj : world -> X).
Hypothesis Hfs : forall f w, proj (set_fs f w) = proj w.
Hypothesis Htmp : forall l w, proj (set_tmp_names l w) = proj w.
Hypothesis Htrace : forall t w, proj (set_trace t w) = proj w.
Hypothesis Hdata : forall d w, proj (set_agent_data d w) = proj w.
Hypothesis Hfile : forall f w, proj (set_agent_data_file f w) = proj w.

Lemma preserves_unchanged {A} (m : M A) :
  (forall w, snd (m w) = w) -> preserves proj m.
Proof. intros H w. rewrite H. reflexivity. Qed.

Lemma preserves_bind {A B} (m : M A) (k : A -> M B) :
  preserves proj m -> (forall a, preserves proj (k a)) ->
  preserves proj (bind m k).
Proof.
  intros Hm Hk w. unfold bind. specialize (Hm w).
  destruct (m w) as [[a | e] w1]; cbn in *.
  - rewrite (Hk a w1). exact Hm.
  - exact Hm.
Qed.

Lemma preserves_try_except {A} (body : M A) (handler : exn -> option (M A)) :
  preserves proj body ->
  (forall e h, handler e = Some h -> preserves proj h) ->
  preserves proj (try_except body handler).
Proof.
  intros Hb Hh w. unfold try_except. specialize (Hb w).
  destruct (body w) as [[a | e] w1]; cbn in *; [exact Hb |].
  destruct (handler e) as [h |] eqn:He; cbn; [| exact Hb].
  rewrite (Hh e h He w1). exact Hb.
Qed.

Lemma preserves_ret {A} (a : A) : preserves proj (ret a).
Proof. intros w. reflexivity. Qed.

Lemma preserves_raise {A} (e : exn) : preserves proj (@raise A e).
Proof. intros w. reflexivity. Qed.

Lemma preserves_lift {A} (o : outcome A) : preserves proj (lift_outcome o).
Proof. intros w. reflexivity. Qed.

Lemma preserves_get_world : preserves proj get_world.
Proof. intros w. reflexivity. Qed.

Lemma preserves_os_path_exists (p : string) : preserves proj (os_path_exists p).
Proof. intros w. reflexivity. Qed.

Lemma preserves_os_listdir (d : string) : preserves proj (os_listdir d).
Proof.
  intros w. unfold os_listdir. destruct (fs w !! d) as [[|] |]; reflexivity.
Qed.

Lemma preserves_agent_data_attr : preserves proj agent_data_attr.
Proof.
  intros w. unfold agent_data_attr. destruct (agent_data w); reflexivity.
Qed.

Lemma preserves_os_makedirs (d : string) : preserves proj (os_makedirs d).
Proof.
  intros w. unfold os_makedirs.
  destruct (fs w !! d) as [[|] |]; cbn; rewrite ?Hfs; reflexivity.
Qed.

Lemma preserves_write_file (p c : string) : preserves proj (write_file p c).
Proof.
  intros w. unfold write_file.
  destruct (fs w !! p) as [[|] |]; cbn; rewrite ?Hfs; reflexivity.
Qed.

Lemma preserves_log_event (e : event) : preserves proj (log_event e).
Proof. intros w. cbn. apply Htrace. Qed.

Lemma preserves_subprocess_run_ (argv : list string) :
  preserves proj (subprocess_run_ E argv).
Proof.
  unfold subprocess_run_. apply preserves_bind; [apply preserves_log_event |].
  intros _ w. destruct (subprocess_run E argv (fs w)). cbn. apply Hfs.
Qed.

Lemma preserves_venv_create_ (d : string) : preserves proj (venv_create_ E d).
Proof.
  unfold venv_create_. apply preserves_bind; [apply preserves_log_event |].
  intros _ w. destruct (venv_create E d (fs w)). cbn. apply Hfs.
Qed.

Lemma preserves_with_TemporaryDirectory {A} (body : string -> M A) :
  (forall d, preserves proj (body d)) ->
  preserves proj (with_TemporaryDirectory body).
Proof.
  intros Hb. unfold with_TemporaryDirectory. apply preserves_bind.
  - intros w. unfold mkdtemp.
    destruct (pick_fresh _ _) as [[d rest] |]; cbn; rewrite ?Htmp, ?Hfs;
      reflexivity.
  - intros d w. specialize (Hb d w).
    destruct (body d w) as [r w1]. cbn in *. rewrite Hfs. exact Hb.
Qed.

Ltac frame_step :=
  first
    [ apply preserves_ret | apply preserves_raise | apply preserves_lift
    | apply preserves_get_world | apply preserves_os_path_exists
    | apply preserves_os_listdir | apply preserves_os_makedirs
    | apply preserves_write_file | apply preserves_agent_data_attr
    | apply preserves_subprocess_run_ | apply preserves_venv_create_
    | apply preserves_log_event
    | apply preserves_with_TemporaryDirectory; intros ?
    | apply preserves_bind; [| intros ?]
    | match goal with
      | |- preserves _ (match ?x with _ => _ end) => destruct x
      | |- preserves _ (if ?b then _ else _) => destruct b
      end ].

Ltac frame_handler :=
  let e := fresh "e" in
  let h := fresh "h" in
  let He := fresh "He" in
  intros e h He;
  repeat match type of He with
  | (match ?x with _ => _ end) = Some _ => destruct x
  | (if ?b then _ else _) = Some _ => destruct b
  end;
  try discriminate; injection He as <-; repeat frame_step.

Lemma preserves_get_dataset_list : preserves proj get_dataset_list.
Proof. unfold get_dataset_list. repeat frame_step. Qed.

Lemma preserves_get_data_preview : preserves proj get_data_preview.
Proof. unfold get_data_preview. repeat frame_step. Qed.

Lemma preserves_get_data_info : preserves proj (get_data_info E).
Proof. unfold get_data_info. repeat frame_step. Qed.

Lemma preserves_generate_script (q : pyval) (p : string) (c : nat) :
  preserves proj (generate_script E q p c).
Proof.
  unfold generate_script. repeat frame_step.
  apply preserves_try_except; [| frame_handler].
  unfold client_responses_create. repeat frame_step.
Qed.

Lemma preserves_execute_standalone_script (sp rp : string) :
  preserves proj (execute_standalone_script E sp rp).
Proof.
  unfold execute_standalone_script. repeat frame_step.
  apply preserves_try_except.
  - unfold install_and_run, subprocess_run_check. repeat frame_step.
  - unfold execute_handlers. frame_handler.
Qed.

Lemma preserves_run_script (q : pyval) (c : nat) :
  preserves proj (run_script E q c).
Proof.
  unfold run_script, _generate_standalone_script.
  repeat first [apply preserves_generate_script
               | apply preserves_execute_standalone_script | frame_step].
Qed.

Lemma preserves_load_dataset (filename : pyval) :
  preserves proj (load_dataset E filename).
Proof.
  unfold load_dataset. repeat frame_step.
  apply preserves_try_except; [| frame_handler].
  apply preserves_bind; [intros w; reflexivity | intros df].
  apply preserves_bind; [intros w; cbn; apply Hdata | intros _].
  apply preserves_bind; [intros w; cbn; apply Hfile | intros _].
  repeat frame_step.
Qed.

(** Every tool but [load_dataset]. *)
Lemma preserves_call_function_other (name : string) (args : pyval) (c : nat) :
  name <> "load_dataset" ->
  preserves proj (call_function E name args c).
Proof.
  intros Hname. unfold call_function.
  destruct (String.eqb name "load_dataset") eqn:Hload.
  { apply String.eqb_eq in Hload. contradiction. }
  repeat first [apply preserves_get_dataset_list
               | apply preserves_get_data_preview
               | apply preserves_get_data_info
               | apply preserves_run_script | frame_step].
Qed.

Lemma preserves_call_function (name : string) (args : pyval) (c : nat) :
  preserves proj (call_function E name args c).
Proof.
  destruct (String.eqb name "load_dataset") eqn:Hload.
  - apply String.eqb_eq in Hload as ->. unfold call_function.
    cbn [String.eqb Ascii.eqb Bool.eqb andb].
    repeat first [apply preserves_load_dataset | frame_step].
  - apply preserves_call_function_other.
    apply String.eqb_neq. exact Hload.
Qed.

End Frame.

Section NeverDoes.

Variable E : Env.

(** X1. No tool, whatever its arguments and however it ends, touches the
    agent's message list, the message log or the conversations: those
    belong to the loop around the dispatcher. *)
Theorem call_function_keeps_conversation_state
        (name : string) (args : pyval) (c : nat) (w : world) :
  let w' := snd (call_function E name args c w) in
  agent_messages w' = agent_messages w
  /\ db_messages w' = db_messages w
  /\ db_conversations w' = db_conversations w.
Proof.
  cbn zeta. split; [| split].
  - apply (preserves_call_function E agent_messages); reflexivity.
  - apply (preserves_call_function E db_messages); reflexivity.
  - apply (preserves_call_function E db_conversations); reflexivity.
Qed.

(** X2. The Dataset Context is changed by [load_dataset] alone. *)
Theorem only_load_dataset_changes_context
        (name : string) (args : pyval) (c : nat) (w : world) :
  name <> "load_dataset" ->
  let w' := snd (call_function E name args c w) in
  agent_data w' = agent_data w /\ agent_data_file w' = agent_data_file w.
Proof.
  intros Hname. cbn zeta. split.
  - apply (preserves_call_function_other E agent_data); try reflexivity.
    exact Hname.
  - apply (preserves_call_function_other E agent_data_file); try reflexivity.
    exact Hname.
Qed.

Lemma call_kwargs_world {A} (params : list string) (args : pyval)
      (k : list pyval -> M A) (w : world) :
  (forall vs w0, fs (snd (k vs w0)) = fs w0
                 /\ tmp_names (snd (k vs w0)) = tmp_names w0
                 /\ trace (snd (k vs w0)) = trace w0) ->
  fs (snd (bind (lift_outcome (call_kwargs params args)) k w)) = fs w
  /\ tmp_names (snd (bind (lift_outcome (call_kwargs params args)) k w))
     = tmp_names w
  /\ trace (snd (bind (lift_outcome (call_kwargs params args)) k w)) = trace w.
Proof.
  intros Hk. unfold bind, lift_outcome.
  destruct (call_kwargs params args) as [vs | e]; [apply Hk | auto].
Qed.

Lemma get_dataset_list_world (w : world) : snd (get_dataset_list w) = w.
Proof.
  unfold get_dataset_list, bind, os_path_exists, os_listdir.
  destruct (fs w !! "datasets") as [[|] |] eqn:Hd; cbn; rewrite ?Hd;
    try reflexivity.
  destruct (List.filter _ _); reflexivity.
Qed.

Lemma get_data_preview_world (w : world) : snd (get_data_preview w) = w.
Proof.
  unfold get_data_preview, bind, get_world. destruct (agent_data w); reflexivity.
Qed.

Lemma get_data_info_world (w : world) : snd (get_data_info E w) = w.
Proof.
  unfold get_data_info, bind, get_world. destruct (agent_data w); reflexivity.
Qed.

Lemma load_dataset_disk (filename : pyval) (w : world) :
  fs (snd (load_dataset E filename w)) = fs w
  /\ tmp_names (snd (load_dataset E filename w)) = tmp_names w
  /\ trace (snd (load_dataset E filename w)) = trace w.
Proof.
  destruct filename as [| b | n | name | l | l | d]; try (cbn; auto).
  unfold load_dataset, bind, os_path_exists.
  destruct (fs w !! PyStr.path_join "datasets" name) as [nd |]; cbn; auto.
  unfold try_except, bind.
  destruct (read_csv E _ (fs w)) as [df | e]; cbn; auto.
  destruct (is_Exception e); cbn; auto.
Qed.

(** X3. The disk, the temporary names and the trace of external interactions
    are touched by [run_script] alone: no other tool writes a file, asks
    the model or starts a process. *)
Theorem only_run_script_has_effects
        (name : string) (args : pyval) (c : nat) (w : world) :
  name <> "run_script" ->
  let w' := snd (call_function E name args c w) in
  fs w' = fs w /\ tmp_names w' = tmp_names w /\ trace w' = trace w.
Proof.
  intros Hname. cbn zeta. unfold call_function.
  destruct (String.eqb name "get_dataset_list").
  { apply call_kwargs_world. intros _ w0.
    rewrite get_dataset_list_world. auto. }
  destruct (String.eqb name "load_dataset").
  { apply call_kwargs_world. intros vs w0. apply load_dataset_disk. }
  destruct (String.eqb name "get_data_preview").
  { apply call_kwargs_world. intros _ w0.
    rewrite get_data_preview_world. auto. }
  destruct (String.eqb name "get_data_info").
  { apply call_kwargs_world. intros _ w0.
    rewrite get_data_info_world. auto. }
  destruct (String.eqb name "run_script") eqn:Hrun.
  { apply String.eqb_eq in Hrun. contradiction. }
  cbn. auto.
Qed.

(** X4. A name outside the catalogue is answered with the "Unknown tool"
    error result, whatever the arguments are; nothing is raised and
    nothing changes. *)
Theorem unknown_tool_is_an_error_result
        (name : string) (args : pyval) (c : nat) (w : world) :
  find_tool name = None ->
  call_function E name args c w
  = (Ret (err ("Unknown tool: " +:+ name)), w).
Proof.
  unfold find_tool, get_tools. cbn [List.find tool_name]. intros Hfind.
  unfold call_function.
  repeat match type of Hfind with
  | (if String.eqb ?a name then _ else _) = _ =>
      rewrite (String.eqb_sym a name) in Hfind;
      destruct (String.eqb name a) eqn:?; [discriminate |]
  end.
  reflexivity.
Qed.

End NeverDoes.

(** ** Loading and reading the dataset *)

Section DatasetContext.

Variable E : Env.

Lemma load_dataset_success (name : string) (w : world) (nd : node)
      (df : DataFrame) :
  fs w !! PyStr.path_join "datasets" name = Some nd ->
  read_csv E (PyStr.path_join "datasets" name) (fs w) = Ret df ->
  load_dataset E (VStr name) w
  = (Ret [("status", VStr "success");
          ("filename", VStr name);
          ("shape", df_shape df);
          ("columns", VList (map VStr (df_columns df)));
          ("preview", df_head_records 10 df)],
     set_agent_data_file (Some name) (set_agent_data (Some df) w)).
Proof.
  intros Hex Hcsv. unfold load_dataset, bind, os_path_exists.
  rewrite Hex. cbn. unfold try_except, bind. rewrite Hcsv. reflexivity.
Qed.

(** X5. A successful load replaces the Dataset Context whatever it was, and
    the tools that read it then report the new file: [get_data_info]
    called next gives its name, shape, columns and column types. *)
Theorem load_then_info (name : string) (w : world) (nd : node)
        (df : DataFrame) :
  fs w !! PyStr.path_join "datasets" name = Some nd ->
  read_csv E (PyStr.path_join "datasets" name) (fs w) = Ret df ->
  bind (load_dataset E (VStr name)) (fun _ => get_data_info E) w
  = (Ret [("status", VStr "success");
          ("filename", VStr name);
          ("shape", df_shape df);
          ("columns", VList (map VStr (df_columns df)));
          ("dtypes",
           VDict (combine (df_columns df) (map VStr (df_dtypes df))));
          ("summary", describe_json E df)],
     set_agent_data_file (Some name) (set_agent_data (Some df) w)).
Proof.
  intros Hex Hcsv.
  rewrite (bind_Ret_eq _ _ _ _ _ (load_dataset_success name w nd df Hex Hcsv)).
  reflexivity.
Qed.

(** X6. [get_data_preview] and [get_data_info] only read: the world is the
    same afterwards, and their result is an error exactly when no dataset
    is loaded. *)
Theorem preview_and_info_read_only (w : world) :
  get_data_preview w
  = (Ret (match agent_data w with
          | None => err "No dataset loaded yet."
          | Some df =>
              [("status", VStr "success");
               ("filename", opt_str_val (agent_data_file w));
               ("preview", df_head_records 5 df)]
          end), w)
  /\ snd (get_data_info E w) = w
  /\ (agent_data w = None <->
      exists d, fst (get_data_info E w) = Ret d
                /\ dict_get "status" d = Some (VStr "error"))
  /\ (agent_data w = None <->
      exists d, fst (get_data_preview w) = Ret d
                /\ dict_get "status" d = Some (VStr "error")).
Proof.
  unfold get_data_preview, get_data_info, bind, get_world.
  destruct (agent_data w) as [df |]; cbn.
  - split; [reflexivity |]. split; [reflexivity |].
    split; (split; [discriminate |]);
      intros (d & Hd & Hs); injection Hd as <-; discriminate.
  - split; [reflexivity |]. split; [reflexivity |].
    split; (split; [| reflexivity]); intros _; eexists;
      (split; [reflexivity | reflexivity]).
Qed.

Lemma length_head_records (n : nat) (df : DataFrame) :
  exists records,
    df_head_records n df = VList records
    /\ length records = Nat.min n (length (df_rows df))
    /\ Forall (fun r => exists row, r = VDict (combine (df_columns df) row)
                                    /\ In row (df_rows df)) records.
Proof.
  unfold df_head_records. eexists. split; [reflexivity |]. split.
  - rewrite length_map, length_firstn. reflexivity.
  - apply Forall_forall. intros r Hr.
    apply list_elem_of_In, in_map_iff in Hr as (row & <- & Hrow).
    exists row. split; [reflexivity |].
    rewrite <- (firstn_skipn n (df_rows df)). apply in_or_app. left.
    exact Hrow.
Qed.

(** X7. The preview of [get_data_preview] is bounded: it has 5 records, or
    as many as the dataset has rows when those are fewer, and each record
    pairs the column names with the cells of a row of the dataset. *)
Theorem previews_are_bounded (w : world) (df : DataFrame) :
  agent_data w = Some df ->
  exists records,
    dict_get "preview"
      (match fst (get_data_preview w) with Ret d => d | Raise _ => [] end)
    = Some (VList records)
    /\ length records = Nat.min 5 (length (df_rows df))
    /\ Forall (fun r => exists row, r = VDict (combine (df_columns df) row)
                                    /\ In row (df_rows df)) records.
Proof.
  intros Hdata. destruct (length_head_records 5 df) as (records & Heq & Hlen & Hall).
  exists records. unfold get_data_preview, bind, get_world. rewrite Hdata.
  cbn. rewrite Heq. auto.
Qed.

(** X8. The filename is not confined to the storage location: an absolute
    path makes [os.path.join] drop "datasets", and the file at that path
    is loaded as the dataset. *)
Theorem load_dataset_absolute_path (rest : string) (w : world) (nd : node)
        (df : DataFrame) :
  fs w !! ("/" +:+ rest) = Some nd ->
  read_csv E ("/" +:+ rest) (fs w) = Ret df ->
  exists d,
    load_dataset E (VStr ("/" +:+ rest)) w
    = (Ret d,
       set_agent_data_file (Some ("/" +:+ rest))
                           (set_agent_data (Some df) w))
    /\ dict_get "status" d = Some (VStr "success").
Proof.
  intros Hex Hcsv. eexists. split.
  - apply (load_dataset_success ("/" +:+ rest) w nd df); assumption.
  - reflexivity.
Qed.

End DatasetContext.

(** ** Outcomes of the script executor *)

Section ExecutorOutcomes.

Variable E : Env.

(** The world in which the [try] block of the executor starts. *)
Lemma execute_unfold (sp rp : string) (w : world) (d : string)
      (rest : list string) :
  pick_fresh (fs w) (tmp_names w) = Some (d, rest) ->
  execute_standalone_script E sp rp w
  = (let '(r, w') :=
       try_except
         (venv_create_ E d ;; install_and_run E (venv_python E d) sp rp)
         (execute_handlers)
         (set_tmp_names rest (set_fs (<[d := Dir]> (fs w)) w)) in
     (r, set_fs (rmtree d (fs w')) w')).
Proof.
  intros Hpick.
  unfold execute_standalone_script, with_TemporaryDirectory, bind at 1, mkdtemp.
  rewrite Hpick. reflexivity.
Qed.



(** X11. When [venv.create] raises an [Exception] no process is started: the
    trace gains the creation attempt alone. The result is an error whose
    message quotes the exception, under "Failed to execute script", or
    under "Failed to install required packages" when the exception is a
    [CalledProcessError] (as raised by the bootstrap of pip). *)
Theorem provisioning_failure_spawns_nothing (sp rp : string) (w : world)
        (d : string) (rest : list string) (f1 : gmap string node) (e : exn) :
  pick_fresh (fs w) (tmp_names w) = Some (d, rest) ->
  venv_create E d (<[d := Dir]> (fs w)) = (Raise e, f1) ->
  is_Exception e = true ->
  fst (execute_standalone_script E sp rp w)
  = Ret (err (match e with
              | CalledProcessError _ stderr =>
                  "Failed to install required packages: " +:+ stderr
              | _ => "Failed to execute script: " +:+ exn_str e
              end))
  /\ trace (snd (execute_standalone_script E sp rp w))
     = (trace w ++ [EvVenvCreate d])%list.
Proof.
  intros Hpick Hvenv He.
  rewrite (execute_unfold sp rp w d rest Hpick).
  unfold try_except, bind, venv_create_, log_event, modify, bind,
    execute_handlers.
  cbn. rewrite Hvenv. cbn.
  destruct e; cbn in He |- *; try discriminate; auto.
Qed.

End ExecutorOutcomes.

(** ** The script artifact *)

Section Artifact.

Variable E : Env.

#[local] Arguments String.append !_ _ / : simpl nomatch.

Lemma has_char_app_r (c : ascii) (a b : string) :
  PyStr.has_char c b = true -> PyStr.has_char c (a +:+ b) = true.
Proof.
  intros H. induction a as [| x a IH]; cbn; [exact H |].
  rewrite IH. apply orb_true_r.
Qed.

Lemma has_char_app_l (c : ascii) (a b : string) :
  PyStr.has_char c a = true -> PyStr.has_char c (a +:+ b) = true.
Proof.
  induction a as [| x a IH]; cbn; [discriminate |].
  intros H. apply orb_true_iff in H as [H | H].
  - rewrite H. reflexivity.
  - rewrite (IH H). apply orb_true_r.
Qed.

(** A directory above a file of "generated_scripts" is that directory. *)
Lemma parent_of_artifact (d name : string) :
  PyStr.has_char "/" name = false ->
  PyStr.startswith (d +:+ "/") ("generated_scripts/" +:+ name) = true ->
  d = "generated_scripts".
Proof.
  intros Hname H.
  do 17 (destruct d as [| ? d];
         [cbn in H; discriminate
         | cbn [String.append PyStr.startswith] in H;
           apply andb_true_iff in H as [Hc H];
           apply Ascii.eqb_eq in Hc; subst]).
  destruct d as [| x d]; [reflexivity |]. exfalso.
  cbn [String.append PyStr.startswith] in H.
  apply andb_true_iff in H as [_ H].
  apply PyStrFacts.startswith_exists in H as [r Hr].
  assert (Hs : PyStr.has_char "/" name = true).
  { rewrite Hr. apply has_char_app_l, has_char_app_r. reflexivity. }
  congruence.
Qed.

Lemma artifact_not_under (d name : string) (f : gmap string node) :
  PyStr.has_char "/" name = false ->
  f !! d = None ->
  is_Some (f !! "generated_scripts") ->
  is_Some (f !! ("generated_scripts/" +:+ name)) ->
  under d ("generated_scripts/" +:+ name) = false.
Proof.
  intros Hname Hd [x Hdir] [y Hfile]. unfold under.
  apply orb_false_iff. split.
  - apply String.eqb_neq. intros Heq. rewrite Heq in Hfile. congruence.
  - apply not_true_is_false. intros H.
    apply parent_of_artifact in H; [| exact Hname]. subst d. congruence.
Qed.

Lemma pick_fresh_fresh (f : gmap string node) (names : list string)
      (d : string) (rest : list string) :
  pick_fresh f names = Some (d, rest) -> f !! d = None.
Proof.
  induction names as [| n names IH]; [discriminate |].
  cbn. destruct (f !! n) eqn:Hn; [exact IH |].
  intros H. injection H as <- _. exact Hn.
Qed.

Lemma rmtree_other (d p : string) (f : gmap string node) :
  under d p = false -> rmtree d f !! p = f !! p.
Proof.
  intros Hu. unfold rmtree. destruct (f !! p) as [x |] eqn:Hp.
  - apply map_lookup_filter_Some. split; [exact Hp | exact Hu].
  - apply map_lookup_filter_None. left. exact Hp.
Qed.

(** What is at [p] survives the executor when [p] is not put under the
    temporary directory and the processes leave it alone. *)
Lemma execute_keeps_path (sp rp p : string) (w : world) :
  leaves_alone E p ->
  (forall d rest, pick_fresh (fs w) (tmp_names w) = Some (d, rest) ->
                  under d p = false) ->
  fs (snd (execute_standalone_script E sp rp w)) !! p = fs w !! p.
Proof.
  intros [Hvenv Hrun] Hfresh.
  unfold execute_standalone_script, with_TemporaryDirectory, bind at 1, mkdtemp.
  destruct (pick_fresh (fs w) (tmp_names w)) as [[d rest] |] eqn:Hpick;
    [| reflexivity].
  specialize (Hfresh d rest eq_refl).
  assert (Hpd : p <> d).
  { intros ->. unfold under in Hfresh. rewrite String.eqb_refl in Hfresh.
    discriminate. }
  match goal with
  | |- context [try_except ?b ?h ?w0] =>
      assert (Hbody : fs (snd (try_except b h w0)) !! p = fs w !! p);
      [| destruct (try_except b h w0) as [r w1]; cbn in *;
         rewrite rmtree_other; [exact Hbody | exact Hfresh]]
  end.
  unfold try_except, bind, venv_create_, install_and_run, subprocess_run_check,
    subprocess_run_, log_event, modify, bind, raise, ret, execute_handlers.
  cbn.
  pose proof (Hvenv d (<[d := Dir]> (fs w))) as H1.
  destruct (venv_create E d _) as [[[] | e] f1]; cbn in H1 |- *;
    rewrite lookup_insert_ne in H1 by congruence.
  2: { destruct e; cbn; exact H1. }
  pose proof (Hrun (pip_argv (venv_python E d) rp) f1) as H2.
  destruct (subprocess_run E (pip_argv _ _) f1) as [[pip | e] f2];
    cbn in H2 |- *; rewrite H1 in H2.
  2: { destruct e; cbn; exact H2. }
  destruct (returncode pip) as [| k]; cbn; [| exact H2].
  pose proof (Hrun [venv_python E d; sp] f2) as H3.
  destruct (subprocess_run E [_; _] f2) as [[run | e] f3];
    cbn in H3 |- *; rewrite H2 in H3.
  2: { destruct e; cbn; exact H3. }
  destruct (returncode run); cbn; exact H3.
Qed.

Lemma truthy_nonempty (s : string) :
  s <> EmptyString -> negb (truthy (VStr s)) = false.
Proof.
  intros H. cbn. apply String.eqb_neq in H. rewrite H. reflexivity.
Qed.

(** With a script at hand [run_script] reaches the executor in a world
    whose disk holds the two artifact files. *)
Lemma run_script_reaches_executor (q : pyval) (c : nat) (w : world)
      (df : DataFrame) (f : string) (resp : response) (d : dict)
      (script0 : string) (packages : list string) :
  agent_data w = Some df ->
  agent_data_file w = Some f ->
  responses_create E
    (generation_request E f (PyStr.path_join "datasets" f) df q c)
  = Ret resp ->
  parse_output_text (resp_output_text resp) = Ret d ->
  dict_get "script" d = Some (VStr script0) ->
  script0 <> EmptyString ->
  dict_get "packages" d = Some (VList (map VStr packages)) ->
  (forall content, fs w !! "generated_scripts" <> Some (File content)) ->
  fs w !! "generated_scripts/analysis_script.py" <> Some Dir ->
  fs w !! "generated_scripts/script_requirements.txt" <> Some Dir ->
  exists w4,
    snd (run_script E q c w)
    = snd (execute_standalone_script E
             "generated_scripts/analysis_script.py"
             "generated_scripts/script_requirements.txt" w4)
    /\ fs w4 !! "generated_scripts" = Some Dir
    /\ fs w4 !! "generated_scripts/analysis_script.py"
       = Some (File (_clean_script script0))
    /\ fs w4 !! "generated_scripts/script_requirements.txt"
       = Some (File (requirements_text packages))
    /\ tmp_names w4 = tmp_names w.
Proof.
  intros Hdata Hfile Hresp Hparse Hscript Hne Hpk Hdir Hsp Hrp.
  pose proof (generate_script_parsed E q (PyStr.path_join "datasets" f) c w
                df f resp d Hdata Hfile Hresp Hparse) as Hgen.
  unfold run_script, bind at 1, get_world. rewrite Hdata, Hfile.
  unfold bind at 1, ret at 1. unfold _generate_standalone_script.
  rewrite (bind_Ret_eq _ _ _ _ _ Hgen). rewrite Hscript.
  rewrite (truthy_nonempty script0 Hne).
  unfold dict_get_default. rewrite Hpk.
  set (w1 := set_trace _ w) in *.
  change (PyStr.path_join "generated_scripts" "analysis_script.py")
    with "generated_scripts/analysis_script.py".
  change (PyStr.path_join "generated_scripts" "script_requirements.txt")
    with "generated_scripts/script_requirements.txt".
  assert (Hreq : String.concat EmptyString
                   (map (fun p => match p with
                                  | VStr s => s +:+ PyStr.nl
                                  | _ => PyStr.nl
                                  end) (map VStr packages))
                 = requirements_text packages).
  { unfold requirements_text. rewrite map_map. reflexivity. }
  rewrite Hreq. clear Hreq.
  set (fdir := match fs w !! "generated_scripts" with
               | Some _ => fs w
               | None => <["generated_scripts" := Dir]> (fs w)
               end).
  assert (Hmk : os_makedirs "generated_scripts" w1 = (Ret tt, set_fs fdir w1)).
  { unfold os_makedirs, fdir. cbn.
    destruct (fs w !! "generated_scripts") as [[| content] |] eqn:Hd.
    - destruct w; reflexivity.
    - exfalso. exact (Hdir content eq_refl).
    - reflexivity. }
  assert (Hfdir : fdir !! "generated_scripts" = Some Dir
                  /\ fdir !! "generated_scripts/analysis_script.py"
                     = fs w !! "generated_scripts/analysis_script.py"
                  /\ fdir !! "generated_scripts/script_requirements.txt"
                     = fs w !! "generated_scripts/script_requirements.txt").
  { unfold fdir.
    destruct (fs w !! "generated_scripts") as [[| content] |] eqn:Hd.
    - auto.
    - exfalso. exact (Hdir content eq_refl).
    - rewrite lookup_insert_eq, !lookup_insert_ne by discriminate. auto. }
  destruct Hfdir as (Hd1 & Hd2 & Hd3).
  rewrite (bind_Ret_eq _ _ _ _ _ Hmk).
  set (f3 := <["generated_scripts/analysis_script.py"
               := File (_clean_script script0)]> fdir).
  assert (Hw1 : write_file "generated_scripts/analysis_script.py"
                           (_clean_script script0) (set_fs fdir w1)
                = (Ret tt, set_fs f3 (set_fs fdir w1))).
  { unfold write_file. cbn [fs set_fs]. rewrite Hd2.
    destruct (fs w !! "generated_scripts/analysis_script.py") as [[|] |];
      [contradiction | reflexivity | reflexivity]. }
  rewrite (bind_Ret_eq _ _ _ _ _ Hw1).
  set (f4 := <["generated_scripts/script_requirements.txt"
               := File (requirements_text packages)]> f3).
  assert (Hw2 : write_file "generated_scripts/script_requirements.txt"
                           (requirements_text packages)
                           (set_fs f3 (set_fs fdir w1))
                = (Ret tt, set_fs f4 (set_fs f3 (set_fs fdir w1)))).
  { unfold write_file. cbn [fs set_fs]. unfold f3.
    rewrite lookup_insert_ne by discriminate. rewrite Hd3.
    destruct (fs w !! "generated_scripts/script_requirements.txt") as [[|] |];
      [contradiction | reflexivity | reflexivity]. }
  rewrite (bind_Ret_eq _ _ _ _ _ Hw2).
  exists (set_fs f4 (set_fs f3 (set_fs fdir w1))).
  split.
  { unfold bind.
    destruct (execute_standalone_script E _ _ _) as [[r | e] w5]; reflexivity. }
  cbn [fs set_fs tmp_names]. unfold f4, f3.
  rewrite !lookup_insert_eq, !lookup_insert_ne by discriminate.
  rewrite lookup_insert_eq. auto.
Qed.

(** X12. The Script Artifact outlives the execution: when a script was
    synthesized and the processes of the environment do not touch the two
    artifact files, then after [run_script], however the execution ended,
    "generated_scripts/analysis_script.py" holds the cleaned script and
    "generated_scripts/script_requirements.txt" one package per line,
    whatever these files held before. *)
Theorem run_script_artifacts_outlive_execution
        (q : pyval) (c : nat) (w : world)
        (df : DataFrame) (f : string) (resp : response) (d : dict)
        (script0 : string) (packages : list string) :
  agent_data w = Some df ->
  agent_data_file w = Some f ->
  responses_create E
    (generation_request E f (PyStr.path_join "datasets" f) df q c)
  = Ret resp ->
  parse_output_text (resp_output_text resp) = Ret d ->
  dict_get "script" d = Some (VStr script0) ->
  script0 <> EmptyString ->
  dict_get "packages" d = Some (VList (map VStr packages)) ->
  (forall content, fs w !! "generated_scripts" <> Some (File content)) ->
  fs w !! "generated_scripts/analysis_script.py" <> Some Dir ->
  fs w !! "generated_scripts/script_requirements.txt" <> Some Dir ->
  leaves_alone E "generated_scripts/analysis_script.py" ->
  leaves_alone E "generated_scripts/script_requirements.txt" ->
  fs (snd (run_script E q c w)) !! "generated_scripts/analysis_script.py"
  = Some (File (_clean_script script0))
  /\ fs (snd (run_script E q c w))
     !! "generated_scripts/script_requirements.txt"
     = Some (File (requirements_text packages)).
Proof.
  intros Hdata Hfile Hresp Hparse Hscript Hne Hpk Hdir Hsp Hrp Hs Hr.
  destruct (run_script_reaches_executor q c w df f resp d script0 packages
              Hdata Hfile Hresp Hparse Hscript Hne Hpk Hdir Hsp Hrp)
    as (w4 & -> & Hd4 & Hs4 & Hr4 & _).
  split.
  - rewrite execute_keeps_path; [exact Hs4 | exact Hs |].
    intros d0 rest Hpick.
    apply (artifact_not_under d0 "analysis_script.py" (fs w4));
      [reflexivity | exact (pick_fresh_fresh _ _ _ _ Hpick) | | ];
      [rewrite Hd4 | cbn; rewrite Hs4]; eauto.
  - rewrite execute_keeps_path; [exact Hr4 | exact Hr |].
    intros d0 rest Hpick.
    apply (artifact_not_under d0 "script_requirements.txt" (fs w4));
      [reflexivity | exact (pick_fresh_fresh _ _ _ _ Hpick) | | ];
      [rewrite Hd4 | cbn; rewrite Hr4]; eauto.
Qed.

End Artifact.

(** ** Cleaning the synthesized script *)

Section CleanScript.
Import PyStr PyStrFacts.

#[local] Arguments String.append !_ _ / : simpl nomatch.

Lemma startswith_cons (a b : ascii) (p s : string) :
  startswith (String a p) (String b s) = Ascii.eqb a b && startswith p s.
Proof. reflexivity. Qed.

Lemma replace_go_cons (old new : string) (c : ascii) (s : string) :
  replace_go old new 0 (String c s)
  = if startswith old (String c s)
    then new +:+ replace_go old new (String.length old - 1) s
    else String c (replace_go old new 0 s).
Proof. reflexivity. Qed.

Lemma startswith_one (a : ascii) (s : string) :
  startswith (String a EmptyString) s = false ->
  forall p, startswith (String a p) s = false.
Proof.
  destruct s as [| b s]; [reflexivity |].
  rewrite startswith_cons, startswith_nil, andb_true_r. intros H p.
  rewrite startswith_cons, H. reflexivity.
Qed.

Lemma replace_fence_head1 (s : string) :
  startswith "`" s = false ->
  startswith "`" (replace_go "```" EmptyString 0 s) = false.
Proof.
  destruct s as [| c s]; [reflexivity |]. intros Hs.
  rewrite replace_go_cons, (startswith_one _ _ Hs "``").
  rewrite startswith_cons in Hs |- *. rewrite startswith_nil in *.
  exact Hs.
Qed.

Lemma replace_fence_head2 (s : string) :
  startswith "``" s = false ->
  startswith "``" (replace_go "```" EmptyString 0 s) = false.
Proof.
  destruct s as [| c s]; [reflexivity |]. intros Hs.
  rewrite replace_go_cons.
  change "```" with (String "`" "``") at 1.
  rewrite startswith_cons in Hs. rewrite !startswith_cons.
  destruct (Ascii.eqb "`" c) eqn:Hc; cbn [andb] in Hs |- *.
  - rewrite (startswith_one _ _ Hs "`"). rewrite startswith_cons, Hc.
    cbn [andb]. apply replace_fence_head1. exact Hs.
  - rewrite startswith_cons, Hc. reflexivity.
Qed.

Lemma replace_fence_no_fence :
  forall s k, contains "```" (replace_go "```" EmptyString k s) = false.
Proof.
  induction s as [| c s IH]; intros k; [reflexivity |].
  destruct k as [| k]; [| apply IH].
  rewrite replace_go_cons.
  destruct (startswith "```" (String c s)) eqn:Hf.
  - apply IH.
  - cbn [contains]. rewrite IH, orb_false_r.
    change "```" with (String "`" "``") in Hf |- *.
    rewrite startswith_cons in Hf |- *.
    destruct (Ascii.eqb "`" c); cbn [andb] in Hf |- *; [| reflexivity].
    apply replace_fence_head2. exact Hf.
Qed.

Lemma contains_lstrip (p s : string) :
  contains p s = false -> contains p (lstrip s) = false.
Proof.
  induction s as [| c s IH]; intros H; [exact H |].
  cbn [lstrip]. destruct (is_space c); [| exact H].
  apply contains_cons_false in H as [_ H]. auto.
Qed.

Lemma rstrip_cons (c : ascii) (s : string) :
  rstrip (String c s)
  = match rstrip s with
    | EmptyString => if is_space c then EmptyString else String c EmptyString
    | r => String c r
    end.
Proof. reflexivity. Qed.

Lemma rstrip_is_prefix (s : string) : exists t, s = rstrip s +:+ t.
Proof.
  induction s as [| c s [t IH]]; [exists EmptyString; reflexivity |].
  rewrite rstrip_cons. destruct (rstrip s) as [| y r] eqn:Hr.
  - destruct (is_space c).
    + exists (String c s). reflexivity.
    + exists s. reflexivity.
  - exists t. cbn [String.append] in IH |- *. rewrite <- IH. reflexivity.
Qed.

Lemma startswith_app_l (p a b : string) :
  startswith p a = true -> startswith p (a +:+ b) = true.
Proof.
  revert a. induction p as [| x p IH]; intros a H; [apply startswith_nil |].
  destruct a as [| y a]; cbn in H |- *; [discriminate |].
  apply andb_true_iff in H as [Hxy H]. rewrite Hxy. cbn. auto.
Qed.

Lemma contains_app_false (p b : string) :
  forall a, contains p (a +:+ b) = false -> contains p a = false.
Proof.
  induction a as [| c a IH]; intros H.
  - cbn [String.append] in H. cbn [contains]. rewrite orb_false_r.
    destruct p as [| x p]; [| reflexivity].
    destruct b; discriminate.
  - cbn [String.append] in H. apply contains_cons_false in H as [Hs Hc].
    cbn [contains]. rewrite (IH Hc), orb_false_r.
    apply not_true_is_false. intros Hp.
    apply (startswith_app_l p (String c a) b) in Hp.
    cbn [String.append] in Hp. congruence.
Qed.

Lemma contains_strip (p s : string) :
  contains p s = false -> contains p (strip s) = false.
Proof.
  intros H. unfold strip. apply contains_lstrip in H.
  destruct (rstrip_is_prefix (lstrip s)) as [t Ht].
  rewrite Ht in H. apply contains_app_false in H. exact H.
Qed.

Lemma rstrip_idempotent (s : string) : rstrip (rstrip s) = rstrip s.
Proof.
  induction s as [| c s IH]; [reflexivity |].
  rewrite rstrip_cons. destruct (rstrip s) as [| y r] eqn:Hr.
  - destruct (is_space c) eqn:Hc; [reflexivity |].
    rewrite rstrip_cons. change (rstrip EmptyString) with EmptyString.
    rewrite Hc. reflexivity.
  - rewrite rstrip_cons, IH. reflexivity.
Qed.

Lemma lstrip_head (s : string) :
  lstrip s = EmptyString
  \/ exists c t, lstrip s = String c t /\ is_space c = false.
Proof.
  induction s as [| c s IH]; [left; reflexivity |].
  cbn [lstrip]. destruct (is_space c) eqn:Hc; [exact IH |].
  right. eauto.
Qed.

Lemma rstrip_keeps_head (c : ascii) (t : string) :
  is_space c = false -> exists t', rstrip (String c t) = String c t'.
Proof.
  intros Hc. rewrite rstrip_cons. destruct (rstrip t); [rewrite Hc |]; eauto.
Qed.

Lemma strip_is_stripped (s : string) :
  lstrip (strip s) = strip s /\ rstrip (strip s) = strip s.
Proof.
  unfold strip. split; [| apply rstrip_idempotent].
  destruct (lstrip_head s) as [-> | (c & t & -> & Hc)]; [reflexivity |].
  destruct (rstrip_keeps_head c t Hc) as [t' ->].
  cbn [lstrip]. rewrite Hc. reflexivity.
Qed.

(** X13. Whatever the model wrote, the cleaned script holds no code fence
    and neither starts nor ends with whitespace. *)
Theorem clean_script_is_clean (script : string) :
  contains "```" (_clean_script script) = false
  /\ lstrip (_clean_script script) = _clean_script script
  /\ rstrip (_clean_script script) = _clean_script script.
Proof.
  unfold _clean_script. split; [| apply strip_is_stripped].
  apply contains_strip. unfold replace. apply replace_fence_no_fence.
Qed.

(** X14. A script without code fences is only stripped: cleaning changes
    nothing inside it. *)
Theorem clean_script_without_fence (script : string) :
  contains "```" script = false ->
  _clean_script script = strip script.
Proof.
  intros H. unfold _clean_script, replace.
  rewrite (replace_none "```python" EmptyString script).
  - rewrite replace_none; [reflexivity | exact H].
  - apply (contains_prefix "```" "python"). exact H.
Qed.

End CleanScript.

(** ** The synthesizer's exchange *)

Section SynthesizerOutcome.
Import PyStr PyStrFacts.

Variable E : Env.

Lemma split_go_has_rest (sep : string) :
  sep <> EmptyString ->
  forall s, contains sep s = true -> snd (split_go sep 0 s) <> [].
Proof.
  intros Hsep. induction s as [| c s IH]; intros H.
  - destruct sep; [contradiction | discriminate].
  - cbn [split_go]. cbn [contains] in H.
    destruct (startswith sep (String c s)).
    + destruct (split_go sep (String.length sep - 1) s). cbn.
      intros H0. discriminate H0.
    + cbn [orb] in H. specialize (IH H).
      destruct (split_go sep 0 s). exact IH.
Qed.

(** Index 1 of the split is in range whenever the marker occurs, so the
    parsing never fails; it always yields a script and at least one
    package name. *)
Lemma parse_output_text_total (text : string) :
  exists script packages,
    parse_output_text text
    = Ret [("script", VStr script); ("packages", VList (map VStr packages))]
    /\ packages <> [].
Proof.
  unfold parse_output_text.
  destruct (contains "PACKAGES:" text) eqn:Hc.
  - assert (Hsep : "PACKAGES:" <> EmptyString) by (intros H; discriminate H).
    pose proof (split_go_has_rest "PACKAGES:" Hsep text Hc) as Hrest.
    unfold split at 1.
    destruct (split_go "PACKAGES:" 0 text) as [p ps]. cbn in Hrest.
    destruct ps as [| after ps]; [contradiction |]. cbn [nth_error].
    eexists. eexists. split; [reflexivity |].
    unfold split. destruct (split_go "," 0 _). intros H. discriminate H.
  - exists text, ["numpy"; "pandas"; "matplotlib"]. split;
      [reflexivity | intros H; discriminate H].
Qed.

(** X15. [generate_script] sends exactly one request and does not retry. It
    returns [None] only when that exchange raises an [Exception];
    whenever the model answers, it returns a dict with a script and a
    non-empty package list. *)
Theorem generate_script_none_only_on_exception
        (q : pyval) (dataset_path : string) (c : nat) (w : world)
        (df : DataFrame) :
  agent_data w = Some df ->
  let req :=
    generation_request E
      (match agent_data_file w with Some f => f | None => "None" end)
      dataset_path df q c in
  trace (snd (generate_script E q dataset_path c w))
  = (trace w ++ [EvModelRequest req])%list
  /\ match responses_create E req with
     | Ret resp =>
         exists script packages,
           fst (generate_script E q dataset_path c w)
           = Ret (Some [("script", VStr script);
                        ("packages", VList (map VStr packages))])
           /\ packages <> []
     | Raise e =>
         fst (generate_script E q dataset_path c w)
         = if is_Exception e then Ret None else Raise e
     end.
Proof.
  intros Hdata. cbn zeta.
  unfold generate_script, bind, get_world, agent_data_attr. rewrite Hdata.
  unfold try_except, bind, client_responses_create, log_event, modify, bind,
    lift_outcome, generation_request.
  cbn.
  destruct (responses_create E _) as [resp | e]; cbn.
  - destruct (parse_output_text_total (resp_output_text resp))
      as (script & packages & Hparse & Hne).
    rewrite Hparse. cbn. split; [reflexivity |].
    exists script, packages. auto.
  - destruct (is_Exception e); cbn; auto.
Qed.

End SynthesizerOutcome.

(** ** Turns of a query *)

Section QueryTurns.

Variable E : Env.

(** X16. A failure of the first exchange ends the query at once: the caller
    gets the apology as the response and no tool results, the log gains
    the user turn and the apology, and the model was asked exactly once
    (no retry). *)
Theorem query_agent_model_failure (fuel : nat) (agent_id query : string)
        (conversation_id : option nat) (w : world) (e : exn) :
  responses_create E (first_request E conversation_id query w) = Raise e ->
  is_Exception e = true ->
  let c := conversation_of conversation_id w in
  let w' := snd (query_agent E (S fuel) agent_id query conversation_id w) in
  fst (query_agent E (S fuel) agent_id query conversation_id w)
  = Ret (Some
      [("response",
        VStr "I'm having trouble processing your request. Please try again.");
       ("tool_results", VNone);
       ("conversation_id", VInt c);
       ("extra_data", VStr (json_dumps E VNone))])
  /\ db_messages w'
     = (db_messages w
        ++ [(c, user_turn query);
            (c, assistant_turn
                  "I'm having trouble processing your request. Please try again."
                  VNone)])%list
  /\ trace w'
     = (trace w ++ [EvModelRequest
                      (first_request E conversation_id query w)])%list.
Proof.
  intros Hresp He. cbn zeta.
  unfold query_agent, process_user_input, exchange, try_except, bind,
    db_save_message, db_create_conversation, append_message, modify,
    client_responses_create, log_event, modify, bind, lift_outcome, get_world,
    ret.
  unfold first_request, messages_at_first_request in Hresp.
  destruct conversation_id as [c |]; cbn in Hresp |- *; rewrite Hresp; cbn;
    rewrite He; cbn; rewrite <- !app_assoc; auto.
Qed.

(** X17. When the model answers the first request without asking for a tool,
    the query ends after that single exchange: the caller gets no tool
    results, and the log gains exactly the user turn and one assistant
    turn. The text returned and logged is the model's text when the
    response carries a usage record; when [response.usage] is [None] the
    exchange fails on it, and the text returned and logged is the
    apology, the model's answer being lost. *)
Theorem query_agent_direct_answer (fuel : nat) (agent_id query : string)
        (conversation_id : option nat) (w : world) (resp : response) :
  responses_create E (first_request E conversation_id query w) = Ret resp ->
  List.filter is_function_call (resp_output resp) = [] ->
  let c := conversation_of conversation_id w in
  let w' := snd (query_agent E (S fuel) agent_id query conversation_id w) in
  let text :=
    match resp_usage resp with
    | Some _ => resp_output_text resp
    | None => "I'm having trouble processing your request. Please try again."
    end in
  fst (query_agent E (S fuel) agent_id query conversation_id w)
  = Ret (Some
      [("response", VStr text);
       ("tool_results", VNone);
       ("conversation_id", VInt c);
       ("extra_data",
        VStr (json_dumps E (opt_dict_val (resp_usage resp))))])
  /\ db_messages w'
     = (db_messages w
        ++ [(c, user_turn query);
            (c, assistant_turn text
                  (match resp_usage resp with
                   | Some ((_ :: _) as u) => VStr (json_dumps E (VDict u))
                   | _ => VNone
                   end))])%list
  /\ trace w'
     = (trace w ++ [EvModelRequest
                      (first_request E conversation_id query w)])%list.
Proof.
  intros Hresp Hcalls. cbn zeta.
  unfold query_agent, process_user_input, exchange, try_except, bind,
    db_save_message, db_create_conversation, append_message, modify,
    client_responses_create, log_event, modify, bind, lift_outcome, get_world,
    ret, raise.
  unfold first_request, messages_at_first_request in Hresp.
  destruct conversation_id as [c |]; cbn in Hresp |- *; rewrite Hresp; cbn;
    destruct (resp_usage resp) as [u |]; cbn;
    rewrite ?Hcalls; cbn;
    try destruct (negb (String.eqb (resp_output_text resp) EmptyString)); cbn;
    rewrite <- !app_assoc; try destruct u; auto.
Qed.

(** One dispatched call, seen from the conversation. *)
Lemma dispatch_tool_call_inv (c : nat) (tool_results results' : list pyval)
      (tool_call : output_item) (w w' : world) :
  is_function_call tool_call = true ->
  dispatch_tool_call E c tool_results tool_call w = (Ret results', w') ->
  exists args result,
    json_loads E (item_arguments tool_call) = Ret args
    /\ fst (call_function E (item_name tool_call) args c
                          (at_dispatch c tool_call w)) = Ret result
    /\ results'
       = (tool_results
          ++ [VDict [("tool", VStr (item_name tool_call));
                     ("arguments", args);
                     ("result", VDict result)]])%list
    /\ agent_messages w'
       = (agent_messages w
          ++ [MsgItem tool_call;
              MsgDict (output_turn tool_call (py_str E (VDict result)))])%list
    /\ db_messages w'
       = (db_messages w
          ++ [(c, call_turn tool_call);
              (c, output_turn tool_call (json_dumps E (VDict result)))])%list.
Proof.
  intros Hfc H. unfold dispatch_tool_call in H. rewrite Hfc in H.
  cbn [negb] in H.
  unfold bind, db_save_message, append_message, modify, lift_outcome in H.
  destruct (json_loads E (item_arguments tool_call)) as [args | e] eqn:Hjson;
    [| discriminate].
  assert (Hat : at_dispatch c tool_call w
                = set_agent_messages
                    (agent_messages w ++ [MsgItem tool_call])
                    (set_db_messages
                       (db_messages w ++ [(c, call_turn tool_call)]) w))
    by reflexivity.
  cbn [set_db_messages set_agent_messages agent_messages db_messages] in Hat.
  cbn [set_db_messages set_agent_messages agent_messages db_messages fs
       tmp_names agent_data agent_data_file db_conversations trace] in H.
  unfold call_turn in Hat. rewrite <- Hat in H.
  pose proof (preserves_call_function E agent_messages
                ltac:(reflexivity) ltac:(reflexivity) ltac:(reflexivity)
                ltac:(reflexivity) ltac:(reflexivity)
                (item_name tool_call) args c (at_dispatch c tool_call w))
    as Hm.
  pose proof (preserves_call_function E db_messages
                ltac:(reflexivity) ltac:(reflexivity) ltac:(reflexivity)
                ltac:(reflexivity) ltac:(reflexivity)
                (item_name tool_call) args c (at_dispatch c tool_call w))
    as Hd.
  destruct (call_function E (item_name tool_call) args c
                          (at_dispatch c tool_call w))
    as [[result | e] w2] eqn:Hcall; [| discriminate].
  cbn [snd] in Hm, Hd. rewrite Hat in Hm, Hd. cbn in Hm, Hd.
  exists args, result. split; [reflexivity |].
  split; [rewrite Hcall; reflexivity |].
  cbn in H. injection H as <- <-. cbn.
  rewrite Hm, Hd, <- !app_assoc. auto.
Qed.

(** X18. Each dispatched call leaves, in the agent's messages and in the log,
    its request turn immediately followed by its result turn, both with
    the call's identifier, and adds one entry to the tool results. *)
Theorem tool_result_follows_its_call
        (c : nat) (tool_results results' : list pyval)
        (tool_call : output_item) (w w' : world) :
  is_function_call tool_call = true ->
  dispatch_tool_call E c tool_results tool_call w = (Ret results', w') ->
  exists args result,
    results'
    = (tool_results
       ++ [VDict [("tool", VStr (item_name tool_call));
                  ("arguments", args);
                  ("result", VDict result)]])%list
    /\ agent_messages w'
       = (agent_messages w
          ++ [MsgItem tool_call;
              MsgDict (output_turn tool_call (py_str E (VDict result)))])%list
    /\ db_messages w'
       = (db_messages w
          ++ [(c, call_turn tool_call);
              (c, output_turn tool_call (json_dumps E (VDict result)))])%list.
Proof.
  intros Hfc H.
  destruct (dispatch_tool_call_inv c tool_results results' tool_call w w' Hfc H)
    as (args & result & _ & _ & Hres & Hm & Hd).
  exists args, result. auto.
Qed.

(** X19. A batch that is dispatched to its end yields one tool result per
    function call, in the order of the calls, and two turns per call in
    the agent's messages and in the log; items that are not function
    calls are passed over. *)
Theorem dispatch_batch_in_order (c : nat) (calls : list output_item) :
  forall (tool_results results' : list pyval) (w w' : world),
    dispatch_batch E c tool_results calls w = (Ret results', w') ->
    exists added,
      results' = (tool_results ++ added)%list
      /\ map tool_of added
         = map item_name (List.filter is_function_call calls)
      /\ length (agent_messages w')
         = length (agent_messages w)
           + 2 * length (List.filter is_function_call calls)
      /\ length (db_messages w')
         = length (db_messages w)
           + 2 * length (List.filter is_function_call calls).
Proof.
  induction calls as [| tool_call rest IH];
    intros tool_results results' w w' H.
  - cbn in H. injection H as <- <-. exists []. rewrite app_nil_r. cbn.
    repeat split; lia.
  - cbn [dispatch_batch] in H. bind_inv H.
    destruct (IH _ _ _ _ H) as (added & -> & Hnames & Hm & Hd).
    cbn [List.filter].
    destruct (is_function_call tool_call) eqn:Hfc.
    + destruct (dispatch_tool_call_inv c tool_results a tool_call w w0
                  Hfc Hstep)
        as (args & result & _ & _ & -> & Hm0 & Hd0).
      eexists (_ :: added). rewrite <- app_assoc. split; [reflexivity |].
      cbn [map tool_of dict_get]. cbn. rewrite Hnames.
      split; [reflexivity |].
      rewrite Hm, Hd, Hm0, Hd0, !length_app. cbn. lia.
    + unfold dispatch_tool_call in Hstep. rewrite Hfc in Hstep.
      cbn in Hstep. injection Hstep as <- <-.
      exists added. auto.
Qed.

End QueryTurns.

(** ** The stored history *)

Section StoredHistory.

Variable E : Env.

Lemma openai_messages_app (l1 l2 : list dict) (a : list dict) :
  openai_messages l1 = Ret a ->
  openai_messages (l1 ++ l2)
  = match openai_messages l2 with
    | Ret b => Ret (a ++ b)%list
    | Raise e => Raise e
    end.
Proof.
  revert a. induction l1 as [| m l1 IH]; intros a H.
  - cbn in H. injection H as <-. cbn. destruct (openai_messages l2); auto.
  - cbn [app openai_messages] in H |- *.
    destruct (dict_get "type" m) as [t |]; [| discriminate].
    destruct (is_str "message" (Some t)).
    + destruct (dict_get "role" m) as [r |]; [| discriminate].
      destruct (dict_get "content" m) as [c |]; [| discriminate].
      destruct (openai_messages l1) as [l |]; [| discriminate].
      injection H as <-. rewrite (IH l eq_refl).
      destruct (openai_messages l2); reflexivity.
    + auto.
Qed.

(** The row of a message turn reads back with its role and content. *)
Lemma row_message_of_message (id c : nat) (m : dict) :
  is_str "message" (Some (dict_get_default "type" (VStr "message") m)) = true ->
  openai_messages [row_message E (message_row E id c m)]
  = Ret [[("role", dict_get_default "role" VNone m);
          ("content", dict_get_default "content" (VStr EmptyString) m)]].
Proof.
  intros Ht. unfold message_row. rewrite Ht. unfold row_message.
  cbn [row_message_type row_role row_content row_id row_extra_data].
  rewrite Ht. cbn -[is_str]. rewrite Ht. reflexivity.
Qed.

(** The row of a tool-call or tool-output turn is passed over. *)
Lemma row_message_of_tool_turn (id c : nat) (m : dict) :
  storable E m = true ->
  is_str "message" (Some (dict_get_default "type" (VStr "message") m)) = false ->
  openai_messages [row_message E (message_row E id c m)] = Ret [].
Proof.
  intros Hs Ht. unfold storable, message_row in Hs. unfold message_row.
  rewrite Ht in Hs |- *.
  destruct (is_str "function_call"
              (Some (dict_get_default "type" (VStr "message") m))) eqn:Hc.
  - unfold row_message.
    cbn [row_message_type row_role row_content row_id row_extra_data
         row_call_id row_function_name].
    rewrite Ht, Hc. cbn -[is_str]. rewrite Ht. reflexivity.
  - destruct (is_str "function_call_output"
                (Some (dict_get_default "type" (VStr "message") m))) eqn:Ho.
    + unfold row_message.
      cbn [row_message_type row_role row_content row_id row_extra_data
           row_call_id row_function_name].
      rewrite Ht, Hc, Ho. cbn -[is_str]. rewrite Ht. reflexivity.
    + cbn [row_message_type existsb] in Hs. rewrite Ht, Hc, Ho in Hs.
      discriminate Hs.
Qed.

Lemma row_conversation_of_message_row (id c : nat) (m : dict) :
  row_conversation_id (message_row E id c m) = c.
Proof.
  unfold message_row.
  repeat match goal with |- context [if ?b then _ else _] => destruct b end;
    reflexivity.
Qed.

Lemma reload_rows (c : nat) (log : list (nat * dict)) :
  forall g : nat -> nat,
    Forall (fun cm : nat * dict => storable E cm.2 = true) log ->
    openai_messages
      (map (row_message E)
           (List.filter (fun r => Nat.eqb (row_conversation_id r) c)
                        (imap (fun i (cm : nat * dict) =>
                                 message_row E (g i) cm.1 cm.2) log)))
    = Ret (omap (role_turn c) log).
Proof.
  induction log as [| [c' m] log IH]; intros g Hall; [reflexivity |].
  apply Forall_cons_1 in Hall as [Hm Hall].
  cbn [imap List.filter fst snd].
  rewrite row_conversation_of_message_row.
  specialize (IH (g ∘ S) Hall). unfold compose in IH.
  change (imap ((fun (i : nat) (cm : nat * dict) =>
                   message_row E (g i) cm.1 cm.2) ∘ S) log)
    with (imap (fun (i : nat) (cm : nat * dict) =>
                  message_row E (g (S i)) cm.1 cm.2) log).
  cbn [omap list_omap]. unfold role_turn at 1. cbn [fst snd].
  destruct (Nat.eqb c' c); cbn [andb]; [| exact IH].
  cbn [map].
  change (row_message E (message_row E (g 0) c' m) :: ?l)
    with ([row_message E (message_row E (g 0) c' m)] ++ l)%list.
  destruct (is_str "message"
              (Some (dict_get_default "type" (VStr "message") m))) eqn:Ht.
  - rewrite (openai_messages_app _ _ _ (row_message_of_message _ _ _ Ht)).
    rewrite IH. reflexivity.
  - rewrite (openai_messages_app _ _ _
               (row_message_of_tool_turn _ _ _ Hm Ht)).
    rewrite IH. reflexivity.
Qed.

(** X20. For a log of messages that the store keeps as text, what
    [get_agent] reloads for a conversation is exactly the role and
    content of the message turns saved in that conversation, in the
    order they were saved: tool calls, tool outputs and the turns of other
    conversations are passed over, and no [KeyError] is raised. *)
Theorem reloaded_history_is_the_message_turns
        (c : nat) (log : list (nat * dict)) :
  Forall (fun cm : nat * dict => storable E cm.2 = true) log ->
  get_messages_for_openai E c log = Ret (omap (role_turn c) log).
Proof.
  intros Hall. unfold get_messages_for_openai, get_messages, db_rows.
  exact (reload_rows c log S Hall).
Qed.

(** Saving one more message turn adds its role and content at the end
    of what is reloaded. *)
Lemma reload_snoc_message (c : nat) (log : list (nat * dict)) (m : dict)
      (h : list dict) :
  is_str "message" (Some (dict_get_default "type" (VStr "message") m)) = true ->
  get_messages_for_openai E c log = Ret h ->
  get_messages_for_openai E c (log ++ [(c, m)])
  = Ret (h ++ [[("role", dict_get_default "role" VNone m);
                ("content",
                 dict_get_default "content" (VStr EmptyString) m)]])%list.
Proof.
  intros Ht Hh. unfold get_messages_for_openai, get_messages, db_rows in *.
  rewrite imap_app, List.filter_app, map_app.
  rewrite (openai_messages_app _ _ _ Hh).
  cbn [imap List.filter fst snd].
  rewrite row_conversation_of_message_row, Nat.eqb_refl. cbn [map].
  rewrite (row_message_of_message _ _ _ Ht). reflexivity.
Qed.

(** The messages and the log after a query that the model answers
    without a tool. *)
Lemma direct_answer_state (fuel : nat) (agent_id query : string)
      (conversation_id : option nat) (w : world) (resp : response)
      (u : dict) :
  responses_create E (first_request E conversation_id query w) = Ret resp ->
  List.filter is_function_call (resp_output resp) = [] ->
  resp_usage resp = Some u ->
  String.eqb (resp_output_text resp) EmptyString = false ->
  let c := conversation_of conversation_id w in
  let w' := snd (query_agent E (S fuel) agent_id query conversation_id w) in
  agent_messages w'
  = (match conversation_id with Some _ => agent_messages w | None => [] end
     ++ [MsgDict [("role", VStr "user"); ("content", VStr query)];
         MsgDict [("role", VStr "assistant");
                  ("content", VStr (resp_output_text resp))]])%list
  /\ exists x,
      db_messages w'
      = (db_messages w
         ++ [(c, user_turn query);
             (c, assistant_turn (resp_output_text resp) x)])%list.
Proof.
  intros Hresp Hcalls Husage Htext. cbn zeta.
  unfold query_agent, process_user_input, exchange, try_except, bind,
    db_save_message, db_create_conversation, append_message, modify,
    client_responses_create, log_event, modify, bind, lift_outcome, get_world,
    ret.
  unfold first_request, messages_at_first_request in Hresp.
  destruct conversation_id as [c |]; cbn in Hresp |- *; rewrite Hresp; cbn;
    rewrite Husage, Hcalls; cbn; rewrite Htext; cbn;
    rewrite <- !app_assoc; (split; [reflexivity |]); eexists; reflexivity.
Qed.

(** X21. A query answered without a tool keeps the agent's messages and the
    stored history in step, provided the answer is a non-empty text and
    the response carries a usage record: if the messages the query
    starts from are what the store reloads for the conversation, the
    messages it ends with are what the store reloads afterwards, namely
    the same history followed by the user turn and the assistant turn.
    Resuming the conversation later then gives the model the context it
    had. (Without the usage record the exchange ends in the apology,
    which is stored but not appended to the messages.) *)
Theorem direct_answer_keeps_history_in_step
        (fuel : nat) (agent_id query : string)
        (conversation_id : option nat) (w : world) (resp : response)
        (u : dict) (h : list dict) :
  responses_create E (first_request E conversation_id query w) = Ret resp ->
  List.filter is_function_call (resp_output resp) = [] ->
  resp_usage resp = Some u ->
  String.eqb (resp_output_text resp) EmptyString = false ->
  let c := conversation_of conversation_id w in
  get_messages_for_openai E c (db_messages w) = Ret h ->
  match conversation_id with Some _ => agent_messages w | None => [] end
  = map MsgDict h ->
  let w' := snd (query_agent E (S fuel) agent_id query conversation_id w) in
  let h' :=
    (h ++ [[("role", VStr "user"); ("content", VStr query)];
           [("role", VStr "assistant");
            ("content", VStr (resp_output_text resp))]])%list in
  get_messages_for_openai E c (db_messages w') = Ret h'
  /\ agent_messages w' = map MsgDict h'.
Proof.
  intros Hresp Hcalls Husage Htext c Hh Hmem w' h'.
  destruct (direct_answer_state fuel agent_id query conversation_id w resp u
              Hresp Hcalls Husage Htext) as (Hm & x & Hd).
  fold c in Hd. fold w' in Hm, Hd. split.
  - rewrite Hd.
    replace (db_messages w
             ++ [(c, user_turn query);
                 (c, assistant_turn (resp_output_text resp) x)])%list
      with ((db_messages w ++ [(c, user_turn query)])
              ++ [(c, assistant_turn (resp_output_text resp) x)])%list
      by (rewrite <- app_assoc; reflexivity).
    rewrite (reload_snoc_message c _ (assistant_turn (resp_output_text resp) x)
               (h ++ [[("role", VStr "user"); ("content", VStr query)]])%list
               eq_refl).
    + unfold h'. rewrite <- app_assoc. reflexivity.
    + exact (reload_snoc_message c _ (user_turn query) h eq_refl Hh).
  - rewrite Hm, Hmem. unfold h'. rewrite map_app. reflexivity.
Qed.

End StoredHistory.

(** ** The analysis route and the persistent executor *)

Section AnalyzeRoute.

Variable E : Env.

(** X22. The [/analyze] route never runs an analysis: it calls [run_script]
    without the [conversation_id] the function requires, so the call
    raises [TypeError] for every request and every state of the agent,
    before the Dataset Context is looked at, and nothing is changed. *)
Theorem analyze_route_always_raises (analysis_request : pyval) (w : world) :
  exists msg,
    run_analysis_script E analysis_request w = (Raise (TypeError msg), w).
Proof.
  eexists. unfold run_analysis_script, bind, lift_outcome. cbn. reflexivity.
Qed.

Variable default_venv_dir : string -> string.

(** X23. An environment directory that is already there is reused: nothing
    is created; the packages are installed again, with the interpreter
    of that directory, and the only other process started is the script,
    after the installer. *)
Theorem persistent_env_is_reused (sp rp : string) (venv_dir : option string)
        (w : world) (n : node) :
  let d := match venv_dir with
           | None => default_venv_dir sp
           | Some d => d
           end in
  fs w !! d = Some n ->
  let w' := snd (execute_script_in_persistent_venv
                   E default_venv_dir sp rp venv_dir w) in
  trace w' = (trace w ++ [EvSpawn (pip_argv (venv_python E d) rp)])%list
  \/ trace w' = (trace w ++ [EvSpawn (pip_argv (venv_python E d) rp);
                             EvSpawn [venv_python E d; sp]])%list.
Proof.
  intros d Hex. cbn zeta.
  unfold execute_script_in_persistent_venv. fold d.
  unfold try_except, bind, os_path_exists. rewrite Hex. cbn [negb].
  unfold ret, install_and_run, subprocess_run_check, subprocess_run_, bind,
    log_event, modify, raise, ret, execute_handlers.
  cbn.
  destruct (subprocess_run E (pip_argv _ _) (fs w)) as [[pip | e] f2]; cbn.
  2: { destruct e; cbn; auto. }
  destruct (returncode pip) as [| k]; cbn; [| auto].
  destruct (subprocess_run E [_; _] f2) as [[run | e] f3]; cbn.
  2: { destruct e; cbn; rewrite <- ?app_assoc; auto. }
  destruct (returncode run); cbn; rewrite <- app_assoc; auto.
Qed.

(** X24. A missing environment directory is created first, and a creation
    that raises an [Exception] ends the call with an error result before
    any process is started. *)
Theorem persistent_env_is_created_when_missing
        (sp rp : string) (venv_dir : option string) (w : world) :
  let d := match venv_dir with
           | None => default_venv_dir sp
           | Some d => d
           end in
  fs w !! d = None ->
  let r := execute_script_in_persistent_venv
             E default_venv_dir sp rp venv_dir w in
  exists rest,
    trace (snd r) = (trace w ++ EvVenvCreate d :: rest)%list
    /\ (forall e f1,
          venv_create E d (fs w) = (Raise e, f1) ->
          is_Exception e = true ->
          rest = [] /\ exists msg, fst r = Ret (err msg)).
Proof.
  intros d Hex. cbn zeta.
  unfold execute_script_in_persistent_venv. fold d.
  unfold try_except, bind, os_path_exists. rewrite Hex. cbn [negb].
  unfold venv_create_, install_and_run, subprocess_run_check, subprocess_run_,
    bind, log_event, modify, raise, ret, execute_handlers.
  cbn.
  destruct (venv_create E d (fs w)) as [[[] | e] f1] eqn:Hv; cbn.
  - destruct (subprocess_run E (pip_argv _ _) f1) as [[pip | e] f2]; cbn.
    + destruct (returncode pip) as [| k]; cbn.
      * destruct (subprocess_run E [_; _] f2) as [[run | e] f3]; cbn.
        -- destruct (returncode run); cbn; rewrite <- !app_assoc;
             eexists; (split; [reflexivity |]); intros ? ? [=].
        -- destruct e; cbn; rewrite <- !app_assoc;
             eexists; (split; [reflexivity |]); intros ? ? [=].
      * rewrite <- !app_assoc.
        eexists; (split; [reflexivity |]); intros ? ? [=].
    + destruct e; cbn; rewrite <- !app_assoc;
        eexists; (split; [reflexivity |]); intros ? ? [=].
  - exists []. split.
    + destruct e; cbn; reflexivity.
    + intros e' f1' [= <- <-] He. split; [reflexivity |].
      destruct e; cbn in He |- *; try discriminate; eauto.
Qed.

End AnalyzeRoute.

(** ** The streamed mode of an exchange *)

Section Streamed.

Lemma calls_get_set_same (index : nat) (it : output_item)
      (calls : list (nat * output_item)) :
  calls_get index (calls_set index it calls) = Some it.
Proof.
  induction calls as [| [i x] calls IH]; cbn.
  - rewrite Nat.eqb_refl. reflexivity.
  - destruct (Nat.eqb i index) eqn:Hi; cbn; rewrite Hi; auto.
Qed.

Lemma calls_get_set_other (index j : nat) (it : output_item)
      (calls : list (nat * output_item)) :
  Nat.eqb j index = false ->
  calls_get index (calls_set j it calls) = calls_get index calls.
Proof.
  intros Hj. induction calls as [| [i x] calls IH]; cbn.
  - rewrite Hj. reflexivity.
  - destruct (Nat.eqb i j) eqn:Hi; cbn.
    + apply Nat.eqb_eq in Hi as ->. rewrite Hj. reflexivity.
    + destruct (Nat.eqb i index); auto.
Qed.

Lemma append_empty_r (s : string) : s +:+ EmptyString = s.
Proof.
  induction s as [| a s IH]; [reflexivity |].
  change (String a s +:+ EmptyString) with (String a (s +:+ EmptyString)).
  rewrite IH. reflexivity.
Qed.

Lemma add_arguments_empty (it : output_item) :
  add_arguments EmptyString it = it.
Proof.
  destruct it. unfold add_arguments. cbn [item_type item_call_id item_name
  item_arguments]. rewrite append_empty_r. reflexivity.
Qed.

Lemma add_arguments_twice (d1 d2 : string) (it : output_item) :
  add_arguments d2 (add_arguments d1 it) = add_arguments (d1 +:+ d2) it.
Proof.
  unfold add_arguments. cbn. rewrite PyStrFacts.append_assoc. reflexivity.
Qed.

(** The loop from a state in which [index] holds [it]. *)
Lemma stream_from_item (index : nat) (post : list stream_event) :
  forall (calls : list (nat * output_item)) (text : string)
         (it : output_item) (acc : string),
    no_item_added index post = true ->
    calls_get index calls = Some (add_arguments acc it) ->
    calls_get index (fold_left stream_step post (calls, text)).1
    = Some (add_arguments (acc +:+ deltas_for index post) it).
Proof.
  induction post as [| e post IH]; intros calls text it acc Hno Hget.
  - cbn [fold_left deltas_for fst]. rewrite Hget, append_empty_r.
    reflexivity.
  - cbn [fold_left]. destruct e as [| delta | t | j item | j delta | ty];
      cbn [stream_step no_item_added deltas_for] in Hno |- *;
      try (apply IH; assumption).
    + apply andb_prop in Hno as [Hj Hno]. apply negb_true_iff in Hj.
      apply IH; [assumption |].
      rewrite (calls_get_set_other _ _ _ _ Hj). exact Hget.
    + destruct (Nat.eqb j index) eqn:Hj.
      * apply Nat.eqb_eq in Hj as ->. rewrite Hget.
        rewrite <- PyStrFacts.append_assoc. apply IH; [assumption |].
        rewrite calls_get_set_same, add_arguments_twice. reflexivity.
      * destruct (calls_get j calls) as [x |]; [| apply IH; assumption].
        apply IH; [assumption |].
        rewrite (calls_get_set_other _ _ _ _ Hj). exact Hget.
Qed.

(** The loop from a state in which [index] holds nothing. *)
Lemma stream_without_item (index : nat) (events : list stream_event) :
  forall (calls : list (nat * output_item)) (text : string),
    no_item_added index events = true ->
    calls_get index calls = None ->
    calls_get index (fold_left stream_step events (calls, text)).1 = None.
Proof.
  induction events as [| e events IH]; intros calls text Hno Hget;
    [exact Hget |].
  cbn [fold_left]. destruct e as [| delta | t | j item | j delta | ty];
    cbn [stream_step no_item_added] in Hno |- *;
    try (apply IH; assumption).
  - apply andb_prop in Hno as [Hj Hno]. apply negb_true_iff in Hj.
    apply IH; [assumption |].
    rewrite (calls_get_set_other _ _ _ _ Hj). exact Hget.
  - destruct (Nat.eqb j index) eqn:Hj.
    + apply Nat.eqb_eq in Hj as ->. rewrite Hget. apply IH; assumption.
    + destruct (calls_get j calls) as [x |]; [| apply IH; assumption].
      apply IH; [assumption |].
      rewrite (calls_get_set_other _ _ _ _ Hj). exact Hget.
Qed.

Lemma accumulate_stream_app (pre post : list stream_event) :
  accumulate_stream (pre ++ post)
  = fold_left stream_step post (accumulate_stream pre).
Proof. unfold accumulate_stream. apply fold_left_app. Qed.

(** X25. In a stream whose added items are function calls, the arguments of
    a streamed tool call are the arguments of the item
    as it was last added at its index, followed by the fragments
    addressed to that index afterwards, in the order they arrived;
    fragments for other indexes, and whatever was accumulated before the
    item was added again, do not enter. *)
Theorem streamed_arguments_accumulate
        (pre post : list stream_event) (index : nat) (item : output_item) :
  items_are_calls (pre ++ SevItemAdded index item :: post) = true ->
  no_item_added index post = true ->
  calls_get index
            (accumulate_stream (pre ++ SevItemAdded index item :: post)).1
  = Some (add_arguments (deltas_for index post) item).
Proof.
  intros _ Hno. rewrite accumulate_stream_app. cbn [fold_left].
  destruct (accumulate_stream pre) as [calls text]. cbn [stream_step].
  apply (stream_from_item index post (calls_set index item calls) text
           item EmptyString Hno).
  rewrite calls_get_set_same, add_arguments_empty. reflexivity.
Qed.

(** X26. Fragments addressed to an index at which no item was added are
    dropped: the index holds no tool call at the end of the stream. *)
Theorem streamed_fragments_without_item_are_dropped
        (events : list stream_event) (index : nat) :
  no_item_added index events = true ->
  calls_get index (accumulate_stream events).1 = None.
Proof.
  intros Hno. unfold accumulate_stream.
  apply stream_without_item; [assumption | reflexivity].
Qed.



End Streamed.

(** ** Uploads *)

Section Uploads.

Lemma basename_no_slash (p : string) :
  PyStr.has_char "/" (basename p) = false.
Proof.
  induction p as [| c rest IH]; [reflexivity |].
  cbn [basename]. destruct (PyStr.has_char "/" rest) eqn:Hr; [exact IH |].
  destruct (Ascii.eqb c "/") eqn:Hc; [exact Hr |].
  cbn [PyStr.has_char]. rewrite Hr, orb_false_r.
  rewrite Ascii.eqb_sym. exact Hc.
Qed.

Lemma endswith_basename (q p : string) :
  PyStr.has_char "/" q = false ->
  PyStr.endswith q p = true ->
  PyStr.endswith q (basename p) = true.
Proof.
  intros Hq. induction p as [| c rest IH]; intros H; [exact H |].
  cbn [basename]. cbn [PyStr.endswith] in H.
  destruct (PyStr.has_char "/" rest) eqn:Hr.
  - apply IH. apply orb_true_iff in H as [H | H]; [| exact H].
    apply String.eqb_eq in H. subst q. cbn [PyStr.has_char] in Hq.
    rewrite Hr, orb_true_r in Hq. discriminate Hq.
  - destruct (Ascii.eqb c "/") eqn:Hc.
    + apply orb_true_iff in H as [H | H]; [| exact H].
      apply String.eqb_eq in H. subst q. cbn [PyStr.has_char] in Hq.
      rewrite Ascii.eqb_sym, Hc in Hq. discriminate Hq.
    + cbn [PyStr.endswith]. exact H.
Qed.

Lemma path_join_datasets (n : string) :
  PyStr.has_char "/" n = false ->
  PyStr.path_join "datasets" n = "datasets/" +:+ n.
Proof.
  intros Hn. unfold PyStr.path_join.
  assert (Hs : PyStr.startswith "/" n = false).
  { destruct n as [| c n]; [reflexivity |]. cbn in Hn |- *.
    apply orb_false_iff in Hn as [-> _]. reflexivity. }
  rewrite Hs. reflexivity.
Qed.

Lemma datasets_is_no_child (n : string) : "datasets/" +:+ n <> "datasets".
Proof. intros H. discriminate H. Qed.

(** The storage location as the directory step of an upload leaves it. *)
Lemma upload_blocked (filename content c : string) (w : world) :
  PyStr.endswith ".csv" filename = true ->
  fs w !! "datasets" = Some (File c) ->
  exists msg,
    upload_dataset filename content w = (Raise (Exception_ msg), w).
Proof.
  intros Hend Hd. unfold upload_dataset. rewrite Hend. cbn [negb].
  unfold bind, try_except, os_makedirs, http_500, raise. rewrite Hd. cbn.
  eauto.
Qed.

Lemma upload_unfold (filename content : string) (w : world)
      (f1 : gmap string node) :
  PyStr.endswith ".csv" filename = true ->
  (fs w !! "datasets" = Some Dir /\ f1 = fs w)
  \/ (fs w !! "datasets" = None /\ f1 = <["datasets" := Dir]> (fs w)) ->
  let p := "datasets/" +:+ basename filename in
  f1 !! "datasets" = Some Dir
  /\ match f1 !! p with
     | Some Dir =>
         exists msg,
           upload_dataset filename content w
           = (Raise (Exception_ msg), set_fs f1 w)
     | _ =>
         upload_dataset filename content w
         = (Ret [("status", VStr "success");
                 ("filename", VStr (basename filename));
                 ("message",
                  VStr ("File '" +:+ basename filename
                        +:+ "' uploaded successfully to datasets directory"))],
            set_fs (<[p := File content]> f1) w)
     end.
Proof.
  intros Hend Hcase p. unfold upload_dataset. rewrite Hend. cbn [negb].
  rewrite (path_join_datasets _ (basename_no_slash filename)). fold p.
  unfold bind, try_except, os_makedirs, write_file, http_500, raise, ret.
  destruct Hcase as [[Hd ->] | [Hd ->]]; rewrite Hd.
  - split; [reflexivity |]. destruct w as [f t d df m cs ms tr]; cbn in *.
    destruct (f !! p) as [[| c] |] eqn:Hp; cbn; rewrite ?Hp; cbn; eauto.
  - split; [apply lookup_insert_eq |]. cbn.
    destruct (<["datasets" := Dir]> (fs w) !! p) as [[| c] |] eqn:Hp; cbn;
      eauto.
Qed.

Lemma upload_cases (w : world) :
  (exists c, fs w !! "datasets" = Some (File c))
  \/ exists f1 : gmap string node,
      ((fs w !! "datasets" = Some Dir /\ f1 = fs w)
       \/ (fs w !! "datasets" = None
           /\ f1 = <["datasets" := Dir]> (fs w)))
      /\ forall q : string, q <> "datasets" -> f1 !! q = fs w !! q.
Proof.
  destruct (fs w !! "datasets") as [[| c] |] eqn:Hd.
  - right. exists (fs w). split; auto.
  - left. eauto.
  - right. exists (<["datasets" := Dir]> (fs w)). split; [auto |].
    intros q Hq. apply lookup_insert_ne. congruence.
Qed.

(** X28. An upload that is accepted makes the file available: it is stored
    under its base name as a direct child of the storage location,
    whatever directories the client put in front of the name, and the
    next [get_dataset_list] succeeds and lists it. *)
Theorem upload_then_listed (filename content : string) (w w' : world)
        (r : dict) :
  upload_dataset filename content w = (Ret r, w') ->
  dict_get "filename" r = Some (VStr (basename filename))
  /\ fs w' !! ("datasets/" +:+ basename filename) = Some (File content)
  /\ is_dataset_file w' (basename filename)
  /\ exists files,
      get_dataset_list w'
      = (Ret [("status", VStr "success");
              ("datasets", VList (map VStr files))], w')
      /\ In (basename filename) files.
Proof.
  intros H.
  destruct (PyStr.endswith ".csv" filename) eqn:Hend.
  2: { unfold upload_dataset in H. rewrite Hend in H. discriminate H. }
  destruct (upload_cases w) as [[c Hd] | (f1 & Hcase & _)].
  { destruct (upload_blocked filename content c w Hend Hd) as [msg U].
    rewrite U in H. discriminate H. }
  destruct (upload_unfold filename content w f1 Hend Hcase) as [Hdir U].
  set (p := "datasets/" +:+ basename filename) in *.
  assert (Hw : w' = set_fs (<[p := File content]> f1) w
               /\ r = [("status", VStr "success");
                       ("filename", VStr (basename filename));
                       ("message",
                        VStr ("File '" +:+ basename filename
                              +:+ "' uploaded successfully to datasets directory"))]).
  { destruct (f1 !! p) as [[| c] |].
    - destruct U as [msg U]. rewrite U in H. discriminate H.
    - rewrite U in H. injection H as <- <-. auto.
    - rewrite U in H. injection H as <- <-. auto. }
  destruct Hw as [-> ->]. clear U H.
  assert (Hfile : is_dataset_file (set_fs (<[p := File content]> f1) w)
                                  (basename filename)).
  { repeat split.
    - apply endswith_basename; [reflexivity | exact Hend].
    - apply basename_no_slash.
    - cbn. fold p. rewrite lookup_insert_eq. eauto. }
  split; [reflexivity |]. split; [apply lookup_insert_eq |].
  split; [exact Hfile |].
  apply dataset_files_spec in Hfile.
  assert (Hd' : fs (set_fs (<[p := File content]> f1) w) !! "datasets"
                = Some Dir).
  { cbn [fs set_fs]. rewrite lookup_insert_ne by apply datasets_is_no_child.
    exact Hdir. }
  unfold get_dataset_list, bind, os_path_exists, os_listdir.
  rewrite Hd'. cbn [negb]. rewrite Hd'.
  exists (List.filter (PyStr.endswith ".csv")
                      (listdir_names "datasets"
                         (fs (set_fs (<[p := File content]> f1) w)))).
  split; [| exact Hfile].
  destruct (List.filter _ _); [destruct Hfile | reflexivity].
Qed.

(** X29. An upload writes nowhere but into the storage location: whatever
    the file name and whether the upload succeeds or not, every path
    other than "datasets" and its direct children is left as it was, and
    so are the Dataset Context, the messages and the log. A name that
    does not end in ".csv" is refused before anything is touched. *)
Theorem upload_is_confined (filename content : string) (w : world) :
  let w' := snd (upload_dataset filename content w) in
  (forall p, p <> "datasets" -> child_name "datasets" p = None ->
             fs w' !! p = fs w !! p)
  /\ agent_data w' = agent_data w
  /\ agent_data_file w' = agent_data_file w
  /\ agent_messages w' = agent_messages w
  /\ db_messages w' = db_messages w
  /\ trace w' = trace w
  /\ (PyStr.endswith ".csv" filename = false ->
      upload_dataset filename content w
      = (Raise (Exception_ "400: Only CSV files are allowed"), w)).
Proof.
  cbn zeta.
  destruct (PyStr.endswith ".csv" filename) eqn:Hend.
  2: { unfold upload_dataset. rewrite Hend. cbn. repeat split; auto. }
  destruct (upload_cases w) as [[c Hd] | (f1 & Hcase & Hf1)].
  { destruct (upload_blocked filename content c w Hend Hd) as [msg U].
    rewrite U. repeat split; auto; discriminate. }
  destruct (upload_unfold filename content w f1 Hend Hcase) as [Hdir U].
  set (p := "datasets/" +:+ basename filename) in *.
  assert (Hchild : child_name "datasets" p = Some (basename filename)).
  { apply child_name_Some. split; [reflexivity |]. split.
    - apply (PyStrFacts.endswith_nonempty ".csv"); [discriminate |].
      apply endswith_basename; [reflexivity | exact Hend].
    - apply basename_no_slash. }
  destruct (f1 !! p) as [[| c] |].
  - destruct U as [msg U]. rewrite U. cbn.
    repeat split; auto; discriminate.
  - rewrite U. cbn. repeat split; auto; try discriminate.
    intros q Hq Hc. rewrite lookup_insert_ne; [auto |].
    intros <-. congruence.
  - rewrite U. cbn. repeat split; auto; try discriminate.
    intros q Hq Hc. rewrite lookup_insert_ne; [auto |].
    intros <-. congruence.
Qed.

End Uploads.

(** ** The further statements at work on the example scenario *)

Section MoreInstances.
Import Scenario Scenario2.

Lemma call_function_keeps_conversation_state_witness :
  db_messages (snd (call_function E0 "run_script"
                      (VDict [("analysis_request", VStr "average price")])
                      1 w_loaded))
  = db_messages w_loaded.
Proof.
  exact (proj1 (proj2 (call_function_keeps_conversation_state E0 "run_script"
                         (VDict [("analysis_request", VStr "average price")])
                         1 w_loaded))).
Defined.

Lemma only_load_dataset_changes_context_witness :
  agent_data (snd (call_function E0 "run_script"
                     (VDict [("analysis_request", VStr "average price")])
                     1 w_loaded))
  = Some prices.
Proof.
  exact (proj1 (only_load_dataset_changes_context E0 "run_script"
                  (VDict [("analysis_request", VStr "average price")])
                  1 w_loaded ltac:(intros H; discriminate H))).
Defined.

Lemma only_run_script_has_effects_witness :
  fs (snd (call_function E0 "load_dataset"
             (VDict [("filename", VStr "prices.csv")]) 1 w_start))
  = disk.
Proof.
  exact (proj1 (only_run_script_has_effects E0 "load_dataset"
                  (VDict [("filename", VStr "prices.csv")]) 1 w_start
                  ltac:(intros H; discriminate H))).
Defined.

Lemma unknown_tool_is_an_error_result_witness :
  call_function E0 "plot_chart" (VDict []) 1 w_start
  = (Ret (err "Unknown tool: plot_chart"), w_start).
Proof.
  exact (unknown_tool_is_an_error_result E0 "plot_chart" (VDict []) 1
           w_start eq_refl).
Defined.

Lemma load_then_info_witness :
  fst (bind (load_dataset E0 (VStr "prices.csv"))
            (fun _ => get_data_info E0) w_start)
  = Ret [("status", VStr "success");
         ("filename", VStr "prices.csv");
         ("shape", VTuple [VInt 2; VInt 2]);
         ("columns", VList [VStr "date"; VStr "price"]);
         ("dtypes", VDict [("date", VStr "object");
                           ("price", VStr "float64")]);
         ("summary", VDict [])].
Proof.
  rewrite (load_then_info E0 "prices.csv" w_start (File "date,price") prices
             ltac:(vm_compute; reflexivity) ltac:(reflexivity)).
  reflexivity.
Defined.

Lemma preview_and_info_read_only_witness :
  snd (get_data_info E0 w_loaded) = w_loaded.
Proof.
  exact (proj1 (proj2 (preview_and_info_read_only E0 w_loaded))).
Defined.

Lemma previews_are_bounded_witness :
  exists records,
    dict_get "preview"
      (match fst (get_data_preview w_loaded) with
       | Ret d => d
       | Raise _ => []
       end)
    = Some (VList records)
    /\ length records = 2.
Proof.
  destruct (previews_are_bounded w_loaded prices eq_refl)
    as (records & Hget & Hlen & _).
  exists records. split; [exact Hget | exact Hlen].
Defined.

Lemma load_dataset_absolute_path_witness :
  exists d,
    load_dataset E0 (VStr "/etc/secrets.csv") w_outside
    = (Ret d,
       set_agent_data_file (Some "/etc/secrets.csv")
                           (set_agent_data (Some prices) w_outside))
    /\ dict_get "status" d = Some (VStr "success").
Proof.
  exact (load_dataset_absolute_path E0 "etc/secrets.csv" w_outside
           (File "k,v") prices ltac:(vm_compute; reflexivity)
           ltac:(reflexivity)).
Defined.



Lemma provisioning_failure_spawns_nothing_witness :
  trace (snd (execute_standalone_script E_no_venv script_path
                                        requirements_path w_loaded))
  = [EvVenvCreate "/tmp/tmpa1"].
Proof.
  exact (proj2 (provisioning_failure_spawns_nothing E_no_venv script_path
                  requirements_path w_loaded "/tmp/tmpa1" ["/tmp/tmpb2"]
                  (<["/tmp/tmpa1" := Dir]> (fs w_loaded))
                  (Exception_ "ensurepip is not available")
                  ltac:(vm_compute; reflexivity) ltac:(reflexivity)
                  ltac:(reflexivity))).
Defined.

Lemma run_script_artifacts_outlive_execution_witness :
  fs (snd (run_script E_inert (VStr "average price") 1 w_loaded))
  !! "generated_scripts/analysis_script.py"
  = Some (File "print(result)").
Proof.
  refine (proj1 (run_script_artifacts_outlive_execution E_inert
                   (VStr "average price") 1 w_loaded prices "prices.csv"
                   {| resp_output_text :=
                        "PACKAGES: pandas" +:+ PyStr.nl +:+ "print(result)";
                      resp_output := []; resp_usage := Some usage |}
                   [("script", VStr "print(result)");
                    ("packages", VList [VStr "pandas"])]
                   "print(result)" ["pandas"]
                   eq_refl eq_refl eq_refl _ eq_refl _ eq_refl _ _ _ _ _)).
  - vm_compute. reflexivity.
  - intros H. discriminate H.
  - intros content H. vm_compute in H. discriminate H.
  - intros H. vm_compute in H. discriminate H.
  - intros H. vm_compute in H. discriminate H.
  - split; [intros; reflexivity |].
    intros [| a [| b [| c argv]]] f; reflexivity.
  - split; [intros; reflexivity |].
    intros [| a [| b [| c argv]]] f; reflexivity.
Defined.

Lemma clean_script_is_clean_witness :
  PyStr.contains "```" (_clean_script ("```python" +:+ PyStr.nl +:+ "print(1)"
                                       +:+ PyStr.nl +:+ "```"))
  = false.
Proof.
  exact (proj1 (clean_script_is_clean
                  ("```python" +:+ PyStr.nl +:+ "print(1)"
                   +:+ PyStr.nl +:+ "```"))).
Defined.

Lemma clean_script_without_fence_witness :
  _clean_script (" print(1)" +:+ PyStr.nl) = "print(1)".
Proof.
  rewrite (clean_script_without_fence (" print(1)" +:+ PyStr.nl) eq_refl).
  reflexivity.
Defined.

Lemma generate_script_none_only_on_exception_witness :
  fst (generate_script E_model_down (VStr "average price")
                       "datasets/prices.csv" 1 w_loaded)
  = Ret None.
Proof.
  exact (proj2 (generate_script_none_only_on_exception E_model_down
                  (VStr "average price") "datasets/prices.csv" 1 w_loaded
                  prices eq_refl)).
Defined.

Lemma query_agent_model_failure_witness :
  trace (snd (query_agent E_agent_down 6 "finance" "Hello" None w_start))
  = [EvModelRequest (first_request E_agent_down None "Hello" w_start)].
Proof.
  exact (proj2 (proj2 (query_agent_model_failure E_agent_down 5 "finance"
                         "Hello" None w_start
                         (Exception_ "Connection error.")
                         eq_refl eq_refl))).
Defined.

Lemma query_agent_direct_answer_witness :
  fst (query_agent E0 6 "finance" "Hello" (Some 1) w_start)
  = Ret (Some
      [("response", VStr "The average price is 101.5.");
       ("tool_results", VNone);
       ("conversation_id", VInt 1);
       ("extra_data", VStr "{...}")]).
Proof.
  exact (proj1 (query_agent_direct_answer E0 5 "finance" "Hello" (Some 1)
                  w_start
                  {| resp_output_text := "The average price is 101.5.";
                     resp_output := []; resp_usage := Some usage |}
                  eq_refl eq_refl)).
Defined.

Lemma tool_result_follows_its_call_witness :
  exists args result,
    [VDict [("tool", VStr "get_dataset_list"); ("arguments", VDict []);
            ("result",
             VDict [("status", VStr "success");
                    ("datasets", VList [VStr "prices.csv"])])]]
    = ([] ++ [VDict [("tool", VStr "get_dataset_list");
                     ("arguments", args);
                     ("result", VDict result)]])%list.
Proof.
  destruct (tool_result_follows_its_call E0 1 []
              [VDict [("tool", VStr "get_dataset_list");
                      ("arguments", VDict []);
                      ("result",
                       VDict [("status", VStr "success");
                              ("datasets", VList [VStr "prices.csv"])])]]
              (call "get_dataset_list" "{}") w_start
              (snd (dispatch_tool_call E0 1 []
                      (call "get_dataset_list" "{}") w_start))
              eq_refl ltac:(vm_compute; reflexivity))
    as (args & result & Hres & _).
  exists args, result. exact Hres.
Defined.

Lemma dispatch_batch_in_order_witness :
  exists added,
    map tool_of added = ["get_dataset_list"; "get_data_info"].
Proof.
  destruct (dispatch_batch_in_order E0 1
              [call "get_dataset_list" "{}"; call "get_data_info" "{}"]
              []
              (match fst (dispatch_batch E0 1 []
                            [call "get_dataset_list" "{}";
                             call "get_data_info" "{}"] w_start) with
               | Ret l => l
               | Raise _ => []
               end)
              w_start
              (snd (dispatch_batch E0 1 []
                      [call "get_dataset_list" "{}";
                       call "get_data_info" "{}"] w_start))
              ltac:(vm_compute; reflexivity))
    as (added & _ & Hnames & _).
  exists added. exact Hnames.
Defined.

Lemma reloaded_history_is_the_message_turns_witness :
  get_messages_for_openai E0 1 log2
  = Ret [[("role", VStr "user");
          ("content", VStr "Which datasets are there?")];
         [("role", VStr "assistant");
          ("content", VStr "There is prices.csv.")]].
Proof.
  rewrite (reloaded_history_is_the_message_turns E0 1 log2).
  - reflexivity.
  - repeat constructor.
Defined.

Lemma direct_answer_keeps_history_in_step_witness :
  agent_messages (snd (query_agent E0 6 "finance" "Hello" (Some 1) w_start))
  = [MsgDict [("role", VStr "user"); ("content", VStr "Hello")];
     MsgDict [("role", VStr "assistant");
              ("content", VStr "The average price is 101.5.")]].
Proof.
  exact (proj2 (direct_answer_keeps_history_in_step E0 5 "finance" "Hello"
                  (Some 1) w_start
                  {| resp_output_text := "The average price is 101.5.";
                     resp_output := []; resp_usage := Some usage |}
                  usage [] eq_refl eq_refl eq_refl eq_refl eq_refl eq_refl)).
Defined.

Lemma analyze_route_always_raises_witness :
  exists msg,
    run_analysis_script E0 (VStr "average price") w_loaded
    = (Raise (TypeError msg), w_loaded).
Proof.
  exact (analyze_route_always_raises E0 (VStr "average price") w_loaded).
Defined.

Lemma persistent_env_is_reused_witness :
  trace (snd (execute_script_in_persistent_venv E0 next_to_script script_path
                requirements_path (Some "envs/analysis") w_venv))
  = [EvSpawn (pip_argv "envs/analysis/bin/python" requirements_path)]
  \/ trace (snd (execute_script_in_persistent_venv E0 next_to_script
                   script_path requirements_path (Some "envs/analysis")
                   w_venv))
     = [EvSpawn (pip_argv "envs/analysis/bin/python" requirements_path);
        EvSpawn ["envs/analysis/bin/python"; script_path]].
Proof.
  exact (persistent_env_is_reused E0 next_to_script script_path
           requirements_path (Some "envs/analysis") w_venv Dir
           ltac:(vm_compute; reflexivity)).
Defined.

Lemma persistent_env_is_created_when_missing_witness :
  exists rest,
    trace (snd (execute_script_in_persistent_venv E0 next_to_script
                  script_path requirements_path None w_loaded))
    = EvVenvCreate "generated_scripts/script_venv" :: rest.
Proof.
  destruct (persistent_env_is_created_when_missing E0 next_to_script
              script_path requirements_path None w_loaded
              ltac:(vm_compute; reflexivity))
    as (rest & Htrace & _).
  exists rest. exact Htrace.
Defined.

Lemma streamed_arguments_accumulate_witness :
  calls_get 1
    (accumulate_stream
       (SevCreated :: SevItemAdded 1 (call "get_dataset_list" EmptyString)
                   :: stream1)).1
  = Some (call "get_dataset_list" "{}").
Proof.
  exact (streamed_arguments_accumulate [SevCreated] stream1 1
           (call "get_dataset_list" EmptyString) eq_refl eq_refl).
Defined.

Lemma streamed_fragments_without_item_are_dropped_witness :
  calls_get 1 (accumulate_stream stream1).1 = None.
Proof.
  exact (streamed_fragments_without_item_are_dropped stream1 1 eq_refl).
Defined.


Lemma upload_then_listed_witness :
  exists files,
    get_dataset_list
      (snd (upload_dataset "reports/q1.csv" "a,b" w_start))
    = (Ret [("status", VStr "success");
            ("datasets", VList (map VStr files))],
       snd (upload_dataset "reports/q1.csv" "a,b" w_start))
    /\ In "q1.csv" files.
Proof.
  exact (proj2 (proj2 (proj2
           (upload_then_listed "reports/q1.csv" "a,b" w_start
              (snd (upload_dataset "reports/q1.csv" "a,b" w_start))
              [("status", VStr "success");
               ("filename", VStr "q1.csv");
               ("message",
                VStr "File 'q1.csv' uploaded successfully to datasets directory")]
              ltac:(vm_compute; reflexivity))))).
Defined.

Lemma upload_is_confined_witness :
  fs (snd (upload_dataset "../../etc/passwd.csv" "x" w_outside))
  !! "/etc/secrets.csv"
  = Some (File "k,v").
Proof.
  rewrite (proj1 (upload_is_confined "../../etc/passwd.csv" "x" w_outside)
             "/etc/secrets.csv" ltac:(intros H; discriminate H)
             ltac:(reflexivity)).
  vm_compute. reflexivity.
Defined.

End MoreInstances.
